(** * Booking lifecycle and availability engine of amromeet-backend

    A shallow embedding of the request handlers of [src/routes/bookings.js]
    and [src/routes/events.js], of the meeting provisioner of
    [src/services/googleMeetService.js] and of the tables of
    [src/migrations/001_init_schema.sql] they read and write.

    Modelling conventions.
    - A table is the list of its rows, in insertion order; the [analytics]
      table, whose only access path is its unique key
      [(user_id, event_type_id, date)], is a finite map on that key.
    - A [TIMESTAMP] and a JavaScript [Date] are the number of milliseconds
      since the epoch, as an integer; the server runs in UTC, so that
      [getDay] and [toTimeString] are the UTC projections of an instant.
      A [TIME] is a number of seconds since midnight, a [DATE] a number of
      days since the epoch.
    - A date-time that reaches a handler as a string of the request body is
      kept as what the string says, its wall-clock reading and its UTC
      offset, because JavaScript and PostgreSQL read such a string
      differently.
    - Every [pool.query] is one atomic step on the store.  A handler is a
      function from the store to a response and a new store; what a handler
      reads from outside the store (the clock, [uuidv4()], the outcome of
      the calendar API) is an explicit argument.
    - E-mail sending and reminder timers never touch the store and their
      failures are caught where they are called: they are left out. *)

From stdpp Require Import base decidable option list gmap strings sorting.
From Stdlib Require Import ZArith Lia.

Local Open Scope Z_scope.

(** ** Data model *)

Definition uuid := string.
Definition instant := Z.

(** [bookings.status]: the handlers only ever write these two values. *)
Inductive status := Confirmed | Cancelled.

#[global] Instance status_eq_dec : EqDecision status.
Proof. solve_decision. Defined.

(** The array of day names indexed by [Date.prototype.getDay]. *)
Inductive weekday :=
  Sunday | Monday | Tuesday | Wednesday | Thursday | Friday | Saturday.

#[global] Instance weekday_eq_dec : EqDecision weekday.
Proof. solve_decision. Defined.

(** Table [users] (the columns the handlers read). *)
Record user := {
  u_id : uuid;
  u_email : string;
  u_timezone : string
}.

(** Table [event_types] (the columns the handlers read). *)
Record event_type := {
  et_id : uuid;
  et_user_id : uuid;
  et_name : string;
  et_duration_minutes : Z;
  et_is_active : bool;
  et_deleted_at : option instant
}.

(** Table [availability_slots]. *)
Record availability_slot := {
  sl_id : uuid;
  sl_event_type_id : uuid;
  sl_day_of_week : weekday;
  sl_start_time : Z;
  sl_end_time : Z;
  sl_is_active : bool;
  sl_updated_at : instant
}.

(** Table [bookings] (the columns some handler reads or writes). *)
Record booking := {
  b_id : uuid;
  b_event_type_id : uuid;
  b_user_id : uuid;
  b_guest_name : string;
  b_guest_email : string;
  b_guest_phone : option string;
  b_guest_timezone : option string;
  b_scheduled_at : instant;
  b_end_time : instant;
  b_duration_minutes : Z;
  b_description : option string;
  b_google_meet_link : option string;
  b_status : status;
  b_custom_fields : string;
  b_google_calendar_event_id : option string;
  b_cancelled_at : option instant;
  b_cancellation_reason : option string;
  b_created_at : instant;
  b_updated_at : instant;
  b_deleted_at : option instant
}.

(** A row of [analytics], without its key columns. *)
Record counters := {
  an_action_type : string;
  an_booking_count : Z;
  an_cancellation_count : Z;
  an_updated_at : instant
}.

Definition analytics_key : Type := uuid * uuid * Z.

Record store := {
  users : list user;
  event_types : list event_type;
  availability_slots : list availability_slot;
  bookings : list booking;
  analytics : gmap analytics_key counters
}.

Definition with_bookings (bs : list booking) (s : store) : store :=
  {| users := users s; event_types := event_types s;
     availability_slots := availability_slots s;
     bookings := bs; analytics := analytics s |}.

Definition with_slots (sl : list availability_slot) (s : store) : store :=
  {| users := users s; event_types := event_types s;
     availability_slots := sl;
     bookings := bookings s; analytics := analytics s |}.

Definition with_analytics (a : gmap analytics_key counters) (s : store) : store :=
  {| users := users s; event_types := event_types s;
     availability_slots := availability_slots s;
     bookings := bookings s; analytics := a |}.

(** HTTP outcomes of a handler. *)
Inductive response (A : Type) :=
  | Ok (a : A)            (* 200 *)
  | Created (a : A)       (* 201 *)
  | BadRequest            (* 400 *)
  | NotFound              (* 404 *)
  | Conflict              (* 409 *)
  | ServerError.          (* next(error) *)

Arguments Ok {A} a.
Arguments Created {A} a.
Arguments BadRequest {A}.
Arguments NotFound {A}.
Arguments Conflict {A}.
Arguments ServerError {A}.

(** ** Time projections *)

Definition ms_per_minute : Z := 60000.
Definition ms_per_day : Z := 86400000.

(** [d.setMinutes(d.getMinutes() + m)]. *)
Definition add_minutes (t : instant) (m : Z) : instant := t + m * ms_per_minute.

Definition weekday_names : list weekday :=
  [Sunday; Monday; Tuesday; Wednesday; Thursday; Friday; Saturday].

(** [getDay()]: the epoch was a Thursday. *)
Definition getDay (t : instant) : Z := (t `div` ms_per_day + 4) `mod` 7.

Definition day_of_week (t : instant) : weekday :=
  default Sunday (weekday_names !! Z.to_nat (getDay t)).

(** [toTimeString().slice(0, 5)], the [HH:MM] of an instant, as a [TIME]. *)
Definition time_of_day (t : instant) : Z := ((t `div` ms_per_minute) `mod` 1440) * 60.

(** [toISOString().split('T')[0]]. *)
Definition iso_date (t : instant) : Z := t `div` ms_per_day.

(** An ISO 8601 date-time as a request body carries it, unvalidated:
    ['1970-01-05T13:00:00+02:00'] is the wall-clock reading 13:00 of that
    day with an offset of 120 minutes; [Z] or no designator is the offset 0
    (the server runs in UTC).  A body that is no date-time at all makes
    [toISOString] or the query throw before anything is written; such
    bodies are not in this type. *)
Record time_string := {
  ts_wall_clock : instant;
  ts_offset_minutes : Z
}.

(** [new Date(s)]: the instant the string denotes, offset applied. *)
Definition js_date (t : time_string) : instant :=
  ts_wall_clock t - ts_offset_minutes t * ms_per_minute.

(** The string as a query parameter compared with, or assigned to, a
    [TIMESTAMP] column (without time zone): PostgreSQL reads the date and
    the time and ignores the offset. *)
Definition pg_timestamp (t : time_string) : instant := ts_wall_clock t.

(** The string of an instant as [toISOString] would write it. *)
Definition utc (t : instant) : time_string :=
  {| ts_wall_clock := t; ts_offset_minutes := 0 |}.

(** Half-open interval overlap, as every conflict query writes it:
    [start1 < end2 AND end1 > start2]. *)
Definition overlaps (start1 end1 start2 end2 : Z) : Prop :=
  start1 < end2 ∧ start2 < end1.

#[global] Instance overlaps_dec a b c d : Decision (overlaps a b c d).
Proof. unfold overlaps. apply _. Defined.

(** ** SQL statements *)

(** [UPDATE t SET ... WHERE P]: the rows satisfying [P] are rewritten in
    place, the others are kept. *)
Definition sql_update {A} (P : A → Prop) `{!∀ x, Decision (P x)}
    (f : A → A) (rows : list A) : list A :=
  (λ r, if decide (P r) then f r else r) <$> rows.

(** *** AvailabilityModel *)

Definition set_active (v : bool) (now : instant) (sl : availability_slot)
    : availability_slot :=
  {| sl_id := sl_id sl; sl_event_type_id := sl_event_type_id sl;
     sl_day_of_week := sl_day_of_week sl;
     sl_start_time := sl_start_time sl; sl_end_time := sl_end_time sl;
     sl_is_active := v; sl_updated_at := now |}.

(** [WHERE event_type_id = $1 AND day_of_week = $2
     AND start_time < $3 AND end_time > $4], with [$3] the end and [$4] the
    start of the booked window. *)
Definition slot_intersects (et : uuid) (d : weekday) (startT endT : Z)
    (sl : availability_slot) : Prop :=
  sl_event_type_id sl = et ∧ sl_day_of_week sl = d ∧
  overlaps (sl_start_time sl) (sl_end_time sl) startT endT.

#[global] Instance slot_intersects_dec et d a b sl :
  Decision (slot_intersects et d a b sl).
Proof. unfold slot_intersects. apply _. Defined.

(** [WHERE event_type_id = $1 AND day_of_week = $2 AND start_time = $3]. *)
Definition slot_starts_at (et : uuid) (d : weekday) (startT : Z)
    (sl : availability_slot) : Prop :=
  sl_event_type_id sl = et ∧ sl_day_of_week sl = d ∧ sl_start_time sl = startT.

#[global] Instance slot_starts_at_dec et d a sl :
  Decision (slot_starts_at et d a sl).
Proof. unfold slot_starts_at. apply _. Defined.

(** The [UPDATE availability_slots SET is_active = FALSE] of booking
    creation and of rescheduling. *)
Definition consumeSlot (now : instant) (et : uuid) (d : weekday)
    (startT endT : Z) (slots : list availability_slot) : list availability_slot :=
  sql_update (slot_intersects et d startT endT) (set_active false now) slots.

(** The [UPDATE availability_slots SET is_active = TRUE] of cancellation
    and of rescheduling. *)
Definition releaseSlot (now : instant) (et : uuid) (d : weekday)
    (startT : Z) (slots : list availability_slot) : list availability_slot :=
  sql_update (slot_starts_at et d startT) (set_active true now) slots.

(** *** AnalyticsAccumulator *)

Inductive counter_field := BookingCount | CancellationCount.

#[global] Instance counter_field_eq_dec : EqDecision counter_field.
Proof. solve_decision. Defined.

Definition field_of (f : counter_field) (c : counters) : Z :=
  match f with
  | BookingCount => an_booking_count c
  | CancellationCount => an_cancellation_count c
  end.

(** The value of a counter, 0 when the key has no row. *)
Definition counter_value (f : counter_field) (k : analytics_key)
    (a : gmap analytics_key counters) : Z :=
  from_option (field_of f) 0 (a !! k).

(** The row an [INSERT INTO analytics (..., action_type, <field>, date)
    VALUES (..., delta, ...)] proposes: the counter that is not named takes
    its column default 0. *)
Definition new_counters (action : string) (f : counter_field) (delta : Z)
    (now : instant) : counters :=
  match f with
  | BookingCount =>
      {| an_action_type := action; an_booking_count := delta;
         an_cancellation_count := 0; an_updated_at := now |}
  | CancellationCount =>
      {| an_action_type := action; an_booking_count := 0;
         an_cancellation_count := delta; an_updated_at := now |}
  end.

(** [SET <field> = v, updated_at = CURRENT_TIMESTAMP]. *)
Definition set_counter (f : counter_field) (v : Z) (now : instant)
    (c : counters) : counters :=
  match f with
  | BookingCount =>
      {| an_action_type := an_action_type c;
         an_booking_count := v;
         an_cancellation_count := an_cancellation_count c;
         an_updated_at := now |}
  | CancellationCount =>
      {| an_action_type := an_action_type c;
         an_booking_count := an_booking_count c;
         an_cancellation_count := v;
         an_updated_at := now |}
  end.

(** The two rows an expression of [ON CONFLICT ... DO UPDATE SET] can read:
    the row that is already stored, under the name of the table, and the
    row proposed for insertion, under [EXCLUDED].  Both have every column
    of the table. *)
Inductive row_name := Stored | Excluded.

#[global] Instance row_name_eq_dec : EqDecision row_name.
Proof. solve_decision. Defined.

Definition do_update_scope : list row_name := [Stored; Excluded].

(** A reference to a counter column: [booking_count] is bare,
    [analytics.booking_count] and [EXCLUDED.booking_count] are qualified. *)
Inductive column_ref := Bare | Qualified (r : row_name).

(** PostgreSQL resolves a column reference against the rows in scope when
    it analyses the statement, before any row is read: a bare name stands
    for the one row in scope that has the column, and is rejected ("column
    reference is ambiguous") when several have it. *)
Definition resolve (scope : list row_name) (c : column_ref) : option row_name :=
  match c with
  | Qualified r => if decide (r ∈ scope) then Some r else None
  | Bare => match scope with [r] => Some r | _ => None end
  end.

(** [INSERT INTO analytics (...) VALUES (..., delta, ...)
     ON CONFLICT (user_id, event_type_id, date)
     DO UPDATE SET <field> = <ref> + delta, updated_at = CURRENT_TIMESTAMP],
    with [ref] the way the statement names the counter on the right of
    [SET]; [None] when PostgreSQL rejects the statement.  The counters are
    never NULL, so the [COALESCE(cancellation_count, 0)] of the
    cancellation statement is the column itself. *)
Definition upsert_counter (ref : column_ref) (k : analytics_key) (action : string)
    (f : counter_field) (delta : Z) (now : instant)
    (a : gmap analytics_key counters) : option (gmap analytics_key counters) :=
  match resolve do_update_scope ref with
  | None => None
  | Some from =>
      let proposed := new_counters action f delta now in
      Some match a !! k with
           | None => <[k := proposed]> a
           | Some c =>
               let read := match from with Stored => c | Excluded => proposed end in
               <[k := set_counter f (field_of f read + delta) now c]> a
           end
  end.

(** The analytics step of booking creation and of cancellation,
    [try { await pool.query(`INSERT INTO analytics ... DO UPDATE SET
    booking_count = booking_count + 1 ...`) } catch (analyticsError) { ... }]:
    both statements name the counter without qualifier, and a rejected
    statement is logged and otherwise ignored. *)
Definition update_analytics (k : analytics_key) (action : string)
    (f : counter_field) (now : instant) (s : store) : store :=
  match upsert_counter Bare k action f 1 now (analytics s) with
  | Some a => with_analytics a s
  | None => s
  end.

(** *** MeetingProvisioner ([googleMeetService.js]) *)

(** What [calendar.events.insert] does: it answers with the event id and,
    when the conference has a video entry point, its URI; or the call (or
    the initialisation of the credentials before it) throws. *)
Inductive calendar_api :=
  | ApiInserted (eventId : string) (videoUri : option string)
  | ApiFailed (message : string).

Record google_event := {
  ge_success : bool;
  ge_eventId : option string;
  ge_meetLink : option string;
  ge_error : option string
}.

(** [createGoogleMeetEvent]: every failure is caught inside the function,
    which then answers with a made-up link; [rnd] is
    [Math.random().toString(36).substr(2, 9)]. *)
Definition createGoogleMeetEvent (api : calendar_api) (rnd : string) : google_event :=
  match api with
  | ApiInserted eid uri =>
      {| ge_success := true; ge_eventId := Some eid; ge_meetLink := uri;
         ge_error := None |}
  | ApiFailed msg =>
      {| ge_success := false; ge_eventId := None;
         ge_meetLink := Some ("https://meet.google.com/" +:+ rnd)%string;
         ge_error := Some msg |}
  end.

(** What the [await createGoogleMeetEvent(...)] of the booking handler can
    observe: an exception, or a value that is falsy or an object. *)
Inductive provision :=
  | Raised
  | Returned (ev : option google_event).

(** ** Requests *)

(** What a handler reads of an Express request behind [authMiddleware]:
    the authenticated user, the route parameter and the body. *)
Record request (P B : Type) := {
  req_userId : uuid;
  req_params : P;
  req_body : B
}.

Arguments req_userId {P B} r.
Arguments req_params {P B} r.
Arguments req_body {P B} r.

(** [validation.data] of a booking request; [scheduled_at] is the instant
    [new Date(scheduled_at)] denotes. *)
Record booking_data := {
  event_type_id : uuid;
  guest_name : string;
  guest_email : string;
  guest_phone : option string;
  guest_timezone : option string;
  scheduled_at : instant;
  description : option string;
  custom_fields : option string
}.

Inductive validation :=
  | Invalid (errors : list string)
  | Valid (data : booking_data).

(** What one run of the booking handler reads from outside the store. *)
Record env := {
  env_uuid : uuid;          (* uuidv4() *)
  env_now : instant;        (* new Date(), CURRENT_TIMESTAMP *)
  env_meet : provision      (* await createGoogleMeetEvent(...) *)
}.

(** ** BookingEngine ([routes/bookings.js]) *)

(** The [WHERE] clause of both conflict queries, without the [id != $2] of
    rescheduling: a confirmed booking of the event type whose interval
    overlaps [[start, end)]. *)
Definition conflicts_with (et : uuid) (start_ end_ : instant) (b : booking) : Prop :=
  b_event_type_id b = et ∧ b_status b = Confirmed ∧
  overlaps (b_scheduled_at b) (b_end_time b) start_ end_.

#[global] Instance conflicts_with_dec et s e b : Decision (conflicts_with et s e b).
Proof. unfold conflicts_with. apply _. Defined.

(** [SELECT ... FROM event_types et JOIN users u ON et.user_id = u.id
     WHERE et.id = $1 AND et.is_active = TRUE AND et.deleted_at IS NULL]. *)
Definition bookable (id : uuid) (et : event_type) : Prop :=
  et_id et = id ∧ et_is_active et = true ∧ et_deleted_at et = None.

#[global] Instance bookable_dec id et : Decision (bookable id et).
Proof. unfold bookable. apply _. Defined.

Definition select_event_type (s : store) (id : uuid) : list (event_type * user) :=
  et ← filter (bookable id) (event_types s);
  u ← filter (λ u, u_id u = et_user_id et) (users s);
  [(et, u)].

(** [meetLink] and [googleEventId] after the [try { ... } catch] around the
    provisioner. *)
Definition meeting_of (p : provision) : option string * option string :=
  match p with
  | Raised => (None, None)
  | Returned None => (None, None)
  | Returned (Some ev) => (ge_meetLink ev, ge_eventId ev)
  end.

(** The row of the [INSERT INTO bookings]; [status], the cancellation
    columns, the timestamps and [deleted_at] take their column defaults. *)
Definition new_booking (e : env) (d : booking_data) (et : event_type)
    (endTime : instant) : booking :=
  {| b_id := env_uuid e;
     b_event_type_id := event_type_id d;
     b_user_id := et_user_id et;
     b_guest_name := guest_name d;
     b_guest_email := guest_email d;
     b_guest_phone := guest_phone d;
     b_guest_timezone := guest_timezone d;
     b_scheduled_at := scheduled_at d;
     b_end_time := endTime;
     b_duration_minutes := et_duration_minutes et;
     b_description := description d;
     b_google_meet_link := (meeting_of (env_meet e)).1;
     b_status := Confirmed;
     b_custom_fields := default "{}"%string (custom_fields d);
     b_google_calendar_event_id := (meeting_of (env_meet e)).2;
     b_cancelled_at := None;
     b_cancellation_reason := None;
     b_created_at := env_now e;
     b_updated_at := env_now e;
     b_deleted_at := None |}.

(** The handler up to and including the conflict check: it answers, or
    goes on with the validated data, the event type and the end time. *)
Inductive checked :=
  | Answered (r : response booking)
  | Cleared (d : booking_data) (et : event_type) (endTime : instant).

Section Handlers.

(** [validate(bookingSchema, _)] of [utils/validators.js] is a parameter:
    any function from request bodies, of any shape, to a list of errors or
    to the validated data. *)
Context {raw_body : Type}.
Variable validate : raw_body → validation.

Definition createBooking_check (body : raw_body) (s : store) : checked :=
  match validate body with
  | Invalid _ => Answered BadRequest
  | Valid d =>
      match select_event_type s (event_type_id d) with
      | [] => Answered NotFound
      | (et, _) :: _ =>
          let endTime := add_minutes (scheduled_at d) (et_duration_minutes et) in
          match filter (conflicts_with (event_type_id d) (scheduled_at d) endTime)
                       (bookings s) with
          | _ :: _ => Answered Conflict
          | [] => Cleared d et endTime
          end
      end
  end.

(** The handler after the conflict check: the meeting, the [INSERT]
    (refused by the primary key when the id is taken), then the analytics
    step and the slot update. *)
Definition createBooking_commit (e : env) (d : booking_data) (et : event_type)
    (endTime : instant) (s : store) : response booking * store :=
  let row := new_booking e d et endTime in
  if decide (b_id row ∈ b_id <$> bookings s) then (ServerError, s)
  else
    let s1 := with_bookings (bookings s ++ [row]) s in
    let s2 :=
      update_analytics (et_user_id et, event_type_id d, iso_date (env_now e))
                       "booking_created" BookingCount (env_now e) s1 in
    let s3 :=
      with_slots
        (consumeSlot (env_now e) (event_type_id d)
                     (day_of_week (scheduled_at d))
                     (time_of_day (scheduled_at d)) (time_of_day endTime)
                     (availability_slots s2))
        s2 in
    (Created row, s3).

(** [router.post('/')]. *)
Definition createBooking (e : env) (body : raw_body) (s : store)
    : response booking * store :=
  match createBooking_check body s with
  | Answered r => (r, s)
  | Cleared d et endTime => createBooking_commit e d et endTime s
  end.

End Handlers.

(** [SET status = 'cancelled', cancelled_at = CURRENT_TIMESTAMP,
     cancellation_reason = $1]. *)
Definition set_cancelled (now : instant) (reason : option string) (b : booking)
    : booking :=
  {| b_id := b_id b;
     b_event_type_id := b_event_type_id b;
     b_user_id := b_user_id b;
     b_guest_name := b_guest_name b;
     b_guest_email := b_guest_email b;
     b_guest_phone := b_guest_phone b;
     b_guest_timezone := b_guest_timezone b;
     b_scheduled_at := b_scheduled_at b;
     b_end_time := b_end_time b;
     b_duration_minutes := b_duration_minutes b;
     b_description := b_description b;
     b_google_meet_link := b_google_meet_link b;
     b_status := Cancelled;
     b_custom_fields := b_custom_fields b;
     b_google_calendar_event_id := b_google_calendar_event_id b;
     b_cancelled_at := Some now;
     b_cancellation_reason := reason;
     b_created_at := b_created_at b;
     b_updated_at := b_updated_at b;
     b_deleted_at := b_deleted_at b |}.

(** [SET scheduled_at = $1, end_time = $2, updated_at = CURRENT_TIMESTAMP]. *)
Definition set_schedule (now : instant) (start_ end_ : instant) (b : booking)
    : booking :=
  {| b_id := b_id b;
     b_event_type_id := b_event_type_id b;
     b_user_id := b_user_id b;
     b_guest_name := b_guest_name b;
     b_guest_email := b_guest_email b;
     b_guest_phone := b_guest_phone b;
     b_guest_timezone := b_guest_timezone b;
     b_scheduled_at := start_;
     b_end_time := end_;
     b_duration_minutes := b_duration_minutes b;
     b_description := b_description b;
     b_google_meet_link := b_google_meet_link b;
     b_status := b_status b;
     b_custom_fields := b_custom_fields b;
     b_google_calendar_event_id := b_google_calendar_event_id b;
     b_cancelled_at := b_cancelled_at b;
     b_cancellation_reason := b_cancellation_reason b;
     b_created_at := b_created_at b;
     b_updated_at := now;
     b_deleted_at := b_deleted_at b |}.

(** [reason || null]: the empty string is falsy. *)
Definition or_null (reason : option string) : option string :=
  match reason with
  | Some ""%string => None
  | r => r
  end.

(** [WHERE id = $1 AND user_id = $2 AND deleted_at IS NULL], the lookup of
    [router.get('/:bookingId')] and of cancellation. *)
Definition visible_to (uid bid : uuid) (b : booking) : Prop :=
  b_id b = bid ∧ b_user_id b = uid ∧ b_deleted_at b = None.

#[global] Instance visible_to_dec uid bid b : Decision (visible_to uid bid b).
Proof. unfold visible_to. apply _. Defined.

(** [WHERE id = $2 AND user_id = $3], the [UPDATE] of cancellation. *)
Definition owned_by (uid bid : uuid) (b : booking) : Prop :=
  b_id b = bid ∧ b_user_id b = uid.

#[global] Instance owned_by_dec uid bid b : Decision (owned_by uid bid b).
Proof. unfold owned_by. apply _. Defined.

(** [router.put('/:bookingId/cancel')]; the body is [reason]. *)
Definition cancelBooking (now : instant) (req : request uuid (option string))
    (s : store) : response booking * store :=
  let bid := req_params req in
  let uid := req_userId req in
  match filter (visible_to uid bid) (bookings s) with
  | [] => (NotFound, s)
  | booking :: _ =>
      let eventType :=
        head (filter (λ et, et_id et = b_event_type_id booking) (event_types s)) in
      let s1 :=
        with_bookings
          (sql_update (owned_by uid bid) (set_cancelled now (or_null (req_body req)))
                      (bookings s))
          s in
      let cancelResult := filter (owned_by uid bid) (bookings s1) in
      let s2 :=
        with_slots
          (releaseSlot now (b_event_type_id booking)
                       (day_of_week (b_scheduled_at booking))
                       (time_of_day (b_scheduled_at booking))
                       (availability_slots s1))
          s1 in
      let s3 :=
        match eventType with
        | None => s2          (* [eventType.user_id] throws, and is caught *)
        | Some et =>
            update_analytics (et_user_id et, b_event_type_id booking, iso_date now)
                             "booking_cancelled" CancellationCount now s2
        end in
      match cancelResult with
      | cancelledBooking :: _ => (Ok cancelledBooking, s3)
      | [] => (ServerError, s3)
      end
  end.

(** [WHERE id = $1 AND user_id = $2 AND status = 'confirmed'], the lookup of
    rescheduling. *)
Definition reschedulable (uid bid : uuid) (b : booking) : Prop :=
  b_id b = bid ∧ b_user_id b = uid ∧ b_status b = Confirmed.

#[global] Instance reschedulable_dec uid bid b : Decision (reschedulable uid bid b).
Proof. unfold reschedulable. apply _. Defined.

(** [WHERE event_type_id = $1 AND id != $2 AND status = 'confirmed'
     AND scheduled_at < $3 AND end_time > $4]. *)
Definition conflicts_with_other (et bid : uuid) (start_ end_ : instant)
    (b : booking) : Prop :=
  b_id b ≠ bid ∧ conflicts_with et start_ end_ b.

#[global] Instance conflicts_with_other_dec et bid s e b :
  Decision (conflicts_with_other et bid s e b).
Proof. unfold conflicts_with_other. apply _. Defined.

(** [router.put('/:bookingId/reschedule')]; the body is [scheduled_at],
    absent when it is missing or falsy.  No schema validates it: the
    handler reads the string through [new Date] for the end of the meeting
    and for the slot window, and hands the string itself to PostgreSQL as
    the lower bound of the conflict query and as the new [scheduled_at]. *)
Definition rescheduleBooking (now : instant) (req : request uuid (option time_string))
    (s : store) : response booking * store :=
  let bid := req_params req in
  let uid := req_userId req in
  match req_body req with
  | None => (BadRequest, s)
  | Some scheduled_at =>
      match filter (reschedulable uid bid) (bookings s) with
      | [] => (NotFound, s)
      | oldBooking :: _ =>
          let newEndTime :=
            add_minutes (js_date scheduled_at) (b_duration_minutes oldBooking) in
          match filter (conflicts_with_other (b_event_type_id oldBooking) bid
                          (pg_timestamp scheduled_at) newEndTime) (bookings s) with
          | _ :: _ => (Conflict, s)
          | [] =>
              let s1 :=
                with_slots
                  (releaseSlot now (b_event_type_id oldBooking)
                               (day_of_week (b_scheduled_at oldBooking))
                               (time_of_day (b_scheduled_at oldBooking))
                               (availability_slots s))
                  s in
              let newStart := js_date scheduled_at in
              let s2 :=
                with_slots
                  (consumeSlot now (b_event_type_id oldBooking)
                               (day_of_week newStart)
                               (time_of_day newStart) (time_of_day newEndTime)
                               (availability_slots s1))
                  s1 in
              let s3 :=
                with_bookings
                  (sql_update (λ b, b_id b = bid)
                              (set_schedule now (pg_timestamp scheduled_at) newEndTime)
                              (bookings s2))
                  s2 in
              match filter (λ b, b_id b = bid) (bookings s3) with
              | updatedBooking :: _ => (Ok updatedBooking, s3)
              | [] => (ServerError, s3)
              end
          end
      end
  end.

(** The query string of [router.get('/')]. *)
Record list_query := {
  q_status : option status;
  q_eventTypeId : option uuid;
  q_startDate : option instant;
  q_endDate : option instant;
  q_limit : nat;
  q_offset : nat
}.

(** [WHERE user_id = $1 AND deleted_at IS NULL] and the optional filters. *)
Definition listed (uid : uuid) (q : list_query) (b : booking) : Prop :=
  b_user_id b = uid ∧ b_deleted_at b = None ∧
  from_option (λ st, b_status b = st) True (q_status q) ∧
  from_option (λ et, b_event_type_id b = et) True (q_eventTypeId q) ∧
  from_option (λ t, t ≤ b_scheduled_at b) True (q_startDate q) ∧
  from_option (λ t, b_scheduled_at b ≤ t) True (q_endDate q).

#[global] Instance listed_dec uid q b : Decision (listed uid q b).
Proof.
  unfold listed.
  destruct (q_status q), (q_eventTypeId q), (q_startDate q), (q_endDate q);
    simpl; apply _.
Defined.

(** [ORDER BY scheduled_at DESC]. *)
Definition later_first (a b : booking) : Prop := b_scheduled_at b ≤ b_scheduled_at a.

#[global] Instance later_first_dec a b : Decision (later_first a b).
Proof. unfold later_first. apply _. Defined.

(** [router.get('/')]. *)
Definition listBookings (req : request unit list_query) (s : store) : list booking :=
  let q := req_body req in
  take (q_limit q)
       (drop (q_offset q)
             (merge_sort later_first (filter (listed (req_userId req) q) (bookings s)))).

(** [router.get('/:bookingId')]. *)
Definition getBooking (req : request uuid unit) (s : store) : response booking :=
  match filter (visible_to (req_userId req) (req_params req)) (bookings s) with
  | [] => NotFound
  | b :: _ => Ok b
  end.

(** ** Availability endpoints ([routes/events.js]) *)

(** [router.delete('/availability/:slotId')]:
    [UPDATE availability_slots SET is_active = FALSE WHERE id = $1 RETURNING id]. *)
Definition deactivate (sl : availability_slot) : availability_slot :=
  {| sl_id := sl_id sl; sl_event_type_id := sl_event_type_id sl;
     sl_day_of_week := sl_day_of_week sl;
     sl_start_time := sl_start_time sl; sl_end_time := sl_end_time sl;
     sl_is_active := false; sl_updated_at := sl_updated_at sl |}.

Definition deleteAvailabilitySlot (req : request uuid unit) (s : store)
    : response unit * store :=
  let s1 :=
    with_slots
      (sql_update (λ sl, sl_id sl = req_params req) deactivate (availability_slots s))
      s in
  match filter (λ sl, sl_id sl = req_params req) (availability_slots s1) with
  | [] => (NotFound, s1)
  | _ :: _ => (Ok (), s1)
  end.

(** ** Reachable stores *)

(** The stores the three booking operations can produce, starting from a
    store that holds no booking yet. *)
Inductive reachable {raw_body : Type} (validate : raw_body → validation)
    : store → Prop :=
  | reach_init s :
      bookings s = [] → reachable validate s
  | reach_create s e body :
      reachable validate s →
      reachable validate (createBooking validate e body s).2
  | reach_cancel s now req :
      reachable validate s →
      reachable validate (cancelBooking now req s).2
  | reach_reschedule s now req :
      reachable validate s →
      reachable validate (rescheduleBooking now req s).2.

(** The claim of the data model, on one table of bookings. *)
Definition no_double_booking (bs : list booking) : Prop :=
  ∀ b1 b2, b1 ∈ bs → b2 ∈ bs → b1 ≠ b2 →
    b_status b1 = Confirmed → b_status b2 = Confirmed →
    b_event_type_id b1 = b_event_type_id b2 →
    ¬ (b_scheduled_at b1 < b_end_time b2 ∧ b_scheduled_at b2 < b_end_time b1).

(** What the operations maintain: the primary key, and no overlap between
    confirmed rows of one event type that differ in their key. *)
Definition bookings_inv (bs : list booking) : Prop :=
  NoDup (b_id <$> bs) ∧
  ∀ b1 b2, b1 ∈ bs → b2 ∈ bs → b_id b1 ≠ b_id b2 →
    b_status b1 = Confirmed → b_status b2 = Confirmed →
    b_event_type_id b1 = b_event_type_id b2 →
    ¬ overlaps (b_scheduled_at b1) (b_end_time b1) (b_scheduled_at b2) (b_end_time b2).

(** ** Two booking requests in flight *)

(** The handler is an [async] function: it gives the event loop back at
    every [await], and another request can run in between.  For the
    conflict check it is enough to cut the handler once, between the
    conflict query and what follows it: a run has not started, has passed
    the check and not yet sent its [INSERT], or has answered. *)
Inductive run_state (raw_body : Type) :=
  | Pending (e : env) (body : raw_body)
  | Waiting (e : env) (d : booking_data) (et : event_type) (endTime : instant)
  | Done (r : response booking).

Arguments Pending {raw_body} e body.
Arguments Waiting {raw_body} e d et endTime.
Arguments Done {raw_body} r.

Definition advance {raw_body} (validate : raw_body → validation)
    (st : run_state raw_body) (s : store) : run_state raw_body * store :=
  match st with
  | Pending e body =>
      match createBooking_check validate body s with
      | Answered r => (Done r, s)
      | Cleared d et endTime => (Waiting e d et endTime, s)
      end
  | Waiting e d et endTime =>
      let '(r, s') := createBooking_commit e d et endTime s in (Done r, s')
  | Done r => (Done r, s)
  end.

(** Which of the two runs the event loop resumes next. *)
Inductive turn := First | Second.

Fixpoint interleave {raw_body} (validate : raw_body → validation)
    (sched : list turn) (a b : run_state raw_body) (s : store)
    : run_state raw_body * run_state raw_body * store :=
  match sched with
  | [] => (a, b, s)
  | First :: sched' =>
      let '(a', s') := advance validate a s in interleave validate sched' a' b s'
  | Second :: sched' =>
      let '(b', s') := advance validate b s in interleave validate sched' a b' s'
  end.

(** A schedule that resumes each run twice, which takes both to their
    answer. *)
Definition complete (sched : list turn) : Prop :=
  sched ≡ₚ [First; First; Second; Second].

(** Both conflict checks run before either [INSERT]. *)
Definition checks_first (sched : list turn) : Prop :=
  take 2 sched = [First; Second] ∨ take 2 sched = [Second; First].

Definition is_created {A} (r : response A) : bool :=
  match r with Created _ => true | _ => false end.

Definition is_conflict {A} (r : response A) : bool :=
  match r with Conflict => true | _ => false end.

(** Exactly one of two answers is 201 Created, the other is 409 Conflict. *)
Definition one_winner {raw_body} (a b : run_state raw_body) : Prop :=
  match a, b with
  | Done ra, Done rb =>
      (is_created ra = true ∧ is_conflict rb = true) ∨
      (is_conflict ra = true ∧ is_created rb = true)
  | _, _ => False
  end.

(** ** A small calendar, for the scenarios *)

Module Scenario.
Local Open Scope string_scope.

Definition owner : user :=
  {| u_id := "u1"; u_email := "owner@example.com"; u_timezone := "UTC" |}.

Definition intruder : uuid := "u2".

Definition consultation : event_type :=
  {| et_id := "e1"; et_user_id := "u1"; et_name := "Consultation";
     et_duration_minutes := 30; et_is_active := true; et_deleted_at := None |}.

(** Monday 5 January 1970, 10:00 UTC, and a number of minutes after it. *)
Definition monday_10_00 : instant := 381600000.
Definition after (m : Z) : instant := monday_10_00 + m * 60000.

(** A Monday slot of the consultation, by its times in seconds. *)
Definition slot (id : uuid) (startT endT : Z) : availability_slot :=
  {| sl_id := id; sl_event_type_id := "e1"; sl_day_of_week := Monday;
     sl_start_time := startT; sl_end_time := endT;
     sl_is_active := true; sl_updated_at := 0 |}.

(** 10:00-10:30, 09:45-10:15 and 11:00-11:30. *)
Definition slots : list availability_slot :=
  [slot "s1" 36000 37800; slot "s2" 35100 36900; slot "s3" 39600 41400].

Definition empty : store :=
  {| users := [owner]; event_types := [consultation];
     availability_slots := slots; bookings := []; analytics := ∅ |}.

Definition guest_request (t : instant) : booking_data :=
  {| event_type_id := "e1"; guest_name := "Ada"; guest_email := "ada@example.com";
     guest_phone := None; guest_timezone := None; scheduled_at := t;
     description := None; custom_fields := None |}.

(** Bodies are already of the validated shape. *)
Definition validate (d : booking_data) : validation := Valid d.

Definition env_with (id : uuid) (now : instant) (p : provision) : env :=
  {| env_uuid := id; env_now := now; env_meet := p |}.

Definition as_owner {P B} (p : P) (b : B) : request P B :=
  {| req_userId := "u1"; req_params := p; req_body := b |}.

Definition as_intruder {P B} (p : P) (b : B) : request P B :=
  {| req_userId := intruder; req_params := p; req_body := b |}.

(** The store after the 10:00 booking [b1] was made at instant 1000. *)
Definition booked : store :=
  (createBooking validate (env_with "b1" 1000 (Returned None))
                 (guest_request monday_10_00) empty).2.

(** The store after [b1] was then cancelled by its owner at instant 2000. *)
Definition cancelled_once : store :=
  (cancelBooking 2000 (as_owner "b1" (Some "first reason")) booked).2.

(** The store after a second booking [b2], of 10:30, was made on [booked]. *)
Definition booked_twice : store :=
  (createBooking validate (env_with "b2" 1500 (Returned None))
                 (guest_request (after 30)) booked).2.

(** Two requests for Monday 10:00, each with its own id. *)
Definition first_run : run_state booking_data :=
  Pending (env_with "b1" 1000 (Returned None)) (guest_request monday_10_00).

Definition second_run : run_state booking_data :=
  Pending (env_with "b2" 1001 (Returned None)) (guest_request monday_10_00).

(** Both conflict queries run before either INSERT. *)
Definition racing : run_state booking_data * run_state booking_data * store :=
  interleave validate [First; Second; First; Second] first_run second_run empty.

(** The calendar API is down while [b1] is being booked. *)
Definition api_down : google_event :=
  createGoogleMeetEvent (ApiFailed "Google Calendar not initialized") "k3x9q2m1z".

(** [booked], with its booking soft-deleted at instant 1200. *)
Definition soft_deleted (b : booking) : booking :=
  {| b_id := b_id b;
     b_event_type_id := b_event_type_id b;
     b_user_id := b_user_id b;
     b_guest_name := b_guest_name b;
     b_guest_email := b_guest_email b;
     b_guest_phone := b_guest_phone b;
     b_guest_timezone := b_guest_timezone b;
     b_scheduled_at := b_scheduled_at b;
     b_end_time := b_end_time b;
     b_duration_minutes := b_duration_minutes b;
     b_description := b_description b;
     b_google_meet_link := b_google_meet_link b;
     b_status := b_status b;
     b_custom_fields := b_custom_fields b;
     b_google_calendar_event_id := b_google_calendar_event_id b;
     b_cancelled_at := b_cancelled_at b;
     b_cancellation_reason := b_cancellation_reason b;
     b_created_at := b_created_at b;
     b_updated_at := b_updated_at b;
     b_deleted_at := Some 1200 |}.

Definition hidden : store := with_bookings (soft_deleted <$> bookings booked) booked.
End Scenario.

(** ** One operation of the booking engine *)

Inductive operation (raw_body : Type) :=
  | CreateBooking (e : env) (body : raw_body)
  | CancelBooking (now : instant) (req : request uuid (option string))
  | RescheduleBooking (now : instant) (req : request uuid (option time_string)).

Arguments CreateBooking {raw_body} e body.
Arguments CancelBooking {raw_body} now req.
Arguments RescheduleBooking {raw_body} now req.

(** The store an operation leaves behind. *)
Definition perform {raw_body} (validate : raw_body → validation)
    (op : operation raw_body) (s : store) : store :=
  match op with
  | CreateBooking e body => (createBooking validate e body s).2
  | CancelBooking now req => (cancelBooking now req s).2
  | RescheduleBooking now req => (rescheduleBooking now req s).2
  end.

(** A reschedule whose body carries no UTC offset (or the offset 0, as
    [toISOString] writes it); the other operations take no such string. *)
Definition offset_free {raw_body} (op : operation raw_body) : Prop :=
  match op with
  | RescheduleBooking _ req =>
      ∀ t, req_body req = Some t → ts_offset_minutes t = 0
  | _ => True
  end.

(** ** Event types ([routes/events.js]) *)

Definition with_event_types (ets : list event_type) (s : store) : store :=
  {| users := users s; event_types := ets;
     availability_slots := availability_slots s;
     bookings := bookings s; analytics := analytics s |}.

(** [WHERE id = $1 AND user_id = $2]. *)
Definition owns_event (uid eid : uuid) (et : event_type) : Prop :=
  et_id et = eid ∧ et_user_id et = uid.

#[global] Instance owns_event_dec uid eid et : Decision (owns_event uid eid et).
Proof. unfold owns_event. apply _. Defined.

(** [SET deleted_at = CURRENT_TIMESTAMP]. *)
Definition set_deleted (now : instant) (et : event_type) : event_type :=
  {| et_id := et_id et; et_user_id := et_user_id et; et_name := et_name et;
     et_duration_minutes := et_duration_minutes et;
     et_is_active := et_is_active et; et_deleted_at := Some now |}.

(** [router.delete('/:eventId')]:
    [UPDATE event_types SET deleted_at = CURRENT_TIMESTAMP
     WHERE id = $1 AND user_id = $2 RETURNING id]. *)
Definition deleteEventType (now : instant) (req : request uuid unit) (s : store)
    : response unit * store :=
  let s1 :=
    with_event_types
      (sql_update (owns_event (req_userId req) (req_params req)) (set_deleted now)
                  (event_types s))
      s in
  match filter (owns_event (req_userId req) (req_params req)) (event_types s1) with
  | [] => (NotFound, s1)
  | _ :: _ => (Ok (), s1)
  end.

(** [router.get('/:eventId')]:
    [WHERE id = $1 AND user_id = $2 AND deleted_at IS NULL]. *)
Definition getEventType (req : request uuid unit) (s : store) : response event_type :=
  match filter (λ et, owns_event (req_userId req) (req_params req) et ∧
                      et_deleted_at et = None) (event_types s) with
  | [] => NotFound
  | e :: _ => Ok e
  end.

(** ** Availability slots ([routes/events.js]) *)

(** [validation.data] of a slot request; the times are the [TIME]s the
    [HH:MM] strings denote. *)
Record slot_data := {
  sd_day_of_week : weekday;
  sd_start_time : Z;
  sd_end_time : Z
}.

Inductive slot_validation :=
  | SlotInvalid (errors : list string)
  | SlotValid (data : slot_data).

(** [router.post('/:eventId/availability')]; [validate_slot] is
    [validate(availabilitySlotSchema, _)], [new_id] is [uuidv4()]. *)
Definition addAvailabilitySlot {raw_body} (validate_slot : raw_body → slot_validation)
    (new_id : uuid) (now : instant) (req : request uuid raw_body) (s : store)
    : response availability_slot * store :=
  match validate_slot (req_body req) with
  | SlotInvalid _ => (BadRequest, s)
  | SlotValid d =>
      match filter (owns_event (req_userId req) (req_params req)) (event_types s) with
      | [] => (NotFound, s)
      | _ :: _ =>
          let row :=
            {| sl_id := new_id; sl_event_type_id := req_params req;
               sl_day_of_week := sd_day_of_week d;
               sl_start_time := sd_start_time d; sl_end_time := sd_end_time d;
               sl_is_active := true; sl_updated_at := now |} in
          if decide (new_id ∈ sl_id <$> availability_slots s) then (ServerError, s)
          else (Created row, with_slots (availability_slots s ++ [row]) s)
      end
  end.

(** The [CASE WHEN day_of_week = 'Monday' THEN 1 ... 'Sunday' THEN 7]. *)
Definition day_rank (d : weekday) : Z :=
  match d with
  | Monday => 1 | Tuesday => 2 | Wednesday => 3 | Thursday => 4
  | Friday => 5 | Saturday => 6 | Sunday => 7
  end.

(** [ORDER BY <day rank>, start_time]. *)
Definition slot_before (a b : availability_slot) : Prop :=
  day_rank (sl_day_of_week a) < day_rank (sl_day_of_week b) ∨
  (day_rank (sl_day_of_week a) = day_rank (sl_day_of_week b) ∧
   sl_start_time a ≤ sl_start_time b).

#[global] Instance slot_before_dec a b : Decision (slot_before a b).
Proof. unfold slot_before. apply _. Defined.

(** [WHERE event_type_id = $1 AND is_active = TRUE]. *)
Definition offered (eid : uuid) (sl : availability_slot) : Prop :=
  sl_event_type_id sl = eid ∧ sl_is_active sl = true.

#[global] Instance offered_dec eid sl : Decision (offered eid sl).
Proof. unfold offered. apply _. Defined.

(** [router.get('/:eventId/availability')]. *)
Definition getAvailabilitySlots (req : request uuid unit) (s : store)
    : list availability_slot :=
  merge_sort slot_before (filter (offered (req_params req)) (availability_slots s)).

(** ** Dashboard ([routes/analytics.js]) *)

(** [SUM(...)] over the selected rows: NULL when there is none. *)
Definition sql_sum (l : list Z) : option Z :=
  match l with
  | [] => None
  | _ :: _ => Some (foldr Z.add 0 l)
  end.

(** [CASE WHEN status = st THEN 1 ELSE 0 END]. *)
Definition case_status (st : status) (b : booking) : Z :=
  if decide (b_status b = st) then 1 else 0.

(** The figures of the dashboard; [parseInt] of a NULL sum is [NaN],
    written [None]. *)
Record dashboard := {
  dash_total : Z;
  dash_confirmed : option Z;
  dash_cancelled : option Z;
  dash_event_types : Z;
  dash_upcoming : Z;
  dash_recent : list booking
}.

(** [ORDER BY created_at DESC]. *)
Definition newer_first (a b : booking) : Prop := b_created_at b ≤ b_created_at a.

#[global] Instance newer_first_dec a b : Decision (newer_first a b).
Proof. unfold newer_first. apply _. Defined.

(** [router.get('/dashboard')]; [now] is both [new Date()] and [NOW()]. *)
Definition getDashboard (now : instant) (req : request unit unit) (s : store)
    : dashboard :=
  let uid := req_userId req in
  let thirtyDaysAgo := now - 30 * ms_per_day in
  let rows :=
    filter (λ b, b_user_id b = uid ∧ thirtyDaysAgo ≤ b_created_at b) (bookings s) in
  {| dash_total := Z.of_nat (length rows);
     dash_confirmed := sql_sum (case_status Confirmed <$> rows);
     dash_cancelled := sql_sum (case_status Cancelled <$> rows);
     dash_event_types :=
       Z.of_nat (length (filter (λ et, et_user_id et = uid ∧ et_deleted_at et = None)
                                (event_types s)));
     dash_upcoming :=
       Z.of_nat (length (filter (λ b, b_user_id b = uid ∧ b_status b = Confirmed ∧
                                      now < b_scheduled_at b) (bookings s)));
     dash_recent :=
       take 10 (merge_sort newer_first
                  (filter (λ b, b_user_id b = uid ∧ b_deleted_at b = None)
                          (bookings s))) |}.

(** ** What a 201 of createBooking says *)

(** The request validated, found its event type and no conflict, drew an
    unused id, and the store changed by one row and the consumed slots. *)
Definition created_from {raw_body} (validate : raw_body → validation)
    (e : env) (body : raw_body) (s : store) (row : booking) (s' : store) : Prop :=
  ∃ d et u rest,
    validate body = Valid d ∧
    select_event_type s (event_type_id d) = (et, u) :: rest ∧
    (∀ b, b ∈ bookings s →
       ¬ conflicts_with (event_type_id d) (scheduled_at d)
           (add_minutes (scheduled_at d) (et_duration_minutes et)) b) ∧
    (env_uuid e ∉ b_id <$> bookings s) ∧
    row = new_booking e d et (add_minutes (scheduled_at d) (et_duration_minutes et)) ∧
    bookings s' = bookings s ++ [row] ∧
    users s' = users s ∧
    event_types s' = event_types s ∧
    analytics s' = analytics s ∧
    availability_slots s'
    = consumeSlot (env_now e) (event_type_id d) (day_of_week (scheduled_at d))
        (time_of_day (scheduled_at d))
        (time_of_day (add_minutes (scheduled_at d) (et_duration_minutes et)))
        (availability_slots s).


(** ** What a 200 of cancelBooking and of rescheduleBooking says *)

(** The lookup found [b], and the store changed by the cancelled rows and
    the released slots. *)
Definition cancelled_from (now : instant) (req : request uuid (option string))
    (s : store) (b : booking) (s' : store) : Prop :=
  b ∈ bookings s ∧
  visible_to (req_userId req) (req_params req) b ∧
  bookings s'
  = sql_update (owned_by (req_userId req) (req_params req))
               (set_cancelled now (or_null (req_body req))) (bookings s) ∧
  users s' = users s ∧
  event_types s' = event_types s ∧
  availability_slots s'
  = releaseSlot now (b_event_type_id b) (day_of_week (b_scheduled_at b))
                (time_of_day (b_scheduled_at b)) (availability_slots s) ∧
  analytics s' = analytics s.

(** The lookup found the confirmed booking [old] of the caller, the
    conflict query found no row, and the store changed by the moved rows
    and the released and consumed slots: the stored start is the body as
    PostgreSQL reads it, the end and the slot window come from the body as
    [new Date] reads it. *)
Definition rescheduled_from (now : instant) (req : request uuid (option time_string))
    (s : store) (t : time_string) (old : booking) (s' : store) : Prop :=
  let newEndTime := add_minutes (js_date t) (b_duration_minutes old) in
  req_body req = Some t ∧
  old ∈ bookings s ∧
  reschedulable (req_userId req) (req_params req) old ∧
  (∀ b, b ∈ bookings s →
     ¬ conflicts_with_other (b_event_type_id old) (req_params req)
         (pg_timestamp t) newEndTime b) ∧
  bookings s'
  = sql_update (λ b, b_id b = req_params req)
               (set_schedule now (pg_timestamp t) newEndTime) (bookings s) ∧
  users s' = users s ∧
  event_types s' = event_types s ∧
  analytics s' = analytics s ∧
  availability_slots s'
  = consumeSlot now (b_event_type_id old) (day_of_week (js_date t))
      (time_of_day (js_date t)) (time_of_day newEndTime)
      (releaseSlot now (b_event_type_id old) (day_of_week (b_scheduled_at old))
         (time_of_day (b_scheduled_at old)) (availability_slots s)).

(** ** Runs of operations, and what every stored booking satisfies *)

(** The operations of a list, one after the other. *)
Definition perform_all {raw_body} (validate : raw_body → validation)
    (ops : list (operation raw_body)) (s : store) : store :=
  foldl (λ st op, perform validate op st) s ops.

(** The end of a booking is its start plus its duration. *)
Definition well_timed (b : booking) : Prop :=
  b_end_time b = b_scheduled_at b + b_duration_minutes b * 60000.

(** ** A late slot, for the scenarios *)

Module Night.
Local Open Scope string_scope.

(** Monday 23:45, in milliseconds, and the slot 23:45-23:59 of the
    consultation. *)
Definition monday_23_45 : instant := Scenario.after 825.

Definition late_slot : availability_slot := Scenario.slot "s9" 85500 86340.

Definition calendar : store := with_slots [late_slot] Scenario.empty.

(** The 23:45 booking, which ends on Tuesday at 00:15. *)
Definition booked : store :=
  (createBooking Scenario.validate
     (Scenario.env_with "b1" 1000 (Returned None))
     (Scenario.guest_request monday_23_45) calendar).2.
End Night.
(** ** Lemmas on the SQL statements *)

Section sql.
Context {A : Type} (P : A → Prop) `{!∀ x, Decision (P x)}.

Lemma filter_nil_iff (l : list A) : filter P l = [] ↔ ∀ x, x ∈ l → ¬ P x.
Proof.
  split.
  - intros Hnil x Hx HP. by apply (filter_nil_not_elem_of P l x).
  - intros Hall. induction l as [|x l IH]; [done|].
    rewrite filter_cons_False.
    + apply IH. intros y Hy. apply Hall. by right.
    + apply Hall. by left.
Qed.

Lemma filter_cons_iff (l : list A) :
  (∃ x l', filter P l = x :: l') ↔ ∃ x, x ∈ l ∧ P x.
Proof.
  split.
  - intros (x & l' & Hf). exists x.
    assert (x ∈ filter P l) as Hx by (rewrite Hf; by left).
    apply list_elem_of_filter in Hx. tauto.
  - intros (x & Hx & HP).
    destruct (filter P l) as [|y l'] eqn:Hf; [|by eauto].
    exfalso. by apply (filter_nil_not_elem_of P l x).
Qed.

Lemma filter_head_elem (l l' : list A) (x : A) :
  filter P l = x :: l' → x ∈ l ∧ P x.
Proof.
  intros Hf. assert (x ∈ filter P l) as Hx by (rewrite Hf; by left).
  apply list_elem_of_filter in Hx. tauto.
Qed.

Lemma sql_update_lookup (f : A → A) (rows : list A) (i : nat) :
  sql_update P f rows !! i = (λ r, if decide (P r) then f r else r) <$> rows !! i.
Proof. unfold sql_update. apply list_lookup_fmap. Qed.

Lemma sql_update_elem (f : A → A) (rows : list A) (y : A) :
  y ∈ sql_update P f rows ↔
  ∃ r, r ∈ rows ∧ ((P r ∧ y = f r) ∨ (¬ P r ∧ y = r)).
Proof.
  unfold sql_update. rewrite list_elem_of_fmap. split.
  - intros (r & -> & Hr). exists r. split; [done|]. case_decide; tauto.
  - intros (r & Hr & [[HP ->]|[HP ->]]); exists r; split; try done.
    + by rewrite decide_True.
    + by rewrite decide_False.
Qed.

Lemma sql_update_length (f : A → A) (rows : list A) :
  length (sql_update P f rows) = length rows.
Proof. unfold sql_update. apply length_fmap. Qed.

Lemma sql_update_key {K} (key : A → K) (f : A → A) (rows : list A) :
  (∀ r, key (f r) = key r) →
  key <$> sql_update P f rows = key <$> rows.
Proof.
  intros Hkey. unfold sql_update. rewrite <- list_fmap_compose.
  apply list_fmap_ext. intros i r _. simpl. case_decide; [apply Hkey|done].
Qed.
End sql.

Lemma NoDup_key_inj {A K} (key : A → K) (l : list A) (x y : A) :
  NoDup (key <$> l) → x ∈ l → y ∈ l → key x = key y → x = y.
Proof.
  induction l as [|a l IH]; intros Hnd Hx Hy Hk.
  - by apply elem_of_nil in Hx.
  - rewrite fmap_cons in Hnd. apply NoDup_cons in Hnd as [Ha Hnd].
    apply elem_of_cons in Hx as [->|Hx];
      apply elem_of_cons in Hy as [->|Hy]; try done.
    + exfalso. apply Ha. rewrite Hk. by apply list_elem_of_fmap_2.
    + exfalso. apply Ha. rewrite <- Hk. by apply list_elem_of_fmap_2.
    + by apply IH.
Qed.

Lemma overlaps_sym a b c d : overlaps a b c d ↔ overlaps c d a b.
Proof. unfold overlaps. tauto. Qed.

Lemma bookings_inv_no_double_booking bs :
  bookings_inv bs → no_double_booking bs.
Proof.
  intros [Hnd Hinv] b1 b2 H1 H2 Hne Hc1 Hc2 Het.
  apply (Hinv b1 b2); try done.
  intros Hid. apply Hne. by apply (NoDup_key_inj b_id bs).
Qed.

(** ** The invariant is kept by every statement that writes [bookings] *)

Lemma bookings_inv_nil : bookings_inv [].
Proof.
  split; [constructor|]. intros b1 b2 H1. by apply elem_of_nil in H1.
Qed.

Lemma bookings_inv_insert bs row :
  bookings_inv bs →
  b_id row ∉ b_id <$> bs →
  (∀ b, b ∈ bs →
     ¬ conflicts_with (b_event_type_id row) (b_scheduled_at row) (b_end_time row) b) →
  bookings_inv (bs ++ [row]).
Proof.
  intros [Hnd Hinv] Hfresh Hfree. split.
  - rewrite fmap_app. apply NoDup_app. split; [done|]. split.
    + intros x Hx Hx'. simpl in Hx'. apply list_elem_of_singleton in Hx'.
      by subst.
    + apply NoDup_singleton.
  - intros b1 b2 H1 H2 Hne Hc1 Hc2 Het Hov.
    apply elem_of_app in H1 as [H1|H1]; apply elem_of_app in H2 as [H2|H2].
    + by apply (Hinv b1 b2).
    + apply list_elem_of_singleton in H2 as ->.
      apply (Hfree b1 H1). by split_and!.
    + apply list_elem_of_singleton in H1 as ->.
      apply (Hfree b2 H2). split_and!; [done|done|]. by apply overlaps_sym.
    + apply list_elem_of_singleton in H1 as ->.
      by apply list_elem_of_singleton in H2 as ->.
Qed.

Lemma bookings_inv_cancel (P : booking → Prop) `{!∀ b, Decision (P b)}
    now reason bs :
  bookings_inv bs → bookings_inv (sql_update P (set_cancelled now reason) bs).
Proof.
  intros [Hnd Hinv]. split.
  - by rewrite (sql_update_key P b_id).
  - intros b1 b2 H1 H2 Hne Hc1 Hc2 Het.
    apply sql_update_elem in H1 as (r1 & Hr1 & [[_ ->]|[_ ->]]); [done|].
    apply sql_update_elem in H2 as (r2 & Hr2 & [[_ ->]|[_ ->]]); [done|].
    by apply Hinv.
Qed.

Lemma bookings_inv_reschedule now bid old start_ end_ bs :
  bookings_inv bs →
  old ∈ bs → b_id old = bid →
  (∀ b, b ∈ bs →
     ¬ conflicts_with_other (b_event_type_id old) bid start_ end_ b) →
  bookings_inv (sql_update (λ b, b_id b = bid) (set_schedule now start_ end_) bs).
Proof.
  intros [Hnd Hinv] Hold Hbid Hfree. split.
  - by rewrite (sql_update_key _ b_id).
  - intros b1 b2 H1 H2 Hne Hc1 Hc2 Het Hov.
    apply sql_update_elem in H1 as (r1 & Hr1 & [[Hid1 ->]|[Hid1 ->]]);
      apply sql_update_elem in H2 as (r2 & Hr2 & [[Hid2 ->]|[Hid2 ->]]);
      simpl in *.
    + congruence.
    + assert (r1 = old) as -> by (apply (NoDup_key_inj b_id bs); congruence).
      apply (Hfree r2 Hr2). split; [done|]. split_and!; [done|done|].
      by apply overlaps_sym.
    + assert (r2 = old) as -> by (apply (NoDup_key_inj b_id bs); congruence).
      apply (Hfree r1 Hr1). split; [done|]. by split_and!.
    + by apply (Hinv r1 r2).
Qed.

(** ** The invariant is kept by every operation *)

Lemma createBooking_inv {raw_body} (validate : raw_body → validation) e body s :
  bookings_inv (bookings s) →
  bookings_inv (bookings (createBooking validate e body s).2).
Proof.
  intros Hinv. unfold createBooking, createBooking_check.
  destruct (validate body) as [|d]; [done|].
  destruct (select_event_type s (event_type_id d)) as [|[et u] ?]; [done|].
  destruct (filter _ (bookings s)) as [|c ?] eqn:Hfree; [|done].
  unfold createBooking_commit. case_decide as Hid; [done|]. simpl.
  apply bookings_inv_insert; [done|done|].
  exact (proj1 (filter_nil_iff _ _) Hfree).
Qed.

Lemma cancelBooking_inv now req s :
  bookings_inv (bookings s) →
  bookings_inv (bookings (cancelBooking now req s).2).
Proof.
  intros Hinv. unfold cancelBooking.
  destruct (filter (visible_to _ _) (bookings s)) as [|b ?]; [done|].
  assert (bookings_inv (sql_update (owned_by (req_userId req) (req_params req))
            (set_cancelled now (or_null (req_body req))) (bookings s))) as Hinv'
    by by apply bookings_inv_cancel.
  destruct (head (filter _ (event_types s))); simpl;
    destruct (filter (owned_by _ _) _); simpl; done.
Qed.

Lemma rescheduleBooking_inv now req s :
  bookings_inv (bookings s) →
  bookings_inv (bookings (rescheduleBooking now req s).2).
Proof.
  intros Hinv. unfold rescheduleBooking.
  destruct (req_body req) as [t|]; [|done].
  destruct (filter (reschedulable _ _) (bookings s)) as [|old ?] eqn:Hold; [done|].
  destruct (filter (conflicts_with_other _ _ _ _) (bookings s)) as [|c ?] eqn:Hfree;
    [|done].
  apply filter_head_elem in Hold as [Hold (Hid & _ & _)].
  assert (bookings_inv (sql_update (λ b, b_id b = req_params req)
            (set_schedule now (pg_timestamp t)
               (add_minutes (js_date t) (b_duration_minutes old))) (bookings s)))
    as Hinv'.
  { apply (bookings_inv_reschedule _ _ old); try done.
    exact (proj1 (filter_nil_iff _ _) Hfree). }
  simpl. destruct (filter (λ b, b_id b = _) _); simpl; done.
Qed.

Lemma reachable_inv {raw_body} (validate : raw_body → validation) s :
  reachable validate s → bookings_inv (bookings s).
Proof.
  induction 1 as [s Hnil| | |].
  - rewrite Hnil. apply bookings_inv_nil.
  - by apply createBooking_inv.
  - by apply cancelBooking_inv.
  - by apply rescheduleBooking_inv.
Qed.

(** C1.  In every store reachable through createBooking, cancelBooking and
    rescheduleBooking, two distinct confirmed bookings of one event type
    never overlap as half-open intervals:
    NOT (B1.start < B2.end AND B2.start < B1.end). *)
Theorem confirmed_bookings_never_overlap {raw_body}
    (validate : raw_body → validation) (s : store) (b1 b2 : booking) :
  reachable validate s →
  b1 ∈ bookings s → b2 ∈ bookings s → b1 ≠ b2 →
  b_status b1 = Confirmed → b_status b2 = Confirmed →
  b_event_type_id b1 = b_event_type_id b2 →
  ¬ (b_scheduled_at b1 < b_end_time b2 ∧ b_scheduled_at b2 < b_end_time b1).
Proof.
  intros Hreach.
  exact (bookings_inv_no_double_booking _ (reachable_inv _ _ Hreach) b1 b2).
Qed.

(** ** createBooking *)

Lemma select_event_type_elem s id et u :
  (et, u) ∈ select_event_type s id ↔
  et ∈ event_types s ∧ bookable id et ∧ u ∈ users s ∧ u_id u = et_user_id et.
Proof.
  unfold select_event_type. rewrite list_elem_of_bind. split.
  - intros (et' & Hin & Het'). apply list_elem_of_filter in Het' as [Hb Het'].
    apply list_elem_of_bind in Hin as (u' & Hin & Hu').
    apply list_elem_of_filter in Hu' as [Hu Hu'].
    apply list_elem_of_singleton in Hin. by simplify_eq.
  - intros (Het & Hb & Hu & Hid). exists et. split.
    + apply list_elem_of_bind. exists u. split; [by left|].
      by apply list_elem_of_filter.
    + by apply list_elem_of_filter.
Qed.

Lemma select_event_type_ext s s' id :
  event_types s' = event_types s → users s' = users s →
  select_event_type s' id = select_event_type s id.
Proof. intros Het Hu. unfold select_event_type. by rewrite Het, Hu. Qed.

Section createBooking.
Context {raw_body : Type} (validate : raw_body → validation).
Context (body : raw_body) (d : booking_data) (s : store).
Context (et : event_type) (u : user) (rest : list (event_type * user)).
Hypothesis Hvalid : validate body = Valid d.
Hypothesis Hevent : select_event_type s (event_type_id d) = (et, u) :: rest.

Let endTime := add_minutes (scheduled_at d) (et_duration_minutes et).

Lemma createBooking_check_conflict :
  (∃ b, b ∈ bookings s ∧
        conflicts_with (event_type_id d) (scheduled_at d) endTime b) →
  createBooking_check validate body s = Answered Conflict.
Proof.
  intros Hex. unfold createBooking_check. rewrite Hvalid, Hevent.
  destruct (proj2 (filter_cons_iff _ _) Hex) as (c & l & Hf).
  fold endTime. by rewrite Hf.
Qed.

Lemma createBooking_check_cleared :
  (∀ b, b ∈ bookings s →
        ¬ conflicts_with (event_type_id d) (scheduled_at d) endTime b) →
  createBooking_check validate body s = Cleared d et endTime.
Proof.
  intros Hfree. unfold createBooking_check. rewrite Hvalid, Hevent.
  assert (Hf := proj2 (filter_nil_iff _ _) Hfree).
  fold endTime. by rewrite Hf.
Qed.

Lemma createBooking_check_cases :
  (createBooking_check validate body s = Answered Conflict ∧
     ∃ b, b ∈ bookings s ∧
          conflicts_with (event_type_id d) (scheduled_at d) endTime b) ∨
  (createBooking_check validate body s = Cleared d et endTime ∧
     ∀ b, b ∈ bookings s →
          ¬ conflicts_with (event_type_id d) (scheduled_at d) endTime b).
Proof.
  destruct (filter (conflicts_with (event_type_id d) (scheduled_at d) endTime)
                   (bookings s)) as [|c l] eqn:Hf.
  - right. assert (Hfree := proj1 (filter_nil_iff _ _) Hf).
    split; [by apply createBooking_check_cleared|done].
  - left. assert (∃ b, b ∈ bookings s ∧
      conflicts_with (event_type_id d) (scheduled_at d) endTime b) as Hex.
    { apply (proj1 (filter_cons_iff _ _)). eauto. }
    split; [by apply createBooking_check_conflict|done].
Qed.
End createBooking.

Lemma createBooking_commit_fresh e d et endTime s :
  env_uuid e ∉ b_id <$> bookings s →
  ∃ s', createBooking_commit e d et endTime s
          = (Created (new_booking e d et endTime), s') ∧
        bookings s' = bookings s ++ [new_booking e d et endTime] ∧
        event_types s' = event_types s ∧ users s' = users s.
Proof.
  intros Hfresh. unfold createBooking_commit.
  rewrite decide_False by done. eexists. split; [reflexivity|]. done.
Qed.

Lemma createBooking_commit_taken e d et endTime s :
  env_uuid e ∈ b_id <$> bookings s →
  createBooking_commit e d et endTime s = (ServerError, s).
Proof. intros Htaken. unfold createBooking_commit. by rewrite decide_True. Qed.

(** C2.  For a valid request on an event type that exists, is active and
    is not soft-deleted, createBooking answers Conflict exactly when some
    confirmed booking of the event type overlaps
    [[requestedStart, requestedStart + duration)], and then writes nothing;
    otherwise it inserts a booking with status confirmed whose end is
    requestedStart + duration (the id drawn by uuidv4 being unused). *)
Theorem createBooking_conflict_iff_overlap {raw_body}
    (validate : raw_body → validation) (e : env) (body : raw_body)
    (d : booking_data) (s : store) (et : event_type) (u : user)
    (rest : list (event_type * user)) :
  validate body = Valid d →
  select_event_type s (event_type_id d) = (et, u) :: rest →
  let requestedStart := scheduled_at d in
  let requestedEnd := scheduled_at d + et_duration_minutes et * 60000 in
  let overlap :=
    ∃ b, b ∈ bookings s ∧ b_event_type_id b = event_type_id d ∧
         b_status b = Confirmed ∧
         b_scheduled_at b < requestedEnd ∧ requestedStart < b_end_time b in
  ((createBooking validate e body s).1 = Conflict ↔ overlap) ∧
  (overlap → createBooking validate e body s = (Conflict, s)) ∧
  (¬ overlap → env_uuid e ∉ b_id <$> bookings s →
     ∃ row s',
       createBooking validate e body s = (Created row, s') ∧
       bookings s' = bookings s ++ [row] ∧
       b_id row = env_uuid e ∧
       b_event_type_id row = event_type_id d ∧
       b_status row = Confirmed ∧
       b_scheduled_at row = requestedStart ∧
       b_end_time row = requestedEnd).
Proof.
  intros Hvalid Hevent requestedStart requestedEnd overlap.
  assert (overlap ↔ ∃ b, b ∈ bookings s ∧
            conflicts_with (event_type_id d) (scheduled_at d)
              (add_minutes (scheduled_at d) (et_duration_minutes et)) b) as Hov.
  { unfold overlap, conflicts_with, overlaps, requestedEnd, requestedStart,
      add_minutes, ms_per_minute. naive_solver. }
  destruct (createBooking_check_cases validate body d s et u rest Hvalid Hevent)
    as [[Hchk Hex]|[Hchk Hfree]]; unfold createBooking; rewrite Hchk.
  - split_and!; [by rewrite Hov|done|]. intros Hno. by rewrite Hov in Hno.
  - assert (¬ overlap) as Hno.
    { intros Ho. apply Hov in Ho as (b & Hb & Hc). by apply (Hfree b). }
    split_and!.
    + split; [|done]. unfold createBooking_commit. by case_decide.
    + done.
    + intros _ Hfresh.
      destruct (createBooking_commit_fresh e d et
                  (add_minutes (scheduled_at d) (et_duration_minutes et)) s Hfresh)
        as (s' & -> & Hbs & _).
      eexists _, s'. split_and!; try done.
Qed.

(** The scenario of the specification: with 10:00-10:30 booked, a request
    for 10:30 is accepted and confirmed. *)
Example createBooking_adjacent_accepted :
  ∃ row s',
    createBooking Scenario.validate
      (Scenario.env_with "b2"%string 1500 (Returned None))
      (Scenario.guest_request (Scenario.after 30)) Scenario.booked
    = (Created row, s') ∧
    b_status row = Confirmed ∧
    b_scheduled_at row = Scenario.after 30 ∧ b_end_time row = Scenario.after 60.
Proof. eexists _, _. split; [vm_compute; reflexivity|]. by split_and!. Qed.

(** ** Two createBooking runs in flight *)

Lemma complete_cases (sched : list turn) :
  complete sched →
  sched ∈ [ [First; First; Second; Second]; [First; Second; First; Second];
            [First; Second; Second; First]; [Second; First; First; Second];
            [Second; First; Second; First]; [Second; Second; First; First] ].
Proof.
  unfold complete. intros Hp. symmetry in Hp.
  apply permutations_Permutation in Hp. vm_compute in Hp.
  repeat (apply elem_of_cons in Hp as [->|Hp]; [set_solver|]).
  by apply elem_of_nil in Hp.
Qed.

Lemma createBooking_sequential {raw_body} (validate : raw_body → validation)
    e body (b : run_state raw_body) s :
  interleave validate [First; First] (Pending e body) b s
  = (Done (createBooking validate e body s).1, b, (createBooking validate e body s).2).
Proof.
  simpl. unfold createBooking.
  destruct (createBooking_check validate body s) as [r|d et endTime]; simpl; [done|].
  by destruct (createBooking_commit e d et endTime s).
Qed.

Section race.
Context {raw_body : Type} (validate : raw_body → validation).
Context (e1 e2 : env) (body1 body2 : raw_body) (d1 d2 : booking_data).
Context (s : store) (et : event_type) (u : user) (rest : list (event_type * user)).
Hypothesis Hvalid1 : validate body1 = Valid d1.
Hypothesis Hvalid2 : validate body2 = Valid d2.
Hypothesis Hsame_event : event_type_id d2 = event_type_id d1.
Hypothesis Hsame_start : scheduled_at d2 = scheduled_at d1.
Hypothesis Hevent : select_event_type s (event_type_id d1) = (et, u) :: rest.
Hypothesis Hduration : 0 < et_duration_minutes et.

Let endTime := add_minutes (scheduled_at d1) (et_duration_minutes et).

Hypothesis Hfree : ∀ b, b ∈ bookings s →
  ¬ conflicts_with (event_type_id d1) (scheduled_at d1) endTime b.
Hypothesis Hfresh1 : env_uuid e1 ∉ b_id <$> bookings s.
Hypothesis Hfresh2 : env_uuid e2 ∉ b_id <$> bookings s.
Hypothesis Hdistinct : env_uuid e1 ≠ env_uuid e2.

Let row1 := new_booking e1 d1 et endTime.
Let row2 := new_booking e2 d2 et endTime.
Let after1 := (createBooking_commit e1 d1 et endTime s).2.
Let after2 := (createBooking_commit e2 d2 et endTime s).2.

Local Lemma row_conflicts (e : env) (d : booking_data) :
  event_type_id d = event_type_id d1 → scheduled_at d = scheduled_at d1 →
  conflicts_with (event_type_id d1) (scheduled_at d1) endTime
                 (new_booking e d et endTime).
Proof.
  intros Hev Hst. unfold conflicts_with, overlaps, endTime, add_minutes,
    ms_per_minute. simpl. rewrite Hev, Hst. split_and!; [done|done|lia|lia].
Qed.

Local Lemma check1 σ :
  event_types σ = event_types s → users σ = users s →
  (∀ b, b ∈ bookings σ →
     ¬ conflicts_with (event_type_id d1) (scheduled_at d1) endTime b) →
  advance validate (Pending e1 body1) σ = (Waiting e1 d1 et endTime, σ).
Proof.
  intros Het Hu Hσ. simpl.
  assert (select_event_type σ (event_type_id d1) = (et, u) :: rest) as Hsel
    by by rewrite (select_event_type_ext s σ).
  by rewrite (createBooking_check_cleared validate body1 d1 σ et u rest).
Qed.

Local Lemma check2 σ :
  event_types σ = event_types s → users σ = users s →
  (∀ b, b ∈ bookings σ →
     ¬ conflicts_with (event_type_id d1) (scheduled_at d1) endTime b) →
  advance validate (Pending e2 body2) σ = (Waiting e2 d2 et endTime, σ).
Proof.
  intros Het Hu Hσ. simpl.
  assert (select_event_type σ (event_type_id d2) = (et, u) :: rest) as Hsel
    by by rewrite Hsame_event, (select_event_type_ext s σ).
  assert (H := createBooking_check_cleared validate body2 d2 σ et u rest
                 Hvalid2 Hsel).
  rewrite Hsame_event, Hsame_start in H. by rewrite H.
Qed.

Local Lemma late1 σ :
  event_types σ = event_types s → users σ = users s →
  (∃ b, b ∈ bookings σ ∧
     conflicts_with (event_type_id d1) (scheduled_at d1) endTime b) →
  advance validate (Pending e1 body1) σ = (Done Conflict, σ).
Proof.
  intros Het Hu Hσ. simpl.
  assert (select_event_type σ (event_type_id d1) = (et, u) :: rest) as Hsel
    by by rewrite (select_event_type_ext s σ).
  by rewrite (createBooking_check_conflict validate body1 d1 σ et u rest).
Qed.

Local Lemma late2 σ :
  event_types σ = event_types s → users σ = users s →
  (∃ b, b ∈ bookings σ ∧
     conflicts_with (event_type_id d1) (scheduled_at d1) endTime b) →
  advance validate (Pending e2 body2) σ = (Done Conflict, σ).
Proof.
  intros Het Hu Hσ. simpl.
  assert (select_event_type σ (event_type_id d2) = (et, u) :: rest) as Hsel
    by by rewrite Hsame_event, (select_event_type_ext s σ).
  assert (H := createBooking_check_conflict validate body2 d2 σ et u rest
                 Hvalid2 Hsel).
  rewrite Hsame_event, Hsame_start in H. by rewrite H.
Qed.

Local Lemma commit (e : env) (d : booking_data) σ :
  env_uuid e ∉ b_id <$> bookings σ →
  advance validate (Waiting e d et endTime) σ
  = (Done (Created (new_booking e d et endTime)),
     (createBooking_commit e d et endTime σ).2) ∧
  bookings (createBooking_commit e d et endTime σ).2
  = bookings σ ++ [new_booking e d et endTime] ∧
  event_types (createBooking_commit e d et endTime σ).2 = event_types σ ∧
  users (createBooking_commit e d et endTime σ).2 = users σ.
Proof.
  intros Hfresh. simpl.
  destruct (createBooking_commit_fresh e d et endTime σ Hfresh)
    as (σ' & Heq & Hb & Hev & Hu).
  rewrite Heq. done.
Qed.

Local Lemma row1_fresh_after2 :
  env_uuid e1 ∉ b_id <$> (bookings s ++ [row2]).
Proof.
  rewrite fmap_app, elem_of_app. intros [H|H]; [done|].
  simpl in H. apply list_elem_of_singleton in H. done.
Qed.

Local Lemma row2_fresh_after1 :
  env_uuid e2 ∉ b_id <$> (bookings s ++ [row1]).
Proof.
  rewrite fmap_app, elem_of_app. intros [H|H]; [done|].
  simpl in H. apply list_elem_of_singleton in H. done.
Qed.

Local Lemma taken_after (e : env) (d : booking_data) σ :
  event_type_id d = event_type_id d1 → scheduled_at d = scheduled_at d1 →
  ∃ b, b ∈ bookings σ ++ [new_booking e d et endTime] ∧
       conflicts_with (event_type_id d1) (scheduled_at d1) endTime b.
Proof.
  intros Hev Hst. exists (new_booking e d et endTime). split.
  - apply elem_of_app. right. by left.
  - by apply row_conflicts.
Qed.

(** C3, as the code has it.  Two createBooking runs for the identical
    interval of one event type, on a store where the interval is free:
    the conflict query and the INSERT are two separate statements and no
    transaction spans them.  When both conflict queries run before either
    INSERT, both runs answer 201 and both confirmed bookings are stored;
    when one run's INSERT precedes the other's conflict query, exactly
    one run commits and the other answers 409 Conflict. *)
Theorem concurrent_createBooking_outcomes (sched : list turn) :
  complete sched →
  let '(a, b, s') :=
    interleave validate sched (Pending e1 body1) (Pending e2 body2) s in
  (checks_first sched →
     a = Done (Created row1) ∧ b = Done (Created row2) ∧
     bookings s' ≡ₚ bookings s ++ [row1; row2] ∧
     b_status row1 = Confirmed ∧ b_status row2 = Confirmed ∧
     b_event_type_id row1 = b_event_type_id row2 ∧
     b_scheduled_at row1 = b_scheduled_at row2 ∧
     b_end_time row1 = b_end_time row2) ∧
  (¬ checks_first sched →
     one_winner a b ∧
     ((a = Done (Created row1) ∧ b = Done Conflict ∧
       bookings s' = bookings s ++ [row1]) ∨
      (a = Done Conflict ∧ b = Done (Created row2) ∧
       bookings s' = bookings s ++ [row2]))).
Proof.
  intros Hsched. apply complete_cases in Hsched.
  destruct (commit e1 d1 s Hfresh1) as (Hc1 & Hb1 & Hev1 & Hu1).
  destruct (commit e2 d2 s Hfresh2) as (Hc2 & Hb2 & Hev2 & Hu2).
  fold after1 in Hc1, Hb1, Hev1, Hu1. fold after2 in Hc2, Hb2, Hev2, Hu2.
  fold row1 in Hc1, Hb1. fold row2 in Hc2, Hb2.
  assert (env_uuid e2 ∉ b_id <$> bookings after1) as Hfresh21
    by (rewrite Hb1; apply row2_fresh_after1).
  assert (env_uuid e1 ∉ b_id <$> bookings after2) as Hfresh12
    by (rewrite Hb2; apply row1_fresh_after2).
  destruct (commit e2 d2 after1 Hfresh21) as (Hc21 & Hb21 & _ & _).
  destruct (commit e1 d1 after2 Hfresh12) as (Hc12 & Hb12 & _ & _).
  fold row1 in Hc12, Hb12. fold row2 in Hc21, Hb21.
  assert (∃ b, b ∈ bookings after1 ∧
            conflicts_with (event_type_id d1) (scheduled_at d1) endTime b)
    as Htaken1 by (rewrite Hb1; by apply taken_after).
  assert (∃ b, b ∈ bookings after2 ∧
            conflicts_with (event_type_id d1) (scheduled_at d1) endTime b)
    as Htaken2 by (rewrite Hb2; by apply taken_after).
  assert (row_eqs : b_status row1 = Confirmed ∧ b_status row2 = Confirmed ∧
     b_event_type_id row1 = b_event_type_id row2 ∧
     b_scheduled_at row1 = b_scheduled_at row2 ∧
     b_end_time row1 = b_end_time row2) by (simpl; by rewrite Hsame_event, Hsame_start).
  repeat (apply elem_of_cons in Hsched as [->|Hsched]);
    [..|by apply elem_of_nil in Hsched]; cbn [interleave].
  - (* check 1, insert 1, check 2 *)
    rewrite (check1 s), Hc1, (late2 after1) by done. cbn [advance].
    split; [intros [?|?]; done|]. intros _. split; [simpl; tauto|]. by left.
  - (* check 1, check 2, insert 1, insert 2 *)
    rewrite (check1 s), (check2 s), Hc1, Hc21 by done.
    split; [|intros []; by left]. intros _. rewrite Hb21, Hb1, <- app_assoc.
    by split_and!.
  - (* check 1, check 2, insert 2, insert 1 *)
    rewrite (check1 s), (check2 s), Hc2, Hc12 by done.
    split; [|intros []; by left]. intros _. rewrite Hb12, Hb2, <- app_assoc.
    split_and!; try done. apply Permutation_app_head, Permutation_swap.
  - (* check 2, check 1, insert 1, insert 2 *)
    rewrite (check2 s), (check1 s), Hc1, Hc21 by done.
    split; [|intros []; by right]. intros _. rewrite Hb21, Hb1, <- app_assoc.
    by split_and!.
  - (* check 2, check 1, insert 2, insert 1 *)
    rewrite (check2 s), (check1 s), Hc2, Hc12 by done.
    split; [|intros []; by right]. intros _. rewrite Hb12, Hb2, <- app_assoc.
    split_and!; try done. apply Permutation_app_head, Permutation_swap.
  - (* check 2, insert 2, check 1 *)
    rewrite (check2 s), Hc2, (late1 after2) by done. cbn [advance].
    split; [intros [?|?]; done|]. intros _. split; [simpl; tauto|]. by right.
Qed.
End race.

(** C3, as the claim states it, fails: on the empty calendar, two requests
    for Monday 10:00 whose conflict queries both run before either INSERT
    both answer 201, and the store then holds two confirmed bookings of the
    same event type on the same interval. *)
Lemma concurrent_createBooking_two_winners :
  complete [First; Second; First; Second] ∧
  ¬ one_winner Scenario.racing.1.1 Scenario.racing.1.2 ∧
  (∃ r1 r2, Scenario.racing.1.1 = Done (Created r1) ∧
            Scenario.racing.1.2 = Done (Created r2)) ∧
  map (λ b, (b_id b, b_event_type_id b, b_status b, b_scheduled_at b, b_end_time b))
      (bookings Scenario.racing.2)
  = [ ("b1"%string, "e1"%string, Confirmed, 381600000, 383400000);
      ("b2"%string, "e1"%string, Confirmed, 381600000, 383400000) ].
Proof.
  split_and!.
  - unfold complete. apply Permutation_skip, Permutation_swap.
  - vm_compute. intros [[? ?]|[? ?]]; discriminate.
  - eexists _, _. split; vm_compute; reflexivity.
  - vm_compute. reflexivity.
Qed.

(** The two bookings of [Scenario.booked_twice], 10:00-10:30 and
    10:30-11:00, do not overlap. *)
Lemma confirmed_bookings_never_overlap_witness :
  ∃ b1 b2, bookings Scenario.booked_twice = [b1; b2] ∧
    ¬ (b_scheduled_at b1 < b_end_time b2 ∧ b_scheduled_at b2 < b_end_time b1).
Proof.
  eexists _, _. split; [vm_compute; reflexivity|].
  apply (confirmed_bookings_never_overlap Scenario.validate Scenario.booked_twice).
  - apply reach_create, reach_create, reach_init. reflexivity.
  - vm_compute. apply list_elem_of_here.
  - vm_compute. apply list_elem_of_further, list_elem_of_here.
  - intros H. discriminate H.
  - reflexivity.
  - reflexivity.
  - reflexivity.
Defined.

(** The scenario of the specification: with 10:00-10:30 booked, a request
    for 10:15 is a conflict and writes nothing. *)
Lemma createBooking_conflict_iff_overlap_witness :
  createBooking Scenario.validate
    (Scenario.env_with "b2" 1500 (Returned None))
    (Scenario.guest_request (Scenario.after 15)) Scenario.booked
  = (Conflict, Scenario.booked).
Proof.
  refine (proj1 (proj2 (createBooking_conflict_iff_overlap Scenario.validate _ _
            (Scenario.guest_request (Scenario.after 15)) Scenario.booked
            Scenario.consultation Scenario.owner [] _ _)) _).
  - reflexivity.
  - vm_compute. reflexivity.
  - eexists. split; [apply list_elem_of_here|]. vm_compute.
    split_and!; reflexivity.
Defined.

(** One request after the other on the empty calendar: one winner. *)
Lemma concurrent_createBooking_outcomes_witness :
  one_winner
    (interleave Scenario.validate [First; First; Second; Second]
       Scenario.first_run Scenario.second_run Scenario.empty).1.1
    (interleave Scenario.validate [First; First; Second; Second]
       Scenario.first_run Scenario.second_run Scenario.empty).1.2.
Proof.
  unshelve epose proof (concurrent_createBooking_outcomes Scenario.validate
    (Scenario.env_with "b1" 1000 (Returned None))
    (Scenario.env_with "b2" 1001 (Returned None))
    (Scenario.guest_request Scenario.monday_10_00)
    (Scenario.guest_request Scenario.monday_10_00)
    (Scenario.guest_request Scenario.monday_10_00)
    (Scenario.guest_request Scenario.monday_10_00)
    Scenario.empty Scenario.consultation Scenario.owner []
    eq_refl eq_refl eq_refl eq_refl eq_refl eq_refl _ _ _ _
    [First; First; Second; Second] _) as H.
  - intros b Hb. vm_compute in Hb. by apply elem_of_nil in Hb.
  - vm_compute. apply not_elem_of_nil.
  - vm_compute. apply not_elem_of_nil.
  - intros Heq. discriminate Heq.
  - apply Permutation_refl.
  - unfold Scenario.first_run, Scenario.second_run.
    destruct (interleave _ _ _ _ _) as [[a b] s'].
    apply H. intros [Heq|Heq]; discriminate Heq.
Defined.

(** ** AnalyticsAccumulator *)

Lemma field_of_new action f delta now :
  field_of f (new_counters action f delta now) = delta.
Proof. by destruct f. Qed.

Lemma field_of_new_other action f g delta now :
  g ≠ f → field_of g (new_counters action f delta now) = 0.
Proof. by destruct f, g. Qed.

Lemma field_of_set f v now c : field_of f (set_counter f v now c) = v.
Proof. by destruct f. Qed.

Lemma field_of_set_other f g v now c :
  g ≠ f → field_of g (set_counter f v now c) = field_of g c.
Proof. by destruct f, g. Qed.

(** The statement of the handlers is rejected whatever the table holds. *)
Lemma upsert_counter_bare (k : analytics_key) (action : string)
    (f : counter_field) (delta : Z) (now : instant) (a : gmap analytics_key counters) :
  upsert_counter Bare k action f delta now a = None.
Proof. reflexivity. Qed.

(** Had the statement named the stored row ([analytics.<field>]), it would
    be the upsert on the key: the counter of the key, 0 without a row,
    grows by the delta, the other counter of the key and the rows of the
    other keys are as they were. *)
Lemma upsert_counter_stored (k : analytics_key) (action : string)
    (f : counter_field) (delta : Z) (now : instant) (a : gmap analytics_key counters) :
  ∃ a', upsert_counter (Qualified Stored) k action f delta now a = Some a' ∧
    counter_value f k a' = counter_value f k a + delta ∧
    (∀ g, g ≠ f → counter_value g k a' = counter_value g k a) ∧
    (∀ k', k' ≠ k → a' !! k' = a !! k').
Proof.
  unfold upsert_counter, counter_value. cbn [resolve do_update_scope].
  rewrite decide_True by apply list_elem_of_here.
  eexists. split; [reflexivity|].
  destruct (a !! k) as [c|] eqn:Hk; rewrite lookup_insert_eq; simpl; split_and!.
  - apply field_of_set.
  - intros g Hg. by apply field_of_set_other.
  - intros k' Hk'. by rewrite lookup_insert_ne.
  - rewrite field_of_new. lia.
  - intros g Hg. by apply field_of_new_other.
  - intros k' Hk'. by rewrite lookup_insert_ne.
Qed.

(** ** cancelBooking *)

Section cancelBooking.
Context (now : instant) (req : request uuid (option string)) (s : store).
Context (b : booking) (rest : list booking).
Hypothesis Hfound :
  filter (visible_to (req_userId req) (req_params req)) (bookings s) = b :: rest.

Lemma cancelBooking_answer :
  ∃ r0, r0 ∈ bookings s ∧ owned_by (req_userId req) (req_params req) r0 ∧
    (cancelBooking now req s).1
    = Ok (set_cancelled now (or_null (req_body req)) r0).
Proof.
  unfold cancelBooking. rewrite Hfound. cbn zeta.
  destruct (filter_head_elem _ _ _ _ Hfound) as [Hb (Hid & Hu & _)].
  assert (∃ x, x ∈ sql_update (owned_by (req_userId req) (req_params req))
                     (set_cancelled now (or_null (req_body req))) (bookings s) ∧
               owned_by (req_userId req) (req_params req) x) as Hex.
  { exists (set_cancelled now (or_null (req_body req)) b). split; [|done].
    apply sql_update_elem. exists b. split; [done|]. left. by split. }
  destruct (proj2 (filter_cons_iff _ _) Hex) as (r & l & Hr).
  change (bookings (with_bookings ?bs _)) with bs. rewrite Hr.
  destruct (filter_head_elem _ _ _ _ Hr) as [Hin Hown].
  apply sql_update_elem in Hin as (r0 & Hr0 & [[Hp ->]|[Hp ->]]);
    [|contradiction].
  exists r0. by destruct (head _).
Qed.

Lemma cancelBooking_bookings :
  bookings (cancelBooking now req s).2
  = sql_update (owned_by (req_userId req) (req_params req))
               (set_cancelled now (or_null (req_body req))) (bookings s).
Proof.
  unfold cancelBooking. rewrite Hfound. cbn zeta.
  destruct (head _); by destruct (filter (owned_by _ _) _).
Qed.

Lemma cancelBooking_slots :
  availability_slots (cancelBooking now req s).2
  = releaseSlot now (b_event_type_id b) (day_of_week (b_scheduled_at b))
                (time_of_day (b_scheduled_at b)) (availability_slots s).
Proof.
  unfold cancelBooking. rewrite Hfound. cbn zeta.
  destruct (head _); by destruct (filter (owned_by _ _) _).
Qed.

Lemma cancelBooking_analytics :
  analytics (cancelBooking now req s).2 = analytics s.
Proof.
  unfold cancelBooking. rewrite Hfound. cbn zeta.
  destruct (head _); by destruct (filter (owned_by _ _) _).
Qed.
End cancelBooking.

(** C4, evaluated on the code.  The claim asks that cancelling a booking
    that is already cancelled be rejected and change nothing.  The lookup
    of the cancel handler does not filter on the status and its UPDATE is
    unconditional: for a booking of the caller that is already cancelled
    the handler answers 200 and overwrites cancelled_at and the
    cancellation reason. *)
Theorem cancelBooking_already_cancelled (now : instant)
    (req : request uuid (option string)) (s : store)
    (b : booking) (rest : list booking) :
  filter (visible_to (req_userId req) (req_params req)) (bookings s) = b :: rest →
  b_status b = Cancelled →
  (∃ r, (cancelBooking now req s).1 = Ok r ∧ b_id r = req_params req ∧
        b_cancelled_at r = Some now ∧
        b_cancellation_reason r = or_null (req_body req)) ∧
  set_cancelled now (or_null (req_body req)) b ∈ bookings (cancelBooking now req s).2.
Proof.
  intros Hfound Hstatus. split.
  - destruct (cancelBooking_answer now req s b rest Hfound)
      as (r0 & Hr0 & [Hid Hu] & Hans).
    eexists. split; [exact Hans|]. done.
  - rewrite (cancelBooking_bookings now req s b rest Hfound).
    destruct (filter_head_elem _ _ _ _ Hfound) as [Hb (Hid & Hu & _)].
    apply sql_update_elem. exists b. split; [done|]. left. by split.
Qed.

(** The booking of [Scenario.cancelled_once] was cancelled at instant 2000
    for a first reason; its owner cancels it again at instant 3000. *)
Lemma cancelBooking_already_cancelled_witness :
  map (λ b, (b_status b, b_cancelled_at b, b_cancellation_reason b))
      (bookings Scenario.cancelled_once)
  = [(Cancelled, Some 2000, Some "first reason"%string)] ∧
  (∃ r, (cancelBooking 3000 (Scenario.as_owner "b1"%string (Some "again"%string))
                       Scenario.cancelled_once).1 = Ok r ∧
        b_cancelled_at r = Some 3000 ∧
        b_cancellation_reason r = Some "again"%string) ∧
  map (λ b, (b_status b, b_cancelled_at b, b_cancellation_reason b))
      (bookings (cancelBooking 3000
                   (Scenario.as_owner "b1"%string (Some "again"%string))
                   Scenario.cancelled_once).2)
  = [(Cancelled, Some 3000, Some "again"%string)].
Proof.
  unshelve epose proof (cancelBooking_already_cancelled 3000
    (Scenario.as_owner "b1"%string (Some "again"%string))
    Scenario.cancelled_once _ [] _ _) as H.
  - exact (set_cancelled 2000 (Some "first reason"%string)
             (new_booking (Scenario.env_with "b1"%string 1000 (Returned None))
                (Scenario.guest_request Scenario.monday_10_00)
                Scenario.consultation (Scenario.after 30))).
  - vm_compute. reflexivity.
  - reflexivity.
  - destruct H as ((r & Hr & _ & Hat & Hreason) & _).
    split_and!.
    + vm_compute. reflexivity.
    + exists r. by split_and!.
    + vm_compute. reflexivity.
Defined.

(** C8, evaluated on the code.  The claim asks that the analytics step be
    an upsert on (owner, event type, date) and that a successful
    cancelBooking add exactly 1 to the cancellation counter of today's key.
    Both analytics statements of the handlers name the counter on the right
    of [DO UPDATE SET] without qualifier; PostgreSQL rejects that reference
    as ambiguous between the stored row and [EXCLUDED], whatever the table
    holds, and the handler catches and logs the error.  So the statement
    creates no row and adds to no counter: a cancelBooking that finds the
    booking and its event type answers 200, and the cancellation counter of
    (owner, event type, today), like the whole analytics table, is what it
    was. *)
Theorem analytics_upsert_rejected :
  (∀ (k : analytics_key) (action : string) (f : counter_field) (delta : Z)
     (now : instant) (a : gmap analytics_key counters),
     upsert_counter Bare k action f delta now a = None) ∧
  (∀ (now : instant) (req : request uuid (option string)) (s : store)
     (b : booking) (rest : list booking) (et : event_type),
     filter (visible_to (req_userId req) (req_params req)) (bookings s) = b :: rest →
     head (filter (λ et, et_id et = b_event_type_id b) (event_types s)) = Some et →
     let key := (et_user_id et, b_event_type_id b, iso_date now) in
     let out := cancelBooking now req s in
     (∃ r, out.1 = Ok r ∧ b_status r = Cancelled) ∧
     counter_value CancellationCount key (analytics out.2)
       = counter_value CancellationCount key (analytics s) ∧
     analytics out.2 = analytics s).
Proof.
  split.
  - intros k action f delta now a. apply upsert_counter_bare.
  - intros now req s b rest et Hfound Het key out. unfold out.
    rewrite (cancelBooking_analytics now req s b rest Hfound).
    split_and!; [|done|done].
    destruct (cancelBooking_answer now req s b rest Hfound)
      as (r0 & _ & _ & Hans). eauto.
Qed.

(** In [Scenario.booked] the 10:00 booking is cancelled by its owner: the
    answer is 200, and the analytics table, empty before, is empty after;
    the cancellation counter of (owner, event type, today) stays 0. *)
Lemma analytics_upsert_rejected_witness :
  (∃ r, (cancelBooking 2000
           (Scenario.as_owner "b1"%string (Some "first reason"%string))
           Scenario.booked).1 = Ok r ∧ b_status r = Cancelled) ∧
  analytics Scenario.booked = ∅ ∧
  analytics Scenario.cancelled_once = ∅ ∧
  counter_value CancellationCount ("u1"%string, "e1"%string, 0)
    (analytics Scenario.cancelled_once) = 0.
Proof.
  unshelve epose proof (proj2 analytics_upsert_rejected 2000
    (Scenario.as_owner "b1"%string (Some "first reason"%string))
    Scenario.booked _ [] Scenario.consultation _ _) as H.
  - exact (new_booking (Scenario.env_with "b1"%string 1000 (Returned None))
             (Scenario.guest_request Scenario.monday_10_00)
             Scenario.consultation (Scenario.after 30)).
  - vm_compute. reflexivity.
  - vm_compute. reflexivity.
  - destruct H as (Hans & Hcancel & Hsame). split_and!.
    + exact Hans.
    + reflexivity.
    + etransitivity; [exact Hsame|]. reflexivity.
    + etransitivity; [exact Hcancel|]. reflexivity.
Defined.

(** ** AvailabilityModel *)

Lemma consumeSlot_lookup now et d startT endT slots (i : nat) sl :
  slots !! i = Some sl →
  consumeSlot now et d startT endT slots !! i
  = Some (if decide (slot_intersects et d startT endT sl)
          then set_active false now sl else sl).
Proof.
  intros Hi. unfold consumeSlot. by rewrite sql_update_lookup, Hi.
Qed.

Lemma releaseSlot_lookup now et d startT slots (i : nat) sl :
  slots !! i = Some sl →
  releaseSlot now et d startT slots !! i
  = Some (if decide (slot_starts_at et d startT sl)
          then set_active true now sl else sl).
Proof.
  intros Hi. unfold releaseSlot. by rewrite sql_update_lookup, Hi.
Qed.

(** C5.  consumeSlot deactivates every slot of the event type and day
    whose interval intersects the booked window, and no other row;
    releaseSlot reactivates the rows of the event type and day whose start
    equals the given start, and no other row.  Hence, after consumeSlot and
    then releaseSlot for the same booking, a slot of that event type and
    day that starts at the booking start is active, and a slot that
    intersected the window but starts at another time is still inactive. *)
Theorem consume_then_release (now1 now2 : instant) (et : uuid) (d : weekday)
    (startT endT : Z) (slots : list availability_slot) (i : nat)
    (sl : availability_slot) :
  slots !! i = Some sl →
  let consumed := consumeSlot now1 et d startT endT slots in
  let released := releaseSlot now2 et d startT consumed in
  (* consumeSlot *)
  (sl_event_type_id sl = et ∧ sl_day_of_week sl = d ∧
   sl_start_time sl < endT ∧ startT < sl_end_time sl →
     consumed !! i = Some (set_active false now1 sl)) ∧
  (¬ (sl_event_type_id sl = et ∧ sl_day_of_week sl = d ∧
      sl_start_time sl < endT ∧ startT < sl_end_time sl) →
     consumed !! i = Some sl) ∧
  (* releaseSlot *)
  (∀ c, consumed !! i = Some c →
     (sl_event_type_id c = et ∧ sl_day_of_week c = d ∧ sl_start_time c = startT →
        released !! i = Some (set_active true now2 c)) ∧
     (¬ (sl_event_type_id c = et ∧ sl_day_of_week c = d ∧ sl_start_time c = startT) →
        released !! i = Some c)) ∧
  (* consumeSlot, then releaseSlot *)
  (sl_event_type_id sl = et → sl_day_of_week sl = d → sl_start_time sl = startT →
     ∃ r, released !! i = Some r ∧ sl_is_active r = true) ∧
  (sl_event_type_id sl = et → sl_day_of_week sl = d →
   sl_start_time sl < endT → startT < sl_end_time sl → sl_start_time sl ≠ startT →
     ∃ r, released !! i = Some r ∧ sl_is_active r = false).
Proof.
  intros Hi consumed released.
  assert (Hc := consumeSlot_lookup now1 et d startT endT slots i sl Hi).
  fold consumed in Hc.
  assert (∀ c, consumed !! i = Some c →
            released !! i = Some (if decide (slot_starts_at et d startT c)
                                  then set_active true now2 c else c)) as Hr.
  { intros c Hci. by apply releaseSlot_lookup. }
  split_and!.
  - intros Hint. rewrite Hc. by rewrite decide_True.
  - intros Hint. rewrite Hc. by rewrite decide_False.
  - intros c Hci. split; intros Hst; rewrite (Hr c Hci).
    + by rewrite decide_True.
    + by rewrite decide_False.
  - intros Het Hd Hst. eexists. split; [apply Hr, Hc|].
    rewrite decide_True; [done|]. by case_decide.
  - intros Het Hd Hlt Hgt Hne. eexists. split; [apply Hr, Hc|].
    rewrite (decide_True (P := slot_intersects _ _ _ _ _)) by done.
    rewrite decide_False; [done|]. intros (_ & _ & Hst). done.
Qed.

(** The 10:00 booking of the scenario consumes the slots 10:00-10:30 and
    09:45-10:15; releasing it reactivates the first one only. *)
Lemma consume_then_release_witness :
  sl_is_active <$>
    releaseSlot 2000 "e1"%string Monday 36000
      (consumeSlot 1000 "e1"%string Monday 36000 37800 Scenario.slots) !! 1%nat
  = Some false.
Proof.
  destruct (proj2 (proj2 (proj2 (proj2
    (consume_then_release 1000 2000 "e1"%string Monday 36000 37800
       Scenario.slots 1 (Scenario.slot "s2"%string 35100 36900) eq_refl))))
    eq_refl eq_refl eq_refl eq_refl) as (r & Hr & Hactive).
  - intros Heq. discriminate Heq.
  - rewrite Hr. simpl. by rewrite Hactive.
Defined.

(** The scenario, end to end: the 10:00 booking deactivates the slots
    10:00-10:30 and 09:45-10:15; its cancellation reactivates the slot that
    starts at 10:00 and leaves the slot that starts at 09:45 inactive. *)
Example booking_then_cancellation_slots :
  map (λ sl, (sl_id sl, sl_is_active sl)) (availability_slots Scenario.booked)
  = [("s1"%string, false); ("s2"%string, false); ("s3"%string, true)] ∧
  map (λ sl, (sl_id sl, sl_is_active sl))
      (availability_slots Scenario.cancelled_once)
  = [("s1"%string, true); ("s2"%string, false); ("s3"%string, true)].
Proof. split; vm_compute; reflexivity. Qed.

(** ** rescheduleBooking *)

(** C6, evaluated on the code.  The claim asks that the move be refused
    exactly when [[newStart, newStart + duration)] overlaps another
    confirmed booking of the event type, and that a successful move store
    newStart and newEnd = newStart + duration and nothing else.  The
    handler does not validate its body and reads it twice: through
    [new Date] for the end of the meeting, and as the string itself, whose
    UTC offset PostgreSQL ignores, for the lower bound of the conflict
    query and for the stored start.  For a booking the lookup returns, the
    answer is Conflict, and nothing is written, exactly when another
    confirmed booking of the event type starts before
    wall-clock + duration - offset and ends after wall-clock; otherwise
    the answer is 200, the rows with the id of the booking get the
    wall-clock reading as start and wall-clock + duration - offset as end
    (and a new updated-at stamp), every other column and every other row is
    kept.  With an offset other than 0 the stored end is not the stored
    start plus the duration. *)
Theorem rescheduleBooking_reads_body_twice (now : instant)
    (req : request uuid (option time_string)) (s : store)
    (t : time_string) (old : booking) (rest : list booking) :
  req_body req = Some t →
  filter (reschedulable (req_userId req) (req_params req)) (bookings s)
    = old :: rest →
  let bid := req_params req in
  let storedStart := ts_wall_clock t in
  let storedEnd :=
    ts_wall_clock t + (b_duration_minutes old - ts_offset_minutes t) * 60000 in
  let found :=
    ∃ b, b ∈ bookings s ∧ b_id b ≠ bid ∧
         b_event_type_id b = b_event_type_id old ∧ b_status b = Confirmed ∧
         b_scheduled_at b < storedEnd ∧ storedStart < b_end_time b in
  let out := rescheduleBooking now req s in
  (out.1 = Conflict ↔ found) ∧
  (found → out = (Conflict, s)) ∧
  (¬ found →
     (∃ r, out.1 = Ok r ∧ b_id r = bid ∧
           b_scheduled_at r = storedStart ∧ b_end_time r = storedEnd) ∧
     length (bookings out.2) = length (bookings s) ∧
     ∀ (i : nat) b, bookings s !! i = Some b →
       (b_id b ≠ bid → bookings out.2 !! i = Some b) ∧
       (b_id b = bid →
          ∃ b', bookings out.2 !! i = Some b' ∧
            b_scheduled_at b' = storedStart ∧ b_end_time b' = storedEnd ∧
            b_id b' = b_id b ∧
            b_event_type_id b' = b_event_type_id b ∧
            b_user_id b' = b_user_id b ∧
            b_guest_name b' = b_guest_name b ∧
            b_guest_email b' = b_guest_email b ∧
            b_guest_phone b' = b_guest_phone b ∧
            b_guest_timezone b' = b_guest_timezone b ∧
            b_duration_minutes b' = b_duration_minutes b ∧
            b_description b' = b_description b ∧
            b_google_meet_link b' = b_google_meet_link b ∧
            b_status b' = b_status b ∧
            b_custom_fields b' = b_custom_fields b ∧
            b_google_calendar_event_id b' = b_google_calendar_event_id b ∧
            b_cancelled_at b' = b_cancelled_at b ∧
            b_cancellation_reason b' = b_cancellation_reason b ∧
            b_created_at b' = b_created_at b ∧
            b_deleted_at b' = b_deleted_at b)) ∧
  (ts_offset_minutes t ≠ 0 →
     storedEnd ≠ storedStart + b_duration_minutes old * 60000).
Proof.
  intros Hbody Hfound bid storedStart storedEnd found out.
  assert (add_minutes (js_date t) (b_duration_minutes old) = storedEnd) as Hend
    by (unfold storedEnd, add_minutes, js_date, ms_per_minute; lia).
  assert (found ↔ ∃ b, b ∈ bookings s ∧
            conflicts_with_other (b_event_type_id old) bid (pg_timestamp t)
              (add_minutes (js_date t) (b_duration_minutes old)) b) as Hov.
  { rewrite Hend.
    unfold found, conflicts_with_other, conflicts_with, overlaps, pg_timestamp,
      storedStart. naive_solver. }
  destruct (filter_head_elem _ _ _ _ Hfound) as [Hold (Hid & Hu & Hst)].
  split_and!; [| | |unfold storedEnd, storedStart; lia];
    unfold out, rescheduleBooking; rewrite Hbody, Hfound; fold bid;
    (destruct (filter (conflicts_with_other _ _ _ _) (bookings s))
       as [|c l] eqn:Hf;
     [assert (¬ found) as Hno
        by (intros Ho; apply Hov in Ho as (b & Hb & Hc);
            by apply (proj1 (filter_nil_iff _ _) Hf b))
     |assert found as Hyes
        by (apply Hov, (proj1 (filter_cons_iff _ _)); eauto)]);
    try done.
  - cbn [bookings with_bookings with_slots].
    destruct (filter (λ b, b_id b = bid) (sql_update _ _ _)); done.
  - intros _. rewrite Hend. cbn [bookings with_bookings with_slots].
    destruct (filter (λ b, b_id b = bid) (sql_update _ _ _)) as [|r l'] eqn:Hr.
    { exfalso.
      apply (proj1 (filter_nil_iff _ _) Hr
               (set_schedule now (pg_timestamp t) storedEnd old)); [|done].
      apply sql_update_elem. exists old. split; [done|]. left. by split. }
    destruct (filter_head_elem _ _ _ _ Hr) as [Hin Hrid].
    split_and!.
    + exists r. split; [done|]. split; [done|].
      apply sql_update_elem in Hin as (r0 & Hr0 & [[Hp ->]|[Hp ->]]);
        [|contradiction].
      done.
    + simpl. apply sql_update_length.
    + intros i b Hi. simpl. rewrite sql_update_lookup, Hi. simpl. split.
      * intros Hne. by rewrite decide_False.
      * intros Heq. rewrite decide_True by done. eexists. split; [done|].
        by split_and!.
Qed.

(** The owner moves the 10:00 booking of [Scenario.booked], of 30 minutes,
    with the body ['1970-01-05T13:00:00+02:00'], which is 11:00 UTC: the
    answer is 200, the stored start is 13:00 and the stored end 11:30. *)
Lemma rescheduleBooking_reads_body_twice_witness :
  ∃ r, (rescheduleBooking 3000
          (Scenario.as_owner "b1"%string
             (Some {| ts_wall_clock := Scenario.after 180;
                      ts_offset_minutes := 120 |}))
          Scenario.booked).1 = Ok r ∧
       b_scheduled_at r = Scenario.after 180 ∧
       b_end_time r = Scenario.after 90 ∧
       b_duration_minutes r = 30.
Proof.
  unshelve epose proof (rescheduleBooking_reads_body_twice 3000
    (Scenario.as_owner "b1"%string
       (Some {| ts_wall_clock := Scenario.after 180; ts_offset_minutes := 120 |}))
    Scenario.booked _ _ [] eq_refl _) as H.
  - exact (new_booking (Scenario.env_with "b1"%string 1000 (Returned None))
             (Scenario.guest_request Scenario.monday_10_00)
             Scenario.consultation (Scenario.after 30)).
  - vm_compute. reflexivity.
  - destruct H as (_ & _ & Hmove & _).
    destruct Hmove as ((r & Hr & _ & Hstart & Hend) & _).
    + intros (b & Hb & Hne & _). apply list_elem_of_singleton in Hb.
      subst b. by apply Hne.
    + exists r. split_and!; [exact Hr|exact Hstart|exact Hend|].
      vm_compute in Hr. by injection Hr as <-.
Defined.

(** A body with offset 0 is read the same way twice: with 10:00-10:30 and
    10:30-11:00 booked, the owner cannot move the first booking to 10:15. *)
Example reschedule_onto_neighbour :
  rescheduleBooking 3000
    (Scenario.as_owner "b1"%string (Some (utc (Scenario.after 15))))
    Scenario.booked_twice
  = (Conflict, Scenario.booked_twice).
Proof. vm_compute. reflexivity. Qed.

(** Moving a booking onto its own old interval is no conflict: the row
    being moved is left out of the check. *)
Example reschedule_onto_itself :
  (rescheduleBooking 3000
     (Scenario.as_owner "b1"%string (Some (utc (Scenario.after (-15)))))
     Scenario.booked_twice).1
  = Ok (set_schedule 3000 (Scenario.after (-15)) (Scenario.after 15)
          (new_booking (Scenario.env_with "b1"%string 1000 (Returned None))
             (Scenario.guest_request Scenario.monday_10_00)
             Scenario.consultation (Scenario.after 30))).
Proof. vm_compute. reflexivity. Qed.

(** With 10:00-10:30 and 10:30-11:00 booked, the body
    ['1970-01-05T08:00:00-03:00'], which is 11:00 UTC, asks for an interval
    that is free whichever way it is read (08:00-08:30 or 11:00-11:30); the
    conflict query compares 08:00 and 11:30 with the 10:30 booking and the
    answer is Conflict. *)
Example reschedule_free_interval_refused :
  rescheduleBooking 3000
    (Scenario.as_owner "b1"%string
       (Some {| ts_wall_clock := Scenario.after (-120);
                ts_offset_minutes := -180 |}))
    Scenario.booked_twice
  = (Conflict, Scenario.booked_twice).
Proof. vm_compute. reflexivity. Qed.

(** ** Meeting provisioning *)

(** C7, as the code has it.  On a valid request for a free interval with
    an unused id: if the call to the provisioner raised, the booking is
    stored with status confirmed and with neither meeting link nor
    external meeting id, and the answer is 201; createGoogleMeetEvent,
    however, catches every failure of the calendar API itself and answers
    with a made-up link, so when the calendar API fails the booking is
    stored with status confirmed, with that link as its meeting link and
    without external meeting id, and the answer is 201 as well. *)
Theorem createBooking_when_provisioning_fails {raw_body}
    (validate : raw_body → validation) (e : env) (body : raw_body)
    (d : booking_data) (s : store) (et : event_type) (u : user)
    (rest : list (event_type * user)) :
  validate body = Valid d →
  select_event_type s (event_type_id d) = (et, u) :: rest →
  (∀ b, b ∈ bookings s →
     ¬ conflicts_with (event_type_id d) (scheduled_at d)
         (add_minutes (scheduled_at d) (et_duration_minutes et)) b) →
  env_uuid e ∉ b_id <$> bookings s →
  ∃ row s',
    createBooking validate e body s = (Created row, s') ∧
    row ∈ bookings s' ∧
    b_id row = env_uuid e ∧
    b_status row = Confirmed ∧
    (env_meet e = Raised →
       b_google_meet_link row = None ∧ b_google_calendar_event_id row = None) ∧
    (∀ message rnd,
       env_meet e = Returned (Some (createGoogleMeetEvent (ApiFailed message) rnd)) →
       b_google_meet_link row = Some ("https://meet.google.com/" +:+ rnd)%string ∧
       b_google_calendar_event_id row = None).
Proof.
  intros Hvalid Hevent Hfree Hfresh.
  unfold createBooking.
  rewrite (createBooking_check_cleared validate body d s et u rest) by done.
  destruct (createBooking_commit_fresh e d et
              (add_minutes (scheduled_at d) (et_duration_minutes et)) s Hfresh)
    as (s' & Hc & Hbs & _).
  eexists _, s'. split; [exact Hc|]. split_and!.
  - rewrite Hbs. apply elem_of_app. right. by left.
  - done.
  - done.
  - intros Hmeet. simpl. by rewrite Hmeet.
  - intros message rnd Hmeet. simpl. by rewrite Hmeet.
Qed.

(** C7, as the claim states it, fails: the calendar API is down while the
    10:00 booking is made on the empty calendar; the booking is stored and
    confirmed, but its meeting link is not null. *)
Lemma createBooking_api_down_has_link :
  ∃ row s',
    createBooking Scenario.validate
      (Scenario.env_with "b1"%string 1000 (Returned (Some Scenario.api_down)))
      (Scenario.guest_request Scenario.monday_10_00) Scenario.empty
    = (Created row, s') ∧
    ge_success Scenario.api_down = false ∧
    bookings s' = [row] ∧
    b_status row = Confirmed ∧
    b_google_meet_link row = Some "https://meet.google.com/k3x9q2m1z"%string ∧
    b_google_meet_link row ≠ None.
Proof.
  eexists _, _. split; [vm_compute; reflexivity|].
  split_and!; try reflexivity. intros Heq. discriminate Heq.
Qed.

(** The provisioner raises while the 10:00 booking is made on the empty
    calendar: the booking is stored, confirmed and without a link. *)
Lemma createBooking_when_provisioning_fails_witness :
  ∃ row s',
    createBooking Scenario.validate
      (Scenario.env_with "b1"%string 1000 Raised)
      (Scenario.guest_request Scenario.monday_10_00) Scenario.empty
    = (Created row, s') ∧
    b_status row = Confirmed ∧
    b_google_meet_link row = None ∧ b_google_calendar_event_id row = None.
Proof.
  unshelve epose proof (createBooking_when_provisioning_fails Scenario.validate
    (Scenario.env_with "b1"%string 1000 Raised)
    (Scenario.guest_request Scenario.monday_10_00)
    (Scenario.guest_request Scenario.monday_10_00)
    Scenario.empty Scenario.consultation Scenario.owner [] eq_refl eq_refl _ _)
    as H.
  - intros b Hb. vm_compute in Hb. by apply elem_of_nil in Hb.
  - vm_compute. apply not_elem_of_nil.
  - destruct H as (row & s' & Hrun & _ & _ & Hst & Hraised & _).
    exists row, s'. destruct (Hraised eq_refl) as [Hlink Hid]. by split_and!.
Defined.

(** ** Soft-deleted bookings *)

Lemma listBookings_listed (req : request unit list_query) (s : store) (b : booking) :
  b ∈ listBookings req s →
  b ∈ bookings s ∧ listed (req_userId req) (req_body req) b.
Proof.
  unfold listBookings. intros Hb.
  apply subseteq_take, subseteq_drop in Hb.
  rewrite merge_sort_Permutation in Hb.
  apply list_elem_of_filter in Hb. tauto.
Qed.

Lemma getBooking_visible (req : request uuid unit) (s : store) (b : booking) :
  getBooking req s = Ok b →
  b ∈ bookings s ∧ visible_to (req_userId req) (req_params req) b.
Proof.
  unfold getBooking.
  destruct (filter _ (bookings s)) as [|b' l] eqn:Hf; [done|].
  intros [= ->]. by apply (filter_head_elem _ _ l).
Qed.

(** C9.  The conflict query of createBooking does not look at deleted_at:
    a confirmed booking that is soft-deleted still makes an overlapping
    request on its event type fail with Conflict (and nothing is written),
    although no listBookings and no getBooking answer ever contains it. *)
Theorem createBooking_conflicts_with_soft_deleted {raw_body}
    (validate : raw_body → validation) (e : env) (body : raw_body)
    (d : booking_data) (s : store) (et : event_type) (u : user)
    (rest : list (event_type * user)) (b : booking) (t : instant) :
  validate body = Valid d →
  select_event_type s (event_type_id d) = (et, u) :: rest →
  b ∈ bookings s →
  b_status b = Confirmed →
  b_deleted_at b = Some t →
  b_event_type_id b = event_type_id d →
  b_scheduled_at b < scheduled_at d + et_duration_minutes et * 60000 →
  scheduled_at d < b_end_time b →
  createBooking validate e body s = (Conflict, s) ∧
  (∀ req, b ∉ listBookings req s) ∧
  (∀ req, getBooking req s ≠ Ok b).
Proof.
  intros Hvalid Hevent Hb Hst Hdel Het Hlt Hgt. split_and!.
  - unfold createBooking.
    rewrite (createBooking_check_conflict validate body d s et u rest); try done.
    exists b. split; [done|].
    unfold conflicts_with, overlaps, add_minutes, ms_per_minute. by split_and!.
  - intros req Hin. apply listBookings_listed in Hin as [_ (_ & Hnone & _)].
    congruence.
  - intros req Hget. apply getBooking_visible in Hget as [_ (_ & _ & Hnone)].
    congruence.
Qed.

(** In [Scenario.hidden] the 10:00 booking is soft-deleted: the owner's
    list is empty, and a request for 10:15 is still a conflict. *)
Lemma createBooking_conflicts_with_soft_deleted_witness :
  createBooking Scenario.validate
    (Scenario.env_with "b2"%string 1500 (Returned None))
    (Scenario.guest_request (Scenario.after 15)) Scenario.hidden
  = (Conflict, Scenario.hidden) ∧
  listBookings
    (Scenario.as_owner ()
       {| q_status := None; q_eventTypeId := None; q_startDate := None;
          q_endDate := None; q_limit := 50; q_offset := 0 |})
    Scenario.hidden = [] ∧
  getBooking (Scenario.as_owner "b1"%string ()) Scenario.hidden = NotFound.
Proof.
  unshelve epose proof (createBooking_conflicts_with_soft_deleted
    Scenario.validate (Scenario.env_with "b2"%string 1500 (Returned None))
    (Scenario.guest_request (Scenario.after 15))
    (Scenario.guest_request (Scenario.after 15))
    Scenario.hidden Scenario.consultation Scenario.owner []
    (Scenario.soft_deleted
       (new_booking (Scenario.env_with "b1"%string 1000 (Returned None))
          (Scenario.guest_request Scenario.monday_10_00)
          Scenario.consultation (Scenario.after 30)))
    1200 eq_refl eq_refl _ eq_refl eq_refl eq_refl eq_refl eq_refl) as H.
  - vm_compute. apply list_elem_of_here.
  - destruct H as (Hrun & _ & _). split_and!; [exact Hrun| |].
    + vm_compute. reflexivity.
    + vm_compute. reflexivity.
Defined.

(** ** Deleting an availability slot *)

(** C10.  The handler that deletes (deactivates) an availability slot
    never reads the identity of its caller: two authenticated callers who
    name the same slot get the same answer and leave the same store, and
    whoever the caller is, and whoever owns the event type of the slot, a
    slot with the given id is answered with 200 and is inactive afterwards. *)
Theorem deleteAvailabilitySlot_ignores_caller (req1 req2 : request uuid unit)
    (s : store) :
  req_params req1 = req_params req2 →
  deleteAvailabilitySlot req1 s = deleteAvailabilitySlot req2 s ∧
  ∀ (i : nat) sl,
    availability_slots s !! i = Some sl → sl_id sl = req_params req1 →
    (deleteAvailabilitySlot req1 s).1 = Ok () ∧
    availability_slots (deleteAvailabilitySlot req1 s).2 !! i = Some (deactivate sl) ∧
    sl_is_active (deactivate sl) = false.
Proof.
  intros Hsame. split.
  - unfold deleteAvailabilitySlot. by rewrite Hsame.
  - intros i sl Hi Hid. unfold deleteAvailabilitySlot.
    cbn [availability_slots with_slots].
    destruct (filter (λ sl, sl_id sl = req_params req1) (sql_update _ _ _))
      as [|x l] eqn:Hf.
    + exfalso. apply (proj1 (filter_nil_iff _ _) Hf (deactivate sl)); [|done].
      apply sql_update_elem. exists sl. split; [|by left].
      by apply list_elem_of_lookup_2 in Hi.
    + simpl. split_and!; [done| |done].
      rewrite sql_update_lookup, Hi. simpl. by rewrite decide_True.
Qed.

(** A user who does not own the consultation deactivates its 11:00 slot,
    exactly as the owner would. *)
Lemma deleteAvailabilitySlot_ignores_caller_witness :
  deleteAvailabilitySlot (Scenario.as_intruder "s3"%string ()) Scenario.empty
  = deleteAvailabilitySlot (Scenario.as_owner "s3"%string ()) Scenario.empty ∧
  (deleteAvailabilitySlot (Scenario.as_intruder "s3"%string ()) Scenario.empty).1
  = Ok () ∧
  sl_is_active <$>
    availability_slots
      (deleteAvailabilitySlot (Scenario.as_intruder "s3"%string ())
         Scenario.empty).2 !! 2%nat
  = Some false.
Proof.
  destruct (deleteAvailabilitySlot_ignores_caller
              (Scenario.as_intruder "s3"%string ())
              (Scenario.as_owner "s3"%string ()) Scenario.empty eq_refl)
    as [Hsame Hslot].
  destruct (Hslot 2%nat (Scenario.slot "s3"%string 39600 41400) eq_refl eq_refl)
    as (Hok & Hrow & Hinactive).
  split_and!; [exact Hsame|exact Hok|]. by rewrite Hrow.
Defined.

(** * Further properties of the handlers *)

(** ** The three operations, case by case *)

Lemma select_event_type_nil s id :
  (∀ et, et ∈ event_types s → ¬ bookable id et) → select_event_type s id = [].
Proof.
  intros Hnone. destruct (select_event_type s id) as [|[et u] l] eqn:Hsel; [done|].
  assert ((et, u) ∈ select_event_type s id) as Hin by (rewrite Hsel; by left).
  apply select_event_type_elem in Hin as (Het & Hb & _). by destruct (Hnone et).
Qed.

Lemma createBooking_cases {raw_body} (validate : raw_body → validation)
    (e : env) (body : raw_body) (s : store) :
  (∃ r, createBooking validate e body s = (r, s) ∧ is_created r = false) ∨
  (∃ row s', createBooking validate e body s = (Created row, s') ∧
             created_from validate e body s row s').
Proof.
  unfold createBooking, createBooking_check.
  destruct (validate body) as [errs|d] eqn:Hvalid; [left; by eexists|].
  destruct (select_event_type s (event_type_id d)) as [|[et u] rest] eqn:Hsel;
    [left; by eexists|].
  destruct (filter _ (bookings s)) as [|c l] eqn:Hf; [|left; by eexists].
  unfold createBooking_commit. case_decide as Hid; [left; by eexists|].
  right. eexists _, _. split; [reflexivity|].
  exists d, et, u, rest. split_and!; try done.
  exact (proj1 (filter_nil_iff _ _) Hf).
Qed.

Lemma createBooking_created {raw_body} (validate : raw_body → validation)
    (e : env) (body : raw_body) (s : store) (row : booking) (s' : store) :
  createBooking validate e body s = (Created row, s') →
  created_from validate e body s row s'.
Proof.
  intros Hrun.
  destruct (createBooking_cases validate e body s)
    as [(r & Hr & Hno)|(row' & s'' & Hr & Hfrom)]; rewrite Hrun in Hr.
  - by simplify_eq.
  - by simplify_eq.
Qed.

Lemma createBooking_no_event_type {raw_body} (validate : raw_body → validation)
    (e : env) (body : raw_body) (s : store) (d : booking_data) :
  validate body = Valid d →
  (∀ et, et ∈ event_types s → ¬ bookable (event_type_id d) et) →
  createBooking validate e body s = (NotFound, s).
Proof.
  intros Hv Hnone. unfold createBooking, createBooking_check.
  rewrite Hv. by rewrite select_event_type_nil.
Qed.

(** X1.  createBooking writes all or nothing: a body that does not
    validate is answered 400; a request whose event type is missing,
    inactive or soft-deleted is answered 404; and whatever the reason, an
    answer other than 201 leaves the store exactly as it was. *)
Theorem createBooking_all_or_nothing {raw_body} (validate : raw_body → validation)
    (e : env) (body : raw_body) (s : store) :
  (∀ errors, validate body = Invalid errors →
     createBooking validate e body s = (BadRequest, s)) ∧
  (∀ d, validate body = Valid d →
     (∀ et, et ∈ event_types s →
        ¬ (et_id et = event_type_id d ∧ et_is_active et = true ∧
           et_deleted_at et = None)) →
     createBooking validate e body s = (NotFound, s)) ∧
  (is_created (createBooking validate e body s).1 = false →
     (createBooking validate e body s).2 = s).
Proof.
  split_and!.
  - intros errors Hv. unfold createBooking, createBooking_check. by rewrite Hv.
  - intros d Hv Hnone. by apply (createBooking_no_event_type validate e body s d).
  - destruct (createBooking_cases validate e body s)
      as [(r & -> & Hno)|(row & s' & -> & _)]; [done|]. simpl. done.
Qed.

(** The consultation of the scenario is soft-deleted: a booking request
    for it is answered 404 and nothing is written. *)
Lemma createBooking_all_or_nothing_witness :
  createBooking Scenario.validate
    (Scenario.env_with "b1"%string 1000 (Returned None))
    (Scenario.guest_request Scenario.monday_10_00)
    (with_event_types [set_deleted 500 Scenario.consultation] Scenario.empty)
  = (NotFound, with_event_types [set_deleted 500 Scenario.consultation] Scenario.empty).
Proof.
  refine (proj1 (proj2 (createBooking_all_or_nothing Scenario.validate _ _ _))
            (Scenario.guest_request Scenario.monday_10_00) eq_refl _).
  intros et Het (_ & _ & Hdel). simpl in Het.
  apply list_elem_of_singleton in Het. subst et. discriminate Hdel.
Defined.

(** X2.  A 201 of createBooking is sound: the body validated, the event
    type is active and not soft-deleted, no confirmed booking of the event
    type overlaps the requested interval, and the stored row is the request:
    its guest fields, the owner and the duration of the event type, status
    confirmed, end = start + duration; the rows already stored, the users
    and the event types are untouched. *)
Theorem createBooking_created_sound {raw_body} (validate : raw_body → validation)
    (e : env) (body : raw_body) (s : store) (row : booking) (s' : store) :
  createBooking validate e body s = (Created row, s') →
  ∃ d et,
    validate body = Valid d ∧
    et ∈ event_types s ∧ et_id et = event_type_id d ∧
    et_is_active et = true ∧ et_deleted_at et = None ∧
    (∀ b, b ∈ bookings s → b_event_type_id b = event_type_id d →
       b_status b = Confirmed →
       ¬ (b_scheduled_at b < b_end_time row ∧ b_scheduled_at row < b_end_time b)) ∧
    b_id row = env_uuid e ∧ (b_id row ∉ b_id <$> bookings s) ∧
    b_event_type_id row = event_type_id d ∧
    b_user_id row = et_user_id et ∧
    b_guest_name row = guest_name d ∧ b_guest_email row = guest_email d ∧
    b_guest_phone row = guest_phone d ∧ b_guest_timezone row = guest_timezone d ∧
    b_status row = Confirmed ∧
    b_scheduled_at row = scheduled_at d ∧
    b_duration_minutes row = et_duration_minutes et ∧
    b_end_time row = b_scheduled_at row + b_duration_minutes row * 60000 ∧
    b_cancelled_at row = None ∧ b_deleted_at row = None ∧
    bookings s' = bookings s ++ [row] ∧
    users s' = users s ∧ event_types s' = event_types s.
Proof.
  intros Hrun. apply createBooking_created in Hrun
    as (d & et & u & rest & Hv & Hsel & Hfree & Hfresh & -> & Hb & Hu & Hev & _).
  assert ((et, u) ∈ select_event_type s (event_type_id d)) as Hin
    by (rewrite Hsel; by left).
  apply select_event_type_elem in Hin as (Het & (Hid & Hact & Hdel) & _).
  exists d, et. split_and!; try done.
  intros b Hin Hbe Hst Hov. apply (Hfree b Hin).
  unfold conflicts_with, overlaps. simpl in Hov. tauto.
Qed.

(** The 10:30 booking made on [Scenario.booked] is stored behind the 10:00
    booking. *)
Lemma createBooking_created_sound_witness :
  length (bookings Scenario.booked_twice) = 2%nat.
Proof.
  destruct (createBooking_created_sound Scenario.validate
    (Scenario.env_with "b2"%string 1500 (Returned None))
    (Scenario.guest_request (Scenario.after 30)) Scenario.booked
    (new_booking (Scenario.env_with "b2"%string 1500 (Returned None))
       (Scenario.guest_request (Scenario.after 30)) Scenario.consultation
       (Scenario.after 60))
    Scenario.booked_twice eq_refl) as (d & et & H).
  destruct H as (_ & _ & _ & _ & _ & _ & _ & _ & _ & _ & _ & _ & _ & _ & _ & _
                 & _ & _ & _ & _ & Hb & _).
  rewrite Hb, length_app. reflexivity.
Defined.

Lemma cancelBooking_cases (now : instant) (req : request uuid (option string))
    (s : store) :
  (cancelBooking now req s = (NotFound, s) ∧
   filter (visible_to (req_userId req) (req_params req)) (bookings s) = []) ∨
  (∃ b r, (cancelBooking now req s).1 = Ok r ∧
          cancelled_from now req s b (cancelBooking now req s).2).
Proof.
  destruct (filter (visible_to (req_userId req) (req_params req)) (bookings s))
    as [|b rest] eqn:Hfound.
  - left. split; [|done]. unfold cancelBooking. by rewrite Hfound.
  - right. destruct (cancelBooking_answer now req s b rest Hfound)
      as (r0 & _ & _ & Hans).
    exists b. eexists. split; [exact Hans|].
    destruct (filter_head_elem _ _ _ _ Hfound) as [Hb Hvis].
    unfold cancelled_from. split_and!; try done.
    + by apply (cancelBooking_bookings now req s b rest).
    + unfold cancelBooking. rewrite Hfound. cbn zeta.
      destruct (head _); by destruct (filter (owned_by _ _) _).
    + unfold cancelBooking. rewrite Hfound. cbn zeta.
      destruct (head _); by destruct (filter (owned_by _ _) _).
    + by apply (cancelBooking_slots now req s b rest).
    + by apply (cancelBooking_analytics now req s b rest).
Qed.

Lemma rescheduleBooking_cases (now : instant)
    (req : request uuid (option time_string)) (s : store) :
  (∃ r, rescheduleBooking now req s = (r, s) ∧
        (r = BadRequest ∧ req_body req = None ∨
         r = NotFound ∧
           filter (reschedulable (req_userId req) (req_params req)) (bookings s) = [] ∨
         r = Conflict)) ∨
  (∃ t old r, (rescheduleBooking now req s).1 = Ok r ∧
      rescheduled_from now req s t old (rescheduleBooking now req s).2).
Proof.
  unfold rescheduleBooking.
  destruct (req_body req) as [t|] eqn:Hbody; [|left; eexists; eauto].
  destruct (filter (reschedulable _ _) (bookings s)) as [|old rest] eqn:Hfound;
    [left; eexists; eauto|].
  destruct (filter (conflicts_with_other _ _ _ _) (bookings s)) as [|c l] eqn:Hf;
    [|left; eexists; eauto].
  right. destruct (filter_head_elem _ _ _ _ Hfound) as [Hold Hres].
  cbn [bookings with_bookings with_slots].
  destruct (filter (λ b, b_id b = req_params req) (sql_update _ _ _))
    as [|r l] eqn:Hr.
  { exfalso.
    apply (proj1 (filter_nil_iff _ _) Hr
             (set_schedule now (pg_timestamp t)
                (add_minutes (js_date t) (b_duration_minutes old)) old));
      [|by destruct Hres].
    apply sql_update_elem. exists old. split; [done|]. left.
    split; [by destruct Hres|done]. }
  exists t, old, r. split; [done|].
  unfold rescheduled_from. split_and!; try done.
  exact (proj1 (filter_nil_iff _ _) Hf).
Qed.

Lemma filter_sql_update_disjoint {A} (P Q : A → Prop)
    `{!∀ x, Decision (P x)} `{!∀ x, Decision (Q x)} (f : A → A) (l : list A) :
  (∀ x, Q x → ¬ P x ∧ ¬ P (f x)) →
  filter P (sql_update Q f l) = filter P l.
Proof.
  intros Hdis. unfold sql_update. induction l as [|x l IH]; [done|].
  rewrite fmap_cons, !filter_cons, IH.
  destruct (decide (Q x)) as [Hq|Hq]; [|done].
  destruct (Hdis x Hq) as [Hn Hnf]. by rewrite !decide_False.
Qed.

(** X4.  After a 201 of createBooking, the availability list of the booked
    event type offers no slot of the booking's weekday that intersects the
    booked time-of-day window, and the availability lists of all other
    event types are what they were. *)
Theorem createBooking_withdraws_slots {raw_body} (validate : raw_body → validation)
    (e : env) (body : raw_body) (s : store) (row : booking) (s' : store) :
  createBooking validate e body s = (Created row, s') →
  (∀ req sl, sl ∈ getAvailabilitySlots req s' →
     sl_event_type_id sl = b_event_type_id row →
     sl_day_of_week sl = day_of_week (b_scheduled_at row) →
     ¬ (sl_start_time sl < time_of_day (b_end_time row) ∧
        time_of_day (b_scheduled_at row) < sl_end_time sl)) ∧
  (∀ req, req_params req ≠ b_event_type_id row →
     getAvailabilitySlots req s' = getAvailabilitySlots req s).
Proof.
  intros Hrun. apply createBooking_created in Hrun
    as (d & et & u & rest & _ & _ & _ & _ & -> & _ & _ & _ & _ & Hsl).
  simpl. split.
  - intros req sl Hin Het Hday Hov. unfold getAvailabilitySlots in Hin.
    rewrite merge_sort_Permutation in Hin.
    apply list_elem_of_filter in Hin as [[_ Hact] Hin].
    rewrite Hsl in Hin. unfold consumeSlot in Hin.
    apply sql_update_elem in Hin as (r & Hr & [[Hint ->]|[Hint ->]]).
    + discriminate Hact.
    + apply Hint. by split_and!.
  - intros req Hne. unfold getAvailabilitySlots. rewrite Hsl. unfold consumeSlot.
    rewrite (filter_sql_update_disjoint (offered (req_params req))); [done|].
    intros x (Het & _) . split; intros [Ho _]; simpl in Ho; congruence.
Qed.

(** After the 10:00 booking of the scenario only the 11:00 slot is on
    offer. *)
Lemma createBooking_withdraws_slots_witness :
  sl_id <$> getAvailabilitySlots (Scenario.as_intruder "e1"%string ()) Scenario.booked
  = ["s3"%string] ∧
  ∀ sl, sl ∈ getAvailabilitySlots (Scenario.as_intruder "e1"%string ()) Scenario.booked →
        sl_day_of_week sl = Monday →
        ¬ (sl_start_time sl < 37800 ∧ 36000 < sl_end_time sl).
Proof.
  split; [vm_compute; reflexivity|]. intros sl Hin Hday.
  refine (proj1 (createBooking_withdraws_slots Scenario.validate
    (Scenario.env_with "b1"%string 1000 (Returned None))
    (Scenario.guest_request Scenario.monday_10_00) Scenario.empty
    (new_booking (Scenario.env_with "b1"%string 1000 (Returned None))
       (Scenario.guest_request Scenario.monday_10_00) Scenario.consultation
       (Scenario.after 30))
    Scenario.booked eq_refl) (Scenario.as_intruder "e1"%string ()) sl Hin _ Hday).
  unfold getAvailabilitySlots in Hin. rewrite merge_sort_Permutation in Hin.
  apply list_elem_of_filter in Hin as [[Het _] _]. exact Het.
Defined.

(** X5.  Replaying a request that was answered 201, for an event type of
    positive duration, is answered 409 and writes nothing: the booking just
    stored occupies the interval. *)
Theorem createBooking_replay_conflicts {raw_body} (validate : raw_body → validation)
    (e e' : env) (body : raw_body) (s : store) (row : booking) (s1 : store) :
  createBooking validate e body s = (Created row, s1) →
  0 < b_duration_minutes row →
  createBooking validate e' body s1 = (Conflict, s1).
Proof.
  intros Hrun Hpos. apply createBooking_created in Hrun
    as (d & et & u & rest & Hv & Hsel & _ & _ & -> & Hb & Hu & Hev & _).
  simpl in Hpos. unfold createBooking.
  rewrite (createBooking_check_conflict validate body d s1 et u rest); try done.
  - by rewrite (select_event_type_ext s s1).
  - eexists. split; [rewrite Hb; apply elem_of_app; right; by left|].
    unfold conflicts_with, overlaps, add_minutes, ms_per_minute. simpl.
    split_and!; [done|done|lia|lia].
Qed.

(** The 10:00 request of the scenario, sent again under another id. *)
Lemma createBooking_replay_conflicts_witness :
  createBooking Scenario.validate
    (Scenario.env_with "b9"%string 1700 (Returned None))
    (Scenario.guest_request Scenario.monday_10_00) Scenario.booked
  = (Conflict, Scenario.booked).
Proof.
  exact (createBooking_replay_conflicts Scenario.validate
    (Scenario.env_with "b1"%string 1000 (Returned None))
    (Scenario.env_with "b9"%string 1700 (Returned None))
    (Scenario.guest_request Scenario.monday_10_00) Scenario.empty
    (new_booking (Scenario.env_with "b1"%string 1000 (Returned None))
       (Scenario.guest_request Scenario.monday_10_00) Scenario.consultation
       (Scenario.after 30))
    Scenario.booked eq_refl eq_refl).
Defined.

(** ** Invariants of the three operations *)

Lemma perform_bookings_inv {raw_body} (validate : raw_body → validation)
    (op : operation raw_body) (s : store) :
  bookings_inv (bookings s) → bookings_inv (bookings (perform validate op s)).
Proof.
  destruct op; simpl.
  - apply createBooking_inv.
  - apply cancelBooking_inv.
  - apply rescheduleBooking_inv.
Qed.

Lemma perform_well_timed {raw_body} (validate : raw_body → validation)
    (op : operation raw_body) (s : store) :
  offset_free op →
  bookings_inv (bookings s) →
  (∀ b, b ∈ bookings s → well_timed b) →
  ∀ b, b ∈ bookings (perform validate op s) → well_timed b.
Proof.
  intros Hfree [Hnd _] Hwt b. destruct op as [e body|now req|now req]; simpl.
  - destruct (createBooking_cases validate e body s)
      as [(r & -> & _)|(row & s' & -> & Hfrom)]; simpl; [apply Hwt|].
    destruct Hfrom as (d & et & u & rest & _ & _ & _ & _ & -> & Hb & _).
    rewrite Hb. intros [Hin|Hin]%elem_of_app; [by apply Hwt|].
    apply list_elem_of_singleton in Hin as ->.
    unfold well_timed, add_minutes, ms_per_minute. simpl. done.
  - destruct (cancelBooking_cases now req s)
      as [[-> _]|(b0 & r & _ & Hfrom)]; simpl; [apply Hwt|].
    destruct Hfrom as (_ & _ & -> & _).
    intros (r0 & Hr0 & [[_ ->]|[_ ->]])%sql_update_elem; exact (Hwt r0 Hr0).
  - destruct (rescheduleBooking_cases now req s)
      as [(r & -> & _)|(t & old & r & _ & Hfrom)]; simpl; [apply Hwt|].
    destruct Hfrom as (Hbody & Hold & (Hid & _ & _) & _ & -> & _).
    intros (r0 & Hr0 & [[Hid0 ->]|[_ ->]])%sql_update_elem; [|by apply Hwt].
    assert (r0 = old) as -> by (apply (NoDup_key_inj b_id (bookings s)); congruence).
    pose proof (Hfree t Hbody) as Hzero.
    unfold well_timed, add_minutes, js_date, pg_timestamp, ms_per_minute. simpl.
    lia.
Qed.

Lemma perform_all_snoc {raw_body} (validate : raw_body → validation)
    (ops : list (operation raw_body)) (op : operation raw_body) (s : store) :
  perform_all validate (ops ++ [op]) s
  = perform validate op (perform_all validate ops s).
Proof. unfold perform_all. by rewrite foldl_snoc. Qed.

Lemma perform_all_bookings_inv {raw_body} (validate : raw_body → validation)
    (ops : list (operation raw_body)) (s : store) :
  bookings_inv (bookings s) →
  bookings_inv (bookings (perform_all validate ops s)).
Proof.
  intros Hinv. induction ops as [|op ops IH] using rev_ind; [done|].
  rewrite perform_all_snoc. by apply perform_bookings_inv.
Qed.

(** X6.  Starting from a store without bookings, after any run of
    createBooking, cancelBooking and rescheduleBooking in which every
    reschedule body carries the UTC offset 0, the end of every booking,
    confirmed or cancelled, is its start plus its own duration in
    minutes. *)
Theorem booking_end_is_start_plus_duration {raw_body}
    (validate : raw_body → validation) (ops : list (operation raw_body))
    (s : store) (b : booking) :
  bookings s = [] →
  Forall offset_free ops →
  b ∈ bookings (perform_all validate ops s) →
  b_end_time b = b_scheduled_at b + b_duration_minutes b * 60000.
Proof.
  intros Hnil Hfree. revert b.
  induction ops as [|op ops IH] using rev_ind.
  - intros b Hb. simpl in Hb. rewrite Hnil in Hb. by apply elem_of_nil in Hb.
  - apply Forall_app in Hfree as [Hops Hop].
    apply (proj1 (Forall_singleton _ _)) in Hop.
    rewrite perform_all_snoc.
    apply (perform_well_timed validate op).
    + exact Hop.
    + apply perform_all_bookings_inv. rewrite Hnil. apply bookings_inv_nil.
    + intros b Hb. by apply IH.
Qed.

(** Two bookings at 10:00 and 10:30, then the first is moved by its owner
    with the body ['1970-01-05T09:45:00Z']: it ends at 10:15. *)
Lemma booking_end_is_start_plus_duration_witness :
  ∃ b rest,
    bookings
      (perform_all Scenario.validate
         [CreateBooking (Scenario.env_with "b1"%string 1000 (Returned None))
            (Scenario.guest_request Scenario.monday_10_00);
          CreateBooking (Scenario.env_with "b2"%string 1500 (Returned None))
            (Scenario.guest_request (Scenario.after 30));
          RescheduleBooking 3000
            (Scenario.as_owner "b1"%string (Some (utc (Scenario.after (-15)))))]
         Scenario.empty) = b :: rest ∧
    b_scheduled_at b = Scenario.after (-15) ∧
    b_end_time b = b_scheduled_at b + b_duration_minutes b * 60000.
Proof.
  eexists _, _. split; [vm_compute; reflexivity|]. split; [reflexivity|].
  apply (booking_end_is_start_plus_duration Scenario.validate
    [CreateBooking (Scenario.env_with "b1"%string 1000 (Returned None))
       (Scenario.guest_request Scenario.monday_10_00);
     CreateBooking (Scenario.env_with "b2"%string 1500 (Returned None))
       (Scenario.guest_request (Scenario.after 30));
     RescheduleBooking 3000
       (Scenario.as_owner "b1"%string (Some (utc (Scenario.after (-15)))))]
    Scenario.empty).
  - reflexivity.
  - repeat apply Forall_cons_2; [exact I|exact I| |apply Forall_nil_2].
    intros t Ht. simpl in Ht. by injection Ht as <-.
  - vm_compute. apply list_elem_of_here.
Defined.

(** X7.  No operation removes or reorders a stored booking, and none
    changes its id, event type, owner, guest fields, duration, meeting
    link, external meeting id, creation stamp or soft-delete marker; a
    booking that is cancelled stays cancelled. *)
Theorem bookings_persist {raw_body} (validate : raw_body → validation)
    (op : operation raw_body) (s : store) (i : nat) (b : booking) :
  bookings s !! i = Some b →
  ∃ b', bookings (perform validate op s) !! i = Some b' ∧
    b_id b' = b_id b ∧
    b_event_type_id b' = b_event_type_id b ∧
    b_user_id b' = b_user_id b ∧
    b_guest_name b' = b_guest_name b ∧
    b_guest_email b' = b_guest_email b ∧
    b_guest_phone b' = b_guest_phone b ∧
    b_guest_timezone b' = b_guest_timezone b ∧
    b_duration_minutes b' = b_duration_minutes b ∧
    b_google_meet_link b' = b_google_meet_link b ∧
    b_google_calendar_event_id b' = b_google_calendar_event_id b ∧
    b_created_at b' = b_created_at b ∧
    b_deleted_at b' = b_deleted_at b ∧
    (b_status b = Cancelled → b_status b' = Cancelled).
Proof.
  intros Hi. destruct op as [e body|now req|now req]; simpl.
  - destruct (createBooking_cases validate e body s)
      as [(r & -> & _)|(row & s' & -> & Hfrom)]; simpl; [by exists b|].
    destruct Hfrom as (d & et & u & rest & _ & _ & _ & _ & _ & Hb & _).
    exists b. rewrite Hb. split; [by apply lookup_app_l_Some|done].
  - destruct (cancelBooking_cases now req s)
      as [[-> _]|(b0 & r & _ & Hfrom)]; simpl; [by exists b|].
    destruct Hfrom as (_ & _ & -> & _).
    rewrite sql_update_lookup, Hi. simpl. eexists. split; [done|].
    case_decide; by split_and!.
  - destruct (rescheduleBooking_cases now req s)
      as [(r & -> & _)|(t & old & r & _ & Hfrom)]; simpl; [by exists b|].
    destruct Hfrom as (_ & _ & _ & _ & -> & _).
    rewrite sql_update_lookup, Hi. simpl. eexists. split; [done|].
    case_decide; by split_and!.
Qed.

(** The cancelled booking of [Scenario.cancelled_once] is still cancelled
    after its owner tried to move it. *)
Lemma bookings_persist_witness :
  b_status <$>
    bookings (rescheduleBooking 3000
                (Scenario.as_owner "b1"%string (Some (utc (Scenario.after 120))))
                Scenario.cancelled_once).2 !! 0%nat
  = Some Cancelled.
Proof.
  destruct (bookings_persist Scenario.validate
    (RescheduleBooking 3000
       (Scenario.as_owner "b1"%string (Some (utc (Scenario.after 120)))))
    Scenario.cancelled_once 0
    (set_cancelled 2000 (Some "first reason"%string)
       (new_booking (Scenario.env_with "b1"%string 1000 (Returned None))
          (Scenario.guest_request Scenario.monday_10_00)
          Scenario.consultation (Scenario.after 30)))
    eq_refl) as (b' & Hb' & H).
  unfold perform in Hb'. rewrite Hb'. simpl. f_equal.
  destruct H as (_ & _ & _ & _ & _ & _ & _ & _ & _ & _ & _ & _ & Hst).
  by apply Hst.
Defined.

(** ** The analytics table over runs *)

Lemma perform_analytics {raw_body} (validate : raw_body → validation)
    (op : operation raw_body) (s : store) :
  analytics (perform validate op s) = analytics s.
Proof.
  destruct op as [e body|now req|now req]; simpl.
  - destruct (createBooking_cases validate e body s)
      as [(r & -> & _)|(row & s' & -> & Hfrom)]; simpl; [done|].
    by destruct Hfrom as (d & et & u & rest & _ & _ & _ & _ & _ & _ & _ & _ & Ha & _).
  - destruct (cancelBooking_cases now req s)
      as [[-> _]|(b0 & r & _ & Hfrom)]; simpl; [done|].
    by destruct Hfrom as (_ & _ & _ & _ & _ & _ & Ha).
  - destruct (rescheduleBooking_cases now req s)
      as [(r & -> & _)|(t & old & r & _ & Hfrom)]; simpl; [done|].
    by destruct Hfrom as (_ & _ & _ & _ & _ & _ & _ & Ha & _).
Qed.

(** X8.  The booking engine never writes the analytics table: after any
    run of createBooking, cancelBooking and rescheduleBooking, whatever
    they answered, the table is what it was before the run; in particular
    a table without rows stays without rows, and no counter ever moves. *)
Theorem analytics_never_written {raw_body} (validate : raw_body → validation)
    (ops : list (operation raw_body)) (s : store) :
  analytics (perform_all validate ops s) = analytics s ∧
  ∀ (f : counter_field) (k : analytics_key),
    counter_value f k (analytics (perform_all validate ops s))
    = counter_value f k (analytics s).
Proof.
  assert (analytics (perform_all validate ops s) = analytics s) as Ha.
  { induction ops as [|op ops IH] using rev_ind; [done|].
    by rewrite perform_all_snoc, perform_analytics. }
  split; [done|]. intros f k. by rewrite Ha.
Qed.

(** Two bookings and a cancellation on the empty calendar, all three
    answered with success: the analytics table has no row. *)
Lemma analytics_never_written_witness :
  analytics
    (perform_all Scenario.validate
       [CreateBooking (Scenario.env_with "b1"%string 1000 (Returned None))
          (Scenario.guest_request Scenario.monday_10_00);
        CreateBooking (Scenario.env_with "b2"%string 1500 (Returned None))
          (Scenario.guest_request (Scenario.after 30));
        CancelBooking 2000 (Scenario.as_owner "b1"%string None)]
       Scenario.empty)
  = ∅.
Proof.
  etransitivity; [apply (analytics_never_written Scenario.validate)|].
  reflexivity.
Defined.

(** ** Ownership *)

(** X10.  A booking id under which the caller owns no booking (the id is
    unknown, or its booking belongs to someone else) is out of the caller's
    reach: getBooking and cancelBooking answer 404, rescheduleBooking
    answers 404 (400 when the new start is missing), the store is left
    untouched, and no listBookings answer of the caller carries that id. *)
Theorem foreign_booking_untouchable (uid bid : uuid) (s : store) :
  (∀ b, b ∈ bookings s → b_id b = bid → b_user_id b ≠ uid) →
  (∀ req : request uuid unit,
     req_userId req = uid → req_params req = bid → getBooking req s = NotFound) ∧
  (∀ now (req : request uuid (option string)),
     req_userId req = uid → req_params req = bid →
     cancelBooking now req s = (NotFound, s)) ∧
  (∀ now (req : request uuid (option time_string)),
     req_userId req = uid → req_params req = bid →
     rescheduleBooking now req s
     = (if req_body req is Some _ then NotFound else BadRequest, s)) ∧
  (∀ (req : request unit list_query) b,
     req_userId req = uid → b ∈ listBookings req s → b_id b ≠ bid).
Proof.
  intros Hforeign. split_and!.
  - intros req <- <-. unfold getBooking.
    rewrite (proj2 (filter_nil_iff _ _)); [done|].
    intros b Hb (Hid & Hu & _). by apply (Hforeign b).
  - intros now req <- <-. unfold cancelBooking.
    rewrite (proj2 (filter_nil_iff _ _)); [done|].
    intros b Hb (Hid & Hu & _). by apply (Hforeign b).
  - intros now req <- <-. unfold rescheduleBooking.
    destruct (req_body req); [|done].
    rewrite (proj2 (filter_nil_iff _ _)); [done|].
    intros b Hb (Hid & Hu & _). by apply (Hforeign b).
  - intros req b <- Hin Hid.
    apply listBookings_listed in Hin as [Hb (Hu & _)]. by apply (Hforeign b).
Qed.

(** The intruder of the scenario against the owner's booking [b1]. *)
Lemma foreign_booking_untouchable_witness :
  cancelBooking 2000 (Scenario.as_intruder "b1"%string None) Scenario.booked
  = (NotFound, Scenario.booked) ∧
  rescheduleBooking 2000
    (Scenario.as_intruder "b1"%string (Some (utc (Scenario.after 120)))) Scenario.booked
  = (NotFound, Scenario.booked).
Proof.
  unshelve epose proof (foreign_booking_untouchable Scenario.intruder "b1"%string
                          Scenario.booked _) as (_ & Hcancel & Hmove & _).
  - intros b Hb _ Hu. vm_compute in Hb.
    apply list_elem_of_singleton in Hb. subst b. discriminate Hu.
  - split.
    + exact (Hcancel 2000 (Scenario.as_intruder "b1"%string None) eq_refl eq_refl).
    + exact (Hmove 2000
               (Scenario.as_intruder "b1"%string (Some (utc (Scenario.after 120))))
               eq_refl eq_refl).
Defined.

(** ** cancelBooking, what it changes and what it frees *)

(** X11.  A 200 of cancelBooking answers with a row of the caller that
    carries the requested id, status cancelled, the current instant and the
    given reason.  In the store, the rows of the caller with that id are
    cancelled and every other booking is untouched; users and event types
    are untouched; a slot keeps its id, event type, day and times, and no
    active slot becomes inactive. *)
Theorem cancelBooking_frame (now : instant) (req : request uuid (option string))
    (s : store) (r : booking) :
  (cancelBooking now req s).1 = Ok r →
  let s' := (cancelBooking now req s).2 in
  b_id r = req_params req ∧ b_user_id r = req_userId req ∧
  b_status r = Cancelled ∧ b_cancelled_at r = Some now ∧
  b_cancellation_reason r = or_null (req_body req) ∧
  (∀ (i : nat) b, bookings s !! i = Some b →
     (b_id b = req_params req ∧ b_user_id b = req_userId req →
        bookings s' !! i = Some (set_cancelled now (or_null (req_body req)) b)) ∧
     (¬ (b_id b = req_params req ∧ b_user_id b = req_userId req) →
        bookings s' !! i = Some b)) ∧
  users s' = users s ∧ event_types s' = event_types s ∧
  (∀ (i : nat) sl, availability_slots s !! i = Some sl →
     ∃ sl', availability_slots s' !! i = Some sl' ∧
       sl_id sl' = sl_id sl ∧ sl_event_type_id sl' = sl_event_type_id sl ∧
       sl_day_of_week sl' = sl_day_of_week sl ∧
       sl_start_time sl' = sl_start_time sl ∧ sl_end_time sl' = sl_end_time sl ∧
       (sl_is_active sl = true → sl_is_active sl' = true)).
Proof.
  intros Hok s'. subst s'.
  destruct (cancelBooking_cases now req s)
    as [[Hnf _]|(b0 & r' & _ & Hfrom)]; [rewrite Hnf in Hok; discriminate|].
  destruct Hfrom as (Hb0 & Hvis & Hb & Hu & Hev & Hsl & _).
  assert (filter (visible_to (req_userId req) (req_params req)) (bookings s) ≠ [])
    as Hne.
  { intros Hnil. by apply (proj1 (filter_nil_iff _ _) Hnil b0). }
  destruct (filter (visible_to _ _) (bookings s)) as [|b rest] eqn:Hfound; [done|].
  destruct (cancelBooking_answer now req s b rest Hfound)
    as (r0 & _ & [Hid Hown] & Hans).
  rewrite Hans in Hok. injection Hok as <-.
  split_and!; try done.
  - intros i b1 Hi. rewrite Hb, sql_update_lookup, Hi. simpl. split; intros Hc.
    + by rewrite decide_True.
    + by rewrite decide_False.
  - intros i sl Hi. rewrite Hsl. unfold releaseSlot.
    rewrite sql_update_lookup, Hi. simpl. eexists. split; [done|].
    case_decide; by split_and!.
Qed.

(** The first cancellation of the scenario. *)
Lemma cancelBooking_frame_witness :
  b_status <$> bookings Scenario.cancelled_once !! 0%nat = Some Cancelled ∧
  event_types Scenario.cancelled_once = event_types Scenario.booked.
Proof.
  unshelve epose proof (cancelBooking_frame 2000
    (Scenario.as_owner "b1"%string (Some "first reason"%string)) Scenario.booked
    _ _) as H.
  - exact (set_cancelled 2000 (Some "first reason"%string)
             (new_booking (Scenario.env_with "b1"%string 1000 (Returned None))
                (Scenario.guest_request Scenario.monday_10_00)
                Scenario.consultation (Scenario.after 30))).
  - vm_compute. reflexivity.
  - destruct H as (_ & _ & _ & _ & _ & Hrows & _ & Hev & _).
    split; [|exact Hev].
    destruct (Hrows 0%nat _ eq_refl) as [Hmine _].
    unfold Scenario.cancelled_once. rewrite (Hmine (conj eq_refl eq_refl)).
    reflexivity.
Defined.

(** X12.  Cancelling frees the interval.  In a store with unique booking
    ids, if the only bookings in conflict with a request are the caller's
    own booking that is being cancelled, then after cancelBooking the same
    request, under an unused id, is answered 201. *)
Theorem cancel_frees_interval {raw_body} (validate : raw_body → validation)
    (now : instant) (req : request uuid (option string)) (e : env)
    (body : raw_body) (d : booking_data) (s : store) (r : booking)
    (et : event_type) (u : user) (rest : list (event_type * user)) :
  NoDup (b_id <$> bookings s) →
  (cancelBooking now req s).1 = Ok r →
  validate body = Valid d →
  select_event_type s (event_type_id d) = (et, u) :: rest →
  (∀ b, b ∈ bookings s →
     b_event_type_id b = event_type_id d → b_status b = Confirmed →
     b_scheduled_at b < scheduled_at d + et_duration_minutes et * 60000 →
     scheduled_at d < b_end_time b →
     b_id b = req_params req) →
  env_uuid e ∉ b_id <$> bookings s →
  (createBooking validate e body (cancelBooking now req s).2).1
  = Created (new_booking e d et
               (add_minutes (scheduled_at d) (et_duration_minutes et))).
Proof.
  intros Hnd Hok Hv Hsel Honly Hfresh.
  destruct (cancelBooking_cases now req s)
    as [[Hnf _]|(b0 & r' & _ & Hfrom)]; [rewrite Hnf in Hok; discriminate|].
  destruct Hfrom as (Hb0 & (Hid0 & Hu0 & _) & Hb & Hu & Hev & _).
  unfold createBooking.
  rewrite (createBooking_check_cleared validate body d _ et u rest); try done.
  - unfold createBooking_commit. rewrite decide_False; [done|].
    simpl. by rewrite Hb, (sql_update_key _ b_id).
  - by rewrite (select_event_type_ext s).
  - intros b Hin (Het & Hst & Hov1 & Hov2). rewrite Hb in Hin.
    apply sql_update_elem in Hin as (r0 & Hr0 & [[_ ->]|[Hown ->]]);
      [discriminate Hst|].
    assert (b_id r0 = req_params req) as Hid.
    { unfold overlaps, add_minutes, ms_per_minute in Hov1, Hov2.
      apply Honly; try done; lia. }
    assert (r0 = b0) as -> by (apply (NoDup_key_inj b_id (bookings s)); congruence).
    apply Hown. by split.
Qed.

(** The scenario: the 10:00 booking is cancelled, then 10:00 is booked
    again. *)
Lemma cancel_frees_interval_witness :
  is_created
    (createBooking Scenario.validate
       (Scenario.env_with "b3"%string 2500 (Returned None))
       (Scenario.guest_request Scenario.monday_10_00) Scenario.cancelled_once).1
  = true.
Proof.
  assert ((createBooking Scenario.validate
       (Scenario.env_with "b3"%string 2500 (Returned None))
       (Scenario.guest_request Scenario.monday_10_00) Scenario.cancelled_once).1
    = Created (new_booking (Scenario.env_with "b3"%string 2500 (Returned None))
                 (Scenario.guest_request Scenario.monday_10_00)
                 Scenario.consultation (Scenario.after 30))) as H.
  { apply (cancel_frees_interval Scenario.validate 2000
      (Scenario.as_owner "b1"%string (Some "first reason"%string))
      (Scenario.env_with "b3"%string 2500 (Returned None))
      (Scenario.guest_request Scenario.monday_10_00)
      (Scenario.guest_request Scenario.monday_10_00) Scenario.booked
      (set_cancelled 2000 (Some "first reason"%string)
         (new_booking (Scenario.env_with "b1"%string 1000 (Returned None))
            (Scenario.guest_request Scenario.monday_10_00)
            Scenario.consultation (Scenario.after 30)))
      Scenario.consultation Scenario.owner []).
    - vm_compute. apply NoDup_singleton.
    - vm_compute. reflexivity.
    - reflexivity.
    - reflexivity.
    - intros b Hb _ _ _ _. vm_compute in Hb.
      apply list_elem_of_singleton in Hb. by subst b.
    - vm_compute. intros Hin. apply list_elem_of_singleton in Hin.
      discriminate Hin. }
  rewrite H. reflexivity.
Defined.

(** X13.  Cancelled is terminal.  In a store with unique booking ids, once
    cancelBooking has answered 200 for a booking, rescheduleBooking on the
    same id, by any caller and to any time, is answered 404 (400 when the
    new start is missing) and writes nothing. *)
Theorem cancelled_cannot_be_rescheduled (now now' : instant)
    (req : request uuid (option string)) (req' : request uuid (option time_string))
    (s : store) (r : booking) :
  NoDup (b_id <$> bookings s) →
  (cancelBooking now req s).1 = Ok r →
  req_params req' = req_params req →
  rescheduleBooking now' req' (cancelBooking now req s).2
  = (if req_body req' is Some _ then NotFound else BadRequest,
     (cancelBooking now req s).2).
Proof.
  intros Hnd Hok Hsame.
  destruct (cancelBooking_cases now req s)
    as [[Hnf _]|(b0 & r' & _ & Hfrom)]; [rewrite Hnf in Hok; discriminate|].
  destruct Hfrom as (Hb0 & (Hid0 & Hu0 & _) & Hb & _).
  unfold rescheduleBooking. destruct (req_body req'); [|done].
  rewrite (proj2 (filter_nil_iff _ _)); [done|].
  intros b Hin (Hid & _ & Hst). rewrite Hb in Hin.
  apply sql_update_elem in Hin as (r0 & Hr0 & [[_ ->]|[Hown ->]]);
    [discriminate Hst|].
  assert (r0 = b0) as -> by (apply (NoDup_key_inj b_id (bookings s)); congruence).
  apply Hown. by split.
Qed.

(** The cancelled booking of the scenario cannot be moved by its owner. *)
Lemma cancelled_cannot_be_rescheduled_witness :
  rescheduleBooking 3000
    (Scenario.as_owner "b1"%string (Some (utc (Scenario.after 120))))
    Scenario.cancelled_once
  = (NotFound, Scenario.cancelled_once).
Proof.
  unshelve refine (cancelled_cannot_be_rescheduled 2000 3000
    (Scenario.as_owner "b1"%string (Some "first reason"%string))
    (Scenario.as_owner "b1"%string (Some (utc (Scenario.after 120))))
    Scenario.booked _ _ _ eq_refl).
  - exact (set_cancelled 2000 (Some "first reason"%string)
             (new_booking (Scenario.env_with "b1"%string 1000 (Returned None))
                (Scenario.guest_request Scenario.monday_10_00)
                Scenario.consultation (Scenario.after 30))).
  - vm_compute. apply NoDup_singleton.
  - vm_compute. reflexivity.
Defined.

(** ** listBookings *)

Lemma StronglySorted_lookup {A} (R : relation A) (l : list A) (i j : nat) (x y : A) :
  StronglySorted R l → (i < j)%nat → l !! i = Some x → l !! j = Some y → R x y.
Proof.
  intros Hs. revert i j. induction Hs as [|a l Hs IH Hall]; intros i j Hij Hi Hj.
  - by rewrite lookup_nil in Hi.
  - destruct j as [|j]; [lia|]. simpl in Hj. destruct i as [|i]; simpl in Hi.
    + injection Hi as <-. rewrite Forall_forall in Hall. apply Hall.
      by apply list_elem_of_lookup_2 in Hj.
    + apply (IH i j); [lia|done|done].
Qed.

Lemma StronglySorted_take_drop {A} (R : relation A) (l : list A) (n m : nat) :
  StronglySorted R l → StronglySorted R (take n (drop m l)).
Proof.
  intros Hs. rewrite <- (take_drop m l) in Hs.
  apply StronglySorted_app_1_r in Hs.
  rewrite <- (take_drop n (drop m l)) in Hs.
  by apply StronglySorted_app_1_l in Hs.
Qed.

#[local] Instance later_first_total : Total later_first.
Proof. intros a b. unfold later_first. lia. Qed.

#[local] Instance later_first_trans : Transitive later_first.
Proof. intros a b c. unfold later_first. lia. Qed.

Lemma listBookings_all (req : request unit list_query) (s : store) :
  q_offset (req_body req) = 0%nat →
  (length (filter (listed (req_userId req) (req_body req)) (bookings s))
   ≤ q_limit (req_body req))%nat →
  listBookings req s ≡ₚ filter (listed (req_userId req) (req_body req)) (bookings s).
Proof.
  intros Hoff Hlim. unfold listBookings. rewrite Hoff, drop_0.
  rewrite take_ge; [apply merge_sort_Permutation|].
  by rewrite merge_sort_Permutation.
Qed.

(** X14.  A listBookings answer is ordered by scheduled start, latest
    first; it has at most [limit] rows; each row is a stored booking of the
    caller that is not soft-deleted and passes the filters that are set;
    and with offset 0 and a limit that the matching rows do not exceed, it
    is the matching rows, all of them, each once. *)
Theorem listBookings_answer (req : request unit list_query) (s : store) :
  let q := req_body req in
  (∀ (i j : nat) b1 b2, (i < j)%nat →
     listBookings req s !! i = Some b1 → listBookings req s !! j = Some b2 →
     b_scheduled_at b2 ≤ b_scheduled_at b1) ∧
  (length (listBookings req s) ≤ q_limit q)%nat ∧
  (∀ b, b ∈ listBookings req s →
     b ∈ bookings s ∧ b_user_id b = req_userId req ∧ b_deleted_at b = None ∧
     (∀ st, q_status q = Some st → b_status b = st) ∧
     (∀ et, q_eventTypeId q = Some et → b_event_type_id b = et) ∧
     (∀ t, q_startDate q = Some t → t ≤ b_scheduled_at b) ∧
     (∀ t, q_endDate q = Some t → b_scheduled_at b ≤ t)) ∧
  (q_offset q = 0%nat →
   (length (filter (listed (req_userId req) q) (bookings s)) ≤ q_limit q)%nat →
   listBookings req s ≡ₚ filter (listed (req_userId req) q) (bookings s)).
Proof.
  intros q. split_and!.
  - intros i j b1 b2 Hij H1 H2.
    apply (StronglySorted_lookup later_first (listBookings req s) i j b1 b2);
      try done.
    apply StronglySorted_take_drop. apply StronglySorted_merge_sort; apply _.
  - unfold listBookings. rewrite length_take. fold q. lia.
  - intros b Hin. apply listBookings_listed in Hin
      as [Hb (Hu & Hdel & Hst & Het & Hsd & Hed)].
    fold q in Hst, Het, Hsd, Hed. split_and!; try done.
    + intros st Hq. by rewrite Hq in Hst.
    + intros et Hq. by rewrite Hq in Het.
    + intros t Hq. by rewrite Hq in Hsd.
    + intros t Hq. by rewrite Hq in Hed.
  - intros Hoff Hlim. by apply listBookings_all.
Qed.

(** ** Weekly projection of an instant *)

Lemma getDay_range (t : instant) : 0 ≤ getDay t < 7.
Proof. unfold getDay. apply Z.mod_pos_bound. lia. Qed.

Lemma getDay_week (t : instant) (k : Z) :
  getDay (t + k * 7 * ms_per_day) = getDay t.
Proof.
  unfold getDay, ms_per_day.
  replace (t + k * 7 * 86400000) with (t + (k * 7) * 86400000) by lia.
  rewrite Z.div_add by lia.
  replace (t `div` 86400000 + k * 7 + 4) with (t `div` 86400000 + 4 + k * 7) by lia.
  by rewrite Z.mod_add by lia.
Qed.

Lemma time_of_day_day (t : instant) (k : Z) :
  time_of_day (t + k * ms_per_day) = time_of_day t.
Proof.
  unfold time_of_day, ms_per_day, ms_per_minute.
  replace (t + k * 86400000) with (t + (k * 1440) * 60000) by lia.
  rewrite Z.div_add by lia. by rewrite Z.mod_add by lia.
Qed.

(** X15.  The slots a booking consumes depend on its instant only through
    the weekday and the time of day: the time of day is a whole number of
    minutes within one day, and a booking that starts a whole number of
    weeks earlier or later, with the same duration, consumes exactly the
    same slot rows in the same way. *)
Theorem weekly_projection (t : instant) (k : Z) :
  0 ≤ time_of_day t < 86400 ∧
  time_of_day t `mod` 60 = 0 ∧
  day_of_week (t + k * 7 * ms_per_day) = day_of_week t ∧
  time_of_day (t + k * 7 * ms_per_day) = time_of_day t ∧
  ∀ now et m slots,
    consumeSlot now et (day_of_week (t + k * 7 * ms_per_day))
      (time_of_day (t + k * 7 * ms_per_day))
      (time_of_day (add_minutes (t + k * 7 * ms_per_day) m)) slots
    = consumeSlot now et (day_of_week t) (time_of_day t)
        (time_of_day (add_minutes t m)) slots.
Proof.
  assert (day_of_week (t + k * 7 * ms_per_day) = day_of_week t) as Hday
    by (unfold day_of_week; by rewrite getDay_week).
  assert (∀ t', time_of_day (t' + k * 7 * ms_per_day) = time_of_day t') as Htime.
  { intros t'. replace (k * 7 * ms_per_day) with ((k * 7) * ms_per_day) by lia.
    apply time_of_day_day. }
  split; [|split; [|split; [done|split; [done|]]]].
  - unfold time_of_day.
    assert (0 ≤ (t `div` ms_per_minute) `mod` 1440 < 1440)
      by (apply Z.mod_pos_bound; lia).
    lia.
  - unfold time_of_day. apply Z_mod_mult.
  - intros now et m slots. rewrite Hday, Htime.
    replace (add_minutes (t + k * 7 * ms_per_day) m)
      with (add_minutes t m + k * 7 * ms_per_day)
      by (unfold add_minutes; lia).
    by rewrite Htime.
Qed.

(** X16.  A booking that runs past midnight: when the time of day of its
    end is not after the time of day of its start, createBooking leaves
    every slot alone that starts at or after the booking's start time,
    also the slot that starts exactly when the booking starts. *)
Theorem createBooking_past_midnight {raw_body} (validate : raw_body → validation)
    (e : env) (body : raw_body) (s : store) (row : booking) (s' : store)
    (i : nat) (sl : availability_slot) :
  createBooking validate e body s = (Created row, s') →
  time_of_day (b_end_time row) ≤ time_of_day (b_scheduled_at row) →
  availability_slots s !! i = Some sl →
  time_of_day (b_scheduled_at row) ≤ sl_start_time sl →
  availability_slots s' !! i = Some sl.
Proof.
  intros Hrun Hwrap Hi Hlate. apply createBooking_created in Hrun
    as (d & et & u & rest & _ & _ & _ & _ & -> & _ & _ & _ & _ & Hsl).
  simpl in Hwrap, Hlate. rewrite Hsl.
  rewrite (consumeSlot_lookup _ _ _ _ _ _ _ sl Hi).
  rewrite decide_False; [done|].
  intros (_ & _ & Hlt & _). lia.
Qed.

(** The 23:45 booking of [Night] ends at 00:15: the slot 23:45-23:59 is
    as active as before. *)
Lemma createBooking_past_midnight_witness :
  availability_slots Night.booked !! 0%nat = Some Night.late_slot ∧
  sl_is_active Night.late_slot = true.
Proof.
  split; [|reflexivity].
  apply (createBooking_past_midnight Scenario.validate
    (Scenario.env_with "b1"%string 1000 (Returned None))
    (Scenario.guest_request Night.monday_23_45) Night.calendar
    (new_booking (Scenario.env_with "b1"%string 1000 (Returned None))
       (Scenario.guest_request Night.monday_23_45) Scenario.consultation
       (Scenario.after 855))).
  - reflexivity.
  - vm_compute. discriminate.
  - reflexivity.
  - vm_compute. discriminate.
Defined.

(** ** Availability slots *)

#[local] Instance slot_before_total : Total slot_before.
Proof. intros a b. unfold slot_before. lia. Qed.

#[local] Instance slot_before_trans : Transitive slot_before.
Proof. intros a b c. unfold slot_before. lia. Qed.

(** X17.  A getAvailabilitySlots answer is the active slots of the event
    type, all of them, each once, and no other row; it is ordered by
    weekday, Monday first and Sunday last, then by start time; and it does
    not depend on who asks. *)
Theorem getAvailabilitySlots_answer (req : request uuid unit) (s : store) :
  getAvailabilitySlots req s
    ≡ₚ filter (λ sl, sl_event_type_id sl = req_params req ∧ sl_is_active sl = true)
              (availability_slots s) ∧
  (∀ (i j : nat) a b, (i < j)%nat →
     getAvailabilitySlots req s !! i = Some a →
     getAvailabilitySlots req s !! j = Some b →
     day_rank (sl_day_of_week a) < day_rank (sl_day_of_week b) ∨
     (sl_day_of_week a = sl_day_of_week b ∧ sl_start_time a ≤ sl_start_time b)) ∧
  (∀ req' : request uuid unit, req_params req' = req_params req →
     getAvailabilitySlots req' s = getAvailabilitySlots req s).
Proof.
  split_and!.
  - unfold getAvailabilitySlots. apply merge_sort_Permutation.
  - intros i j a b Hij Ha Hb.
    assert (slot_before a b) as [Hlt|[Heq Hle]].
    { apply (StronglySorted_lookup slot_before (getAvailabilitySlots req s) i j);
        try done.
      apply StronglySorted_merge_sort; apply _. }
    + by left.
    + right. split; [|done].
      destruct (sl_day_of_week a), (sl_day_of_week b); done.
  - intros req' Hsame. unfold getAvailabilitySlots. by rewrite Hsame.
Qed.

(** X18.  addAvailabilitySlot checks the owner and nothing else about the
    event type or the times: a caller who owns no event type with the given
    id is answered 404 and nothing is written; the owner, with a valid body
    and an unused slot id, is answered 201 and the slot is stored active
    with the day and times of the body, also when the event type is
    soft-deleted or inactive and also when the end is not after the
    start. *)
Theorem addAvailabilitySlot_checks_owner {raw_body}
    (validate_slot : raw_body → slot_validation) (new_id : uuid) (now : instant)
    (req : request uuid raw_body) (s : store) (d : slot_data) :
  validate_slot (req_body req) = SlotValid d →
  ((∀ et, et ∈ event_types s →
      ¬ (et_id et = req_params req ∧ et_user_id et = req_userId req)) →
   addAvailabilitySlot validate_slot new_id now req s = (NotFound, s)) ∧
  (∀ et, et ∈ event_types s →
     et_id et = req_params req → et_user_id et = req_userId req →
     new_id ∉ sl_id <$> availability_slots s →
     ∃ row,
       addAvailabilitySlot validate_slot new_id now req s
       = (Created row, with_slots (availability_slots s ++ [row]) s) ∧
       sl_id row = new_id ∧ sl_event_type_id row = req_params req ∧
       sl_day_of_week row = sd_day_of_week d ∧
       sl_start_time row = sd_start_time d ∧ sl_end_time row = sd_end_time d ∧
       sl_is_active row = true).
Proof.
  intros Hv. split.
  - intros Hnone. unfold addAvailabilitySlot. rewrite Hv.
    by rewrite (proj2 (filter_nil_iff _ _)).
  - intros et Het Hid Hu Hfresh. unfold addAvailabilitySlot. rewrite Hv.
    destruct (filter (owns_event _ _) (event_types s)) as [|x l] eqn:Hf.
    { exfalso. by apply (proj1 (filter_nil_iff _ _) Hf et). }
    rewrite decide_False by done. eexists. split; [reflexivity|done].
Qed.

(** The intruder cannot add a slot to the consultation; its owner can,
    even one that ends before it starts. *)
Lemma addAvailabilitySlot_checks_owner_witness :
  addAvailabilitySlot (λ d, SlotValid d) "s7"%string 100
    (Scenario.as_intruder "e1"%string
       {| sd_day_of_week := Friday; sd_start_time := 50400; sd_end_time := 32400 |})
    Scenario.empty
  = (NotFound, Scenario.empty) ∧
  is_created
    (addAvailabilitySlot (λ d, SlotValid d) "s7"%string 100
       (Scenario.as_owner "e1"%string
          {| sd_day_of_week := Friday; sd_start_time := 50400; sd_end_time := 32400 |})
       Scenario.empty).1 = true.
Proof.
  split.
  - refine (proj1 (addAvailabilitySlot_checks_owner (λ d, SlotValid d)
      "s7"%string 100 (Scenario.as_intruder "e1"%string _) Scenario.empty _ eq_refl) _).
    intros et Het [_ Hu]. vm_compute in Het.
    apply list_elem_of_singleton in Het. subst et. discriminate Hu.
  - destruct (proj2 (addAvailabilitySlot_checks_owner (λ d, SlotValid d)
      "s7"%string 100
      (Scenario.as_owner "e1"%string
         {| sd_day_of_week := Friday; sd_start_time := 50400;
            sd_end_time := 32400 |})
      Scenario.empty _ eq_refl) Scenario.consultation) as (row & Hrun & _).
    + apply list_elem_of_here.
    + reflexivity.
    + reflexivity.
    + vm_compute. intros Hin.
      repeat (apply elem_of_cons in Hin as [Hin|Hin]; [discriminate Hin|]).
      by apply elem_of_nil in Hin.
    + rewrite Hrun. reflexivity.
Defined.

Lemma deleteAvailabilitySlot_store (del : request uuid unit) (s : store) :
  (deleteAvailabilitySlot del s).2
  = with_slots (sql_update (λ sl, sl_id sl = req_params del) deactivate
                           (availability_slots s)) s.
Proof.
  unfold deleteAvailabilitySlot. cbn [availability_slots with_slots].
  by destruct (filter (λ sl, sl_id sl = req_params del) (sql_update _ _ _)).
Qed.

Lemma deleteAvailabilitySlot_found (del : request uuid unit) (s : store)
    (sl : availability_slot) :
  sl ∈ availability_slots s → sl_id sl = req_params del →
  (deleteAvailabilitySlot del s).1 = Ok ().
Proof.
  intros Hin Hid. unfold deleteAvailabilitySlot.
  cbn [availability_slots with_slots].
  destruct (filter (λ sl, sl_id sl = req_params del) (sql_update _ _ _))
    as [|x rows] eqn:Hf; [|done].
  exfalso. apply (proj1 (filter_nil_iff _ _) Hf (deactivate sl)); [|done].
  apply sql_update_elem. exists sl. split; [done|]. by left.
Qed.

Lemma sql_update_idem {A} (P : A → Prop) `{!∀ x, Decision (P x)} (f : A → A)
    (rows : list A) :
  (∀ x, P x → P (f x) ∧ f (f x) = f x) →
  sql_update P f (sql_update P f rows) = sql_update P f rows.
Proof.
  intros Hf. unfold sql_update. rewrite <- list_fmap_compose.
  apply list_fmap_ext. intros i x _. simpl.
  destruct (decide (P x)) as [Hx|Hx].
  - destruct (Hf x Hx) as [HP Hff]. by rewrite decide_True.
  - by rewrite decide_False.
Qed.

(** X19.  A slot that addAvailabilitySlot has stored is on offer in the
    availability list of its event type; once deleteAvailabilitySlot has
    run on its id, by whichever caller, no slot with that id is on offer
    any more, and running it again is answered 200 again and changes
    nothing. *)
Theorem slot_offered_until_deleted {raw_body}
    (validate_slot : raw_body → slot_validation) (new_id : uuid) (now : instant)
    (req : request uuid raw_body) (s : store) (row : availability_slot)
    (s1 : store) (del : request uuid unit) :
  addAvailabilitySlot validate_slot new_id now req s = (Created row, s1) →
  req_params del = new_id →
  (∀ get : request uuid unit, req_params get = req_params req →
     row ∈ getAvailabilitySlots get s1) ∧
  (deleteAvailabilitySlot del s1).1 = Ok () ∧
  (∀ (get : request uuid unit) sl,
     sl ∈ getAvailabilitySlots get (deleteAvailabilitySlot del s1).2 →
     sl_id sl ≠ new_id) ∧
  deleteAvailabilitySlot del (deleteAvailabilitySlot del s1).2
  = (Ok (), (deleteAvailabilitySlot del s1).2).
Proof.
  intros Hadd Hdel. unfold addAvailabilitySlot in Hadd.
  destruct (validate_slot (req_body req)) as [|d]; [discriminate Hadd|].
  destruct (filter (owns_event _ _) (event_types s)); [discriminate Hadd|].
  case_decide as Hfresh; [discriminate Hadd|].
  injection Hadd as <- <-.
  set (row := {| sl_id := new_id; sl_event_type_id := req_params req;
                 sl_day_of_week := sd_day_of_week d;
                 sl_start_time := sd_start_time d;
                 sl_end_time := sd_end_time d;
                 sl_is_active := true; sl_updated_at := now |}).
  set (s1 := with_slots (availability_slots s ++ [row]) s).
  assert (row ∈ availability_slots s1) as Hrow
    by (simpl; apply elem_of_app; right; by left).
  split_and!.
  - intros get Hget. unfold getAvailabilitySlots.
    rewrite merge_sort_Permutation. apply list_elem_of_filter.
    split; [by split|done].
  - by apply (deleteAvailabilitySlot_found del s1 row).
  - intros get sl Hin Hid. unfold getAvailabilitySlots in Hin.
    rewrite merge_sort_Permutation in Hin.
    apply list_elem_of_filter in Hin as [[_ Hact] Hin].
    rewrite deleteAvailabilitySlot_store in Hin. simpl in Hin.
    apply sql_update_elem in Hin as (r & Hr & [[_ ->]|[Hne ->]]).
    + discriminate Hact.
    + apply Hne. congruence.
  - rewrite (surjective_pairing (deleteAvailabilitySlot del _)). f_equal.
    + apply (deleteAvailabilitySlot_found del _ (deactivate row)); [|by simpl].
      rewrite deleteAvailabilitySlot_store. simpl.
      apply sql_update_elem. exists row. split; [done|]. left. by split.
    + rewrite !deleteAvailabilitySlot_store. unfold with_slots. simpl.
      by rewrite sql_update_idem.
Qed.

(** The owner adds the Friday slot [s7], anyone sees it, the intruder
    deletes it. *)
Lemma slot_offered_until_deleted_witness :
  sl_id <$>
    getAvailabilitySlots (Scenario.as_intruder "e1"%string ())
      (addAvailabilitySlot (λ d, SlotValid d) "s7"%string 100
         (Scenario.as_owner "e1"%string
            {| sd_day_of_week := Friday; sd_start_time := 32400;
               sd_end_time := 34200 |})
         Scenario.empty).2
  = ["s2"%string; "s1"%string; "s3"%string; "s7"%string]
  ∧
  (deleteAvailabilitySlot (Scenario.as_intruder "s7"%string ())
     (addAvailabilitySlot (λ d, SlotValid d) "s7"%string 100
        (Scenario.as_owner "e1"%string
           {| sd_day_of_week := Friday; sd_start_time := 32400;
              sd_end_time := 34200 |})
        Scenario.empty).2).1
  = Ok ().
Proof.
  split; [vm_compute; reflexivity|].
  apply (slot_offered_until_deleted (λ d, SlotValid d) "s7"%string 100
    (Scenario.as_owner "e1"%string
       {| sd_day_of_week := Friday; sd_start_time := 32400; sd_end_time := 34200 |})
    Scenario.empty
    {| sl_id := "s7"%string; sl_event_type_id := "e1"%string;
       sl_day_of_week := Friday; sl_start_time := 32400; sl_end_time := 34200;
       sl_is_active := true; sl_updated_at := 100 |}
    _ (Scenario.as_intruder "s7"%string ())); reflexivity.
Defined.

(** ** Event types *)

Lemma sql_update_none {A} (P : A → Prop) `{!∀ x, Decision (P x)} (f : A → A)
    (rows : list A) :
  (∀ x, x ∈ rows → ¬ P x) → sql_update P f rows = rows.
Proof.
  intros Hnone. unfold sql_update. induction rows as [|x rows IH]; [done|].
  rewrite fmap_cons, decide_False by (apply Hnone; by left).
  f_equal. apply IH. intros y Hy. apply Hnone. by right.
Qed.

Lemma with_event_types_id (s : store) : with_event_types (event_types s) s = s.
Proof. by destruct s. Qed.

Lemma deleteEventType_store (now : instant) (req : request uuid unit) (s : store) :
  (deleteEventType now req s).2
  = with_event_types
      (sql_update (owns_event (req_userId req) (req_params req)) (set_deleted now)
                  (event_types s)) s.
Proof.
  unfold deleteEventType. cbn [event_types with_event_types].
  by destruct (filter (owns_event _ _) (sql_update _ _ _)).
Qed.

Lemma deleteEventType_found (now : instant) (req : request uuid unit) (s : store) :
  (deleteEventType now req s).1 = Ok () ↔
  ∃ et, et ∈ event_types s ∧ owns_event (req_userId req) (req_params req) et.
Proof.
  unfold deleteEventType. cbn [event_types with_event_types].
  destruct (filter (owns_event _ _) (sql_update _ _ _)) as [|x rows] eqn:Hf.
  - split; [done|]. intros (et & Het & Hown). exfalso.
    apply (proj1 (filter_nil_iff _ _) Hf (set_deleted now et)); [|done].
    apply sql_update_elem. exists et. split; [done|]. by left.
  - split; [|done]. intros _.
    destruct (filter_head_elem _ _ _ _ Hf) as [Hin Hown].
    apply sql_update_elem in Hin as (et & Het & [[Ho ->]|[Ho ->]]);
      exists et; by split.
Qed.

(** X20.  deleteEventType checks the owner and not the deletion marker: a
    caller who owns no event type with the given id is answered 404 and
    nothing is written; for the owner the answer is 200, the event type
    gets the current instant as its deletion stamp, and bookings, slots,
    users and analytics are untouched; deleting it once more is answered
    200 again and moves the stamp. *)
Theorem deleteEventType_checks_owner (now now' : instant)
    (req : request uuid unit) (s : store) :
  ((∀ et, et ∈ event_types s →
      ¬ (et_id et = req_params req ∧ et_user_id et = req_userId req)) →
   deleteEventType now req s = (NotFound, s)) ∧
  (∀ et (i : nat), event_types s !! i = Some et →
     et_id et = req_params req → et_user_id et = req_userId req →
     let s1 := (deleteEventType now req s).2 in
     (deleteEventType now req s).1 = Ok () ∧
     event_types s1 !! i = Some (set_deleted now et) ∧
     bookings s1 = bookings s ∧
     availability_slots s1 = availability_slots s ∧
     users s1 = users s ∧ analytics s1 = analytics s ∧
     (deleteEventType now' req s1).1 = Ok () ∧
     event_types (deleteEventType now' req s1).2 !! i = Some (set_deleted now' et)).
Proof.
  split.
  - intros Hnone.
    rewrite (surjective_pairing (deleteEventType now req s)). f_equal.
    + unfold deleteEventType. cbn [event_types with_event_types].
      rewrite (sql_update_none _ _ _ Hnone).
      by rewrite (proj2 (filter_nil_iff _ _) Hnone).
    + rewrite deleteEventType_store, (sql_update_none _ _ _ Hnone).
      apply with_event_types_id.
  - intros et i Hi Hid Hu s1. subst s1.
    assert (owns_event (req_userId req) (req_params req) et) as Hown by done.
    assert (event_types (deleteEventType now req s).2 !! i
            = Some (set_deleted now et)) as Hi1.
    { rewrite deleteEventType_store. simpl.
      rewrite sql_update_lookup, Hi. simpl. by rewrite decide_True. }
    split_and!; try (rewrite deleteEventType_store; done).
    + apply deleteEventType_found. exists et. split; [|done].
      by apply list_elem_of_lookup_2 in Hi.
    + done.
    + apply deleteEventType_found. exists (set_deleted now et). split; [|done].
      by apply list_elem_of_lookup_2 in Hi1.
    + rewrite (deleteEventType_store now'). simpl.
      rewrite sql_update_lookup, Hi1. simpl. by rewrite decide_True.
Qed.

(** The intruder cannot delete the consultation; its owner can. *)
Lemma deleteEventType_checks_owner_witness :
  deleteEventType 500 (Scenario.as_intruder "e1"%string ()) Scenario.booked
  = (NotFound, Scenario.booked) ∧
  (deleteEventType 500 (Scenario.as_owner "e1"%string ()) Scenario.booked).1
  = Ok ().
Proof.
  split.
  - apply (proj1 (deleteEventType_checks_owner 500 600
                    (Scenario.as_intruder "e1"%string ()) Scenario.booked)).
    intros et Het [_ Hu]. vm_compute in Het.
    apply list_elem_of_singleton in Het. subst et. discriminate Hu.
  - exact (proj1 (proj2 (deleteEventType_checks_owner 500 600
                    (Scenario.as_owner "e1"%string ()) Scenario.booked)
                  Scenario.consultation 0%nat eq_refl eq_refl eq_refl)).
Defined.

(** X21.  With unique event type ids, once deleteEventType has answered
    200 the event type is gone for its owner and for guests: getEventType
    answers 404, and every createBooking request for it is answered 404
    and writes nothing; the bookings made before are all still stored as
    they were. *)
Theorem deleted_event_type_unbookable {raw_body} (validate : raw_body → validation)
    (now : instant) (req : request uuid unit) (s : store) :
  NoDup (et_id <$> event_types s) →
  (deleteEventType now req s).1 = Ok () →
  let s1 := (deleteEventType now req s).2 in
  bookings s1 = bookings s ∧
  getEventType req s1 = NotFound ∧
  ∀ e body d, validate body = Valid d → event_type_id d = req_params req →
    createBooking validate e body s1 = (NotFound, s1).
Proof.
  intros Hnd Hok s1.
  apply deleteEventType_found in Hok as (et0 & Het0 & [Hid0 Hu0]).
  assert (∀ et, et ∈ event_types s1 → et_id et = req_params req →
                et_deleted_at et ≠ None) as Hgone.
  { intros et Het Hid. subst s1. rewrite deleteEventType_store in Het.
    simpl in Het. apply sql_update_elem in Het as (r & Hr & [[_ ->]|[Hno ->]]).
    - done.
    - exfalso. apply Hno.
      assert (r = et0) as -> by (apply (NoDup_key_inj et_id (event_types s));
                                 congruence).
      by split. }
  split_and!.
  - subst s1. by rewrite deleteEventType_store.
  - unfold getEventType. rewrite (proj2 (filter_nil_iff _ _)); [done|].
    intros et Het [[Hid _] Hdel]. by apply (Hgone et).
  - intros e body d Hv Hd.
    apply (createBooking_no_event_type validate e body s1 d Hv).
    intros et Het (Hid & _ & Hdel). apply (Hgone et); congruence.
Qed.

(** The consultation is deleted while the 10:00 booking exists: the
    booking stays, a request for 11:00 is answered 404. *)
Lemma deleted_event_type_unbookable_witness :
  length (bookings
            (deleteEventType 500 (Scenario.as_owner "e1"%string ()) Scenario.booked).2)
  = 1%nat ∧
  (createBooking Scenario.validate
     (Scenario.env_with "b2"%string 1500 (Returned None))
     (Scenario.guest_request (Scenario.after 60))
     (deleteEventType 500 (Scenario.as_owner "e1"%string ()) Scenario.booked).2).1
  = NotFound.
Proof.
  unshelve epose proof (deleted_event_type_unbookable Scenario.validate 500
    (Scenario.as_owner "e1"%string ()) Scenario.booked _ _) as (Hb & _ & Hcreate).
  - vm_compute. apply NoDup_singleton.
  - vm_compute. reflexivity.
  - split.
    + rewrite Hb. reflexivity.
    + by rewrite (Hcreate (Scenario.env_with "b2"%string 1500 (Returned None))
                    (Scenario.guest_request (Scenario.after 60))
                    (Scenario.guest_request (Scenario.after 60)) eq_refl eq_refl).
Defined.

(** ** Dashboard *)

Lemma case_status_sum (rows : list booking) :
  foldr Z.add 0 (case_status Confirmed <$> rows)
  + foldr Z.add 0 (case_status Cancelled <$> rows)
  = Z.of_nat (length rows) ∧
  0 ≤ foldr Z.add 0 (case_status Confirmed <$> rows) ∧
  0 ≤ foldr Z.add 0 (case_status Cancelled <$> rows).
Proof.
  induction rows as [|b rows (IH & IHc & IHx)]; [done|].
  assert (case_status Confirmed b + case_status Cancelled b = 1 ∧
          0 ≤ case_status Confirmed b ∧ 0 ≤ case_status Cancelled b) as Hb
    by (unfold case_status; destruct (b_status b); simpl; lia).
  rewrite !fmap_cons. cbn [foldr length]. lia.
Qed.

#[local] Instance newer_first_total : Total newer_first.
Proof. intros a b. unfold newer_first. lia. Qed.

(** X22.  The dashboard counts the caller's bookings created in the last
    30 days, soft-deleted ones included.  When there is none, the total is
    0 and the confirmed and cancelled figures are not numbers (the SUM over
    no rows is NULL).  Otherwise both are numbers, neither is negative and
    they add up to the total.  The recent list has at most 10 rows, all of
    them bookings of the caller that are not soft-deleted. *)
Theorem getDashboard_figures (now : instant) (req : request unit unit) (s : store) :
  let d := getDashboard now req s in
  let counted b :=
    b_user_id b = req_userId req ∧ now - 30 * ms_per_day ≤ b_created_at b in
  dash_total d = Z.of_nat (length (filter counted (bookings s))) ∧
  ((∀ b, b ∈ bookings s → ¬ counted b) →
     dash_total d = 0 ∧ dash_confirmed d = None ∧ dash_cancelled d = None) ∧
  ((∃ b, b ∈ bookings s ∧ counted b) →
     ∃ c x, dash_confirmed d = Some c ∧ dash_cancelled d = Some x ∧
            0 ≤ c ∧ 0 ≤ x ∧ c + x = dash_total d) ∧
  (length (dash_recent d) ≤ 10)%nat ∧
  (∀ b, b ∈ dash_recent d →
     b ∈ bookings s ∧ b_user_id b = req_userId req ∧ b_deleted_at b = None).
Proof.
  intros d counted. subst d counted. unfold getDashboard.
  cbn [dash_total dash_confirmed dash_cancelled dash_recent].
  split_and!.
  - done.
  - intros Hnone. rewrite (proj2 (filter_nil_iff _ _) Hnone). done.
  - intros Hex. destruct (proj2 (filter_cons_iff _ _) Hex) as (b & l & ->).
    destruct (case_status_sum (b :: l)) as (Hsum & Hc & Hx).
    rewrite !fmap_cons. simpl. eexists _, _.
    split; [reflexivity|]. split; [reflexivity|].
    exact (conj Hc (conj Hx Hsum)).
  - rewrite length_take. lia.
  - intros b Hin. apply subseteq_take in Hin.
    rewrite merge_sort_Permutation in Hin.
    apply list_elem_of_filter in Hin. tauto.
Qed.

(** The intruder has no booking: the dashboard shows a total of 0 and no
    number for confirmed; the owner of [Scenario.cancelled_once] sees 1
    booking, 0 confirmed and 1 cancelled. *)
Lemma getDashboard_figures_witness :
  dash_confirmed (getDashboard 5000 (Scenario.as_intruder () ()) Scenario.booked)
  = None ∧
  (let d := getDashboard 5000 (Scenario.as_owner () ()) Scenario.cancelled_once in
   (dash_total d, dash_confirmed d, dash_cancelled d)) = (1, Some 0, Some 1).
Proof.
  split; [|vm_compute; reflexivity].
  apply (proj1 (proj2 (getDashboard_figures 5000 (Scenario.as_intruder () ())
                         Scenario.booked))).
  intros b Hb [Hu _]. vm_compute in Hb.
  apply list_elem_of_singleton in Hb. subst b. discriminate Hu.
Defined.

(** ** Reading back what was written *)

(** X23.  A booking that createBooking has stored can be read back: for
    the owner of the event type, getBooking on the new id answers with
    exactly the stored row, and an unfiltered listBookings with offset 0
    and room for all the owner's bookings contains it. *)
Theorem created_booking_readable {raw_body} (validate : raw_body → validation)
    (e : env) (body : raw_body) (s : store) (row : booking) (s' : store) :
  createBooking validate e body s = (Created row, s') →
  (∀ get : request uuid unit,
     req_userId get = b_user_id row → req_params get = b_id row →
     getBooking get s' = Ok row) ∧
  (∀ list : request unit list_query,
     req_userId list = b_user_id row →
     q_status (req_body list) = None → q_eventTypeId (req_body list) = None →
     q_startDate (req_body list) = None → q_endDate (req_body list) = None →
     q_offset (req_body list) = 0%nat →
     (length (bookings s') ≤ q_limit (req_body list))%nat →
     row ∈ listBookings list s').
Proof.
  intros Hrun. apply createBooking_created in Hrun
    as (d & et & u & rest & _ & _ & _ & Hfresh & Hrow & Hb & _).
  assert (b_id row = env_uuid e ∧ b_deleted_at row = None) as [Hid Hdel]
    by (by subst row).
  split.
  - intros get Hu Hp. unfold getBooking. rewrite Hb, filter_app.
    rewrite (proj2 (filter_nil_iff _ (bookings s))).
    + rewrite filter_cons_True by done. done.
    + intros b Hin (Hbid & _). apply Hfresh. rewrite <- Hid, <- Hp, <- Hbid.
      by apply list_elem_of_fmap_2.
  - intros list Hu Hst Het Hsd Hed Hoff Hlim.
    assert (listed (req_userId list) (req_body list) row) as Hlisted.
    { unfold listed. rewrite Hst, Het, Hsd, Hed. simpl. by split_and!. }
    rewrite listBookings_all; try done.
    + apply list_elem_of_filter. split; [done|].
      rewrite Hb. apply elem_of_app. right. by left.
    + etransitivity; [apply length_filter|done].
Qed.

(** The owner reads the 10:00 booking of the scenario back. *)
Lemma created_booking_readable_witness :
  getBooking (Scenario.as_owner "b1"%string ()) Scenario.booked
  = Ok (new_booking (Scenario.env_with "b1"%string 1000 (Returned None))
          (Scenario.guest_request Scenario.monday_10_00) Scenario.consultation
          (Scenario.after 30)).
Proof.
  exact (proj1 (created_booking_readable Scenario.validate
    (Scenario.env_with "b1"%string 1000 (Returned None))
    (Scenario.guest_request Scenario.monday_10_00) Scenario.empty
    _ Scenario.booked eq_refl) (Scenario.as_owner "b1"%string ()) eq_refl eq_refl).
Defined.

(** X24.  In every store reachable through createBooking, cancelBooking
    and rescheduleBooking, every booking refers to an event type that is
    stored, is owned by the owner of the booking and has the booking's
    duration; so the event type lookup of cancelBooking never comes back
    empty. *)
Theorem booking_refers_to_event_type {raw_body}
    (validate : raw_body → validation) (s : store) (b : booking) :
  reachable validate s →
  b ∈ bookings s →
  ∃ et, et ∈ event_types s ∧ et_id et = b_event_type_id b ∧
        et_user_id et = b_user_id b ∧
        et_duration_minutes et = b_duration_minutes b.
Proof.
  intros Hreach. revert b.
  induction Hreach as [s Hnil|s e body Hreach IH|s now req Hreach IH
                       |s now req Hreach IH]; intros b Hb.
  - rewrite Hnil in Hb. by apply elem_of_nil in Hb.
  - destruct (createBooking_cases validate e body s)
      as [(r & Hr & _)|(row & s' & Hr & Hfrom)]; rewrite Hr in Hb |- *; simpl in *;
      [by apply IH|].
    destruct Hfrom as (d & et & u & rest & _ & Hsel & _ & _ & -> & Hbs & _ & Hev & _).
    rewrite Hev. rewrite Hbs in Hb.
    apply elem_of_app in Hb as [Hb|Hb]; [by apply IH|].
    apply list_elem_of_singleton in Hb as ->.
    assert ((et, u) ∈ select_event_type s (event_type_id d)) as Hin
      by (rewrite Hsel; by left).
    apply select_event_type_elem in Hin as (Het & (Hid & _) & _).
    exists et. by split_and!.
  - destruct (cancelBooking_cases now req s)
      as [[Hr _]|(b0 & r & _ & Hfrom)]; [rewrite Hr in Hb |- *; by apply IH|].
    destruct Hfrom as (_ & _ & Hbs & _ & Hev & _). rewrite Hev.
    rewrite Hbs in Hb.
    apply sql_update_elem in Hb as (r0 & Hr0 & [[_ ->]|[_ ->]]);
      exact (IH r0 Hr0).
  - destruct (rescheduleBooking_cases now req s)
      as [(r & Hr & _)|(t & old & r & _ & Hfrom)];
      [rewrite Hr in Hb |- *; by apply IH|].
    destruct Hfrom as (_ & _ & _ & _ & Hbs & _ & Hev & _). rewrite Hev.
    rewrite Hbs in Hb.
    apply sql_update_elem in Hb as (r0 & Hr0 & [[_ ->]|[_ ->]]);
      exact (IH r0 Hr0).
Qed.

(** The cancelled booking of the scenario still refers to the
    consultation. *)
Lemma booking_refers_to_event_type_witness :
  ∃ b et, bookings Scenario.cancelled_once = [b] ∧
          et ∈ event_types Scenario.cancelled_once ∧
          et_id et = b_event_type_id b.
Proof.
  eexists _. 
  destruct (booking_refers_to_event_type Scenario.validate Scenario.cancelled_once
    (set_cancelled 2000 (Some "first reason"%string)
       (new_booking (Scenario.env_with "b1"%string 1000 (Returned None))
          (Scenario.guest_request Scenario.monday_10_00)
          Scenario.consultation (Scenario.after 30))))
    as (et & Het & Hid & _).
  - apply reach_cancel, reach_create, reach_init. reflexivity.
  - vm_compute. apply list_elem_of_here.
  - exists et. split; [vm_compute; reflexivity|]. by split.
Defined.

(** ** rescheduleBooking and the soft-delete marker *)

(** X25.  rescheduleBooking does not look at the soft-delete marker.  In a
    store with unique booking ids, a confirmed booking of the caller that
    is soft-deleted cannot be read and cannot be cancelled (404 both), yet
    it can be moved: when the conflict query of rescheduleBooking finds
    no row for the body, the answer is 200, and the row, still
    soft-deleted, starts at the body's wall-clock reading and ends at the
    body's instant plus the duration. *)
Theorem soft_deleted_booking_can_be_moved (now : instant)
    (uid bid : uuid) (body : time_string) (s : store) (old : booking)
    (t : instant) :
  NoDup (b_id <$> bookings s) →
  old ∈ bookings s →
  b_id old = bid → b_user_id old = uid → b_status old = Confirmed →
  b_deleted_at old = Some t →
  (∀ b, b ∈ bookings s → b_id b ≠ bid →
     b_event_type_id b = b_event_type_id old → b_status b = Confirmed →
     ¬ (b_scheduled_at b < js_date body + b_duration_minutes old * 60000 ∧
        pg_timestamp body < b_end_time b)) →
  getBooking {| req_userId := uid; req_params := bid; req_body := () |} s
  = NotFound ∧
  cancelBooking now {| req_userId := uid; req_params := bid; req_body := None |} s
  = (NotFound, s) ∧
  ∃ r, (rescheduleBooking now
          {| req_userId := uid; req_params := bid; req_body := Some body |} s).1
       = Ok r ∧
       b_scheduled_at r = pg_timestamp body ∧
       b_end_time r = js_date body + b_duration_minutes old * 60000 ∧
       b_deleted_at r = Some t.
Proof.
  intros Hnd Hold Hid Hu Hst Hdel Hfree.
  assert (∀ b, b ∈ bookings s → ¬ visible_to uid bid b) as Hhidden.
  { intros b Hb (Hbid & _ & Hnone).
    assert (b = old) as -> by (apply (NoDup_key_inj b_id (bookings s)); congruence).
    congruence. }
  split_and!.
  - unfold getBooking. simpl. by rewrite (proj2 (filter_nil_iff _ _) Hhidden).
  - unfold cancelBooking. simpl. by rewrite (proj2 (filter_nil_iff _ _) Hhidden).
  - destruct (rescheduleBooking_cases now
      {| req_userId := uid; req_params := bid; req_body := Some body |} s)
      as [(r & Hr & [[_ Hb]|[[_ Hnf]|Hc]])|(ns & old' & r & Hok & Hfrom)].
    + discriminate Hb.
    + exfalso. simpl in Hnf.
      by apply (proj1 (filter_nil_iff _ _) Hnf old).
    + exfalso. subst r. unfold rescheduleBooking in Hr. simpl in Hr.
      destruct (filter (reschedulable uid bid) (bookings s)) as [|o l] eqn:Hfound;
        [discriminate Hr|].
      destruct (filter_head_elem _ _ _ _ Hfound) as [Ho (Hoid & _)].
      assert (o = old) as -> by (apply (NoDup_key_inj b_id (bookings s)); congruence).
      destruct (filter (conflicts_with_other _ _ _ _) (bookings s)) as [|c l'] eqn:Hf.
      * destruct (filter (λ b, b_id b = bid) _); discriminate Hr.
      * destruct (filter_head_elem _ _ _ _ Hf) as [Hcin (Hne & Het & Hcs & Hov)].
        apply (Hfree c Hcin Hne Het Hcs).
        unfold overlaps, add_minutes, ms_per_minute in Hov. lia.
    + exists r. split; [done|].
      destruct Hfrom as (Hbody & Ho' & (Hoid & _) & _ & Hbs & _).
      simpl in Hbody, Hoid, Hbs. injection Hbody as <-.
      assert (old' = old) as -> by (apply (NoDup_key_inj b_id (bookings s)); congruence).
      unfold rescheduleBooking in Hok. simpl in Hok.
      destruct (filter (reschedulable uid bid) (bookings s)) as [|o l] eqn:Hfound;
        [discriminate Hok|].
      destruct (filter_head_elem _ _ _ _ Hfound) as [Ho (Hoid' & _)].
      assert (o = old) as -> by (apply (NoDup_key_inj b_id (bookings s)); congruence).
      destruct (filter (conflicts_with_other _ _ _ _) (bookings s));
        [|discriminate Hok].
      cbn [bookings with_bookings with_slots] in Hok.
      destruct (filter (λ b, b_id b = bid) (sql_update _ _ _)) as [|x l'] eqn:Hx;
        [discriminate Hok|].
      injection Hok as <-.
      destruct (filter_head_elem _ _ _ _ Hx) as [Hxin Hxid].
      apply sql_update_elem in Hxin as (r0 & Hr0 & [[Hr0id ->]|[Hno ->]]);
        [|contradiction].
      assert (r0 = old) as -> by (apply (NoDup_key_inj b_id (bookings s)); congruence).
      by split_and!.
Qed.

(** The soft-deleted booking of [Scenario.hidden] is moved to 12:00 by
    its owner. *)
Lemma soft_deleted_booking_can_be_moved_witness :
  getBooking (Scenario.as_owner "b1"%string ()) Scenario.hidden = NotFound ∧
  ∃ r, (rescheduleBooking 3000
          (Scenario.as_owner "b1"%string (Some (utc (Scenario.after 120))))
          Scenario.hidden).1 = Ok r ∧
       b_scheduled_at r = Scenario.after 120 ∧
       b_end_time r = Scenario.after 150 ∧
       b_deleted_at r = Some 1200.
Proof.
  unshelve epose proof (soft_deleted_booking_can_be_moved 3000 "u1"%string
    "b1"%string (utc (Scenario.after 120)) Scenario.hidden
    (Scenario.soft_deleted
       (new_booking (Scenario.env_with "b1"%string 1000 (Returned None))
          (Scenario.guest_request Scenario.monday_10_00)
          Scenario.consultation (Scenario.after 30)))
    1200 _ _ eq_refl eq_refl eq_refl eq_refl _) as (Hget & _ & r & Hr & H).
  - vm_compute. apply NoDup_singleton.
  - vm_compute. apply list_elem_of_here.
  - intros b Hb Hne. vm_compute in Hb.
    apply list_elem_of_singleton in Hb. subst b. by destruct Hne.
  - split; [exact Hget|]. exists r. split; [exact Hr|exact H].
Defined.

(** X26.  In a store with unique booking ids, after a 200 of
    rescheduleBooking the stored start is the body's wall-clock reading,
    and the availability list of the booking's event type offers no slot
    that, on the weekday of the body's instant, intersects the window from
    the time of day of that instant to the time of day of the stored end;
    the move is counted neither as a booking nor as a cancellation (no
    analytics row changes), and users and event types are untouched. *)
Theorem rescheduleBooking_withdraws_slots (now : instant)
    (req : request uuid (option time_string)) (s : store) (r : booking) :
  NoDup (b_id <$> bookings s) →
  (rescheduleBooking now req s).1 = Ok r →
  let s' := (rescheduleBooking now req s).2 in
  analytics s' = analytics s ∧ users s' = users s ∧
  event_types s' = event_types s ∧
  ∃ body, req_body req = Some body ∧
    b_scheduled_at r = pg_timestamp body ∧
    b_end_time r = js_date body + b_duration_minutes r * 60000 ∧
    ∀ (get : request uuid unit) sl, sl ∈ getAvailabilitySlots get s' →
      sl_event_type_id sl = b_event_type_id r →
      sl_day_of_week sl = day_of_week (js_date body) →
      ¬ (sl_start_time sl < time_of_day (b_end_time r) ∧
         time_of_day (js_date body) < sl_end_time sl).
Proof.
  intros Hnd Hok s'. subst s'.
  destruct (rescheduleBooking_cases now req s)
    as [(r0 & Hr & [[-> _]|[[-> _]| ->]])|(body & old & r' & _ & Hfrom)];
    [rewrite Hr in Hok; discriminate Hok..|].
  destruct Hfrom as (Hbody & Hold & (Hoid & _) & _ & Hbs & Hu & Hev & Ha & Hsl).
  assert (r = set_schedule now (pg_timestamp body)
                (add_minutes (js_date body) (b_duration_minutes old)) old) as ->.
  { unfold rescheduleBooking in Hok. rewrite Hbody in Hok.
    destruct (filter (reschedulable _ _) (bookings s)) as [|o l] eqn:Hfound;
      [discriminate Hok|].
    destruct (filter_head_elem _ _ _ _ Hfound) as [Ho (Hoid' & _)].
    assert (o = old) as -> by (apply (NoDup_key_inj b_id (bookings s)); congruence).
    destruct (filter (conflicts_with_other _ _ _ _) (bookings s));
      [|discriminate Hok].
    cbn [bookings with_bookings with_slots] in Hok.
    destruct (filter (λ b, b_id b = req_params req) (sql_update _ _ _))
      as [|x l'] eqn:Hx; [discriminate Hok|].
    injection Hok as <-.
    destruct (filter_head_elem _ _ _ _ Hx) as [Hxin Hxid].
    apply sql_update_elem in Hxin as (r0 & Hr0 & [[Hr0id ->]|[Hno ->]]);
      [|contradiction].
    assert (r0 = old) as -> by (apply (NoDup_key_inj b_id (bookings s)); congruence).
    done. }
  split_and!; try done.
  exists body. split_and!; try done.
  intros get sl Hin Het Hday Hov. simpl in Het, Hov.
  unfold getAvailabilitySlots in Hin. rewrite merge_sort_Permutation in Hin.
  apply list_elem_of_filter in Hin as [[_ Hact] Hin].
  rewrite Hsl in Hin. unfold consumeSlot at 1 in Hin.
  apply sql_update_elem in Hin as (x & Hx & [[Hint ->]|[Hint ->]]).
  - discriminate Hact.
  - apply Hint. by split_and!.
Qed.

(** The 10:00 booking of [Scenario.booked_twice] is moved with the body
    ['1970-01-05T13:00:00+02:00'], which is 11:00 UTC: the 10:00 slot is
    on offer again and the 11:00 slot leaves the offer, while the stored
    start is 13:00. *)
Lemma rescheduleBooking_withdraws_slots_witness :
  sl_id <$> getAvailabilitySlots (Scenario.as_intruder "e1"%string ())
              Scenario.booked_twice = ["s3"%string] ∧
  sl_id <$> getAvailabilitySlots (Scenario.as_intruder "e1"%string ())
              (rescheduleBooking 3000
                 (Scenario.as_owner "b1"%string
                    (Some {| ts_wall_clock := Scenario.after 180;
                             ts_offset_minutes := 120 |}))
                 Scenario.booked_twice).2 = ["s1"%string] ∧
  analytics (rescheduleBooking 3000
               (Scenario.as_owner "b1"%string
                  (Some {| ts_wall_clock := Scenario.after 180;
                           ts_offset_minutes := 120 |}))
               Scenario.booked_twice).2
  = analytics Scenario.booked_twice.
Proof.
  unshelve epose proof (rescheduleBooking_withdraws_slots 3000
    (Scenario.as_owner "b1"%string
       (Some {| ts_wall_clock := Scenario.after 180; ts_offset_minutes := 120 |}))
    Scenario.booked_twice
    (set_schedule 3000 (Scenario.after 180) (Scenario.after 90)
       (new_booking (Scenario.env_with "b1"%string 1000 (Returned None))
          (Scenario.guest_request Scenario.monday_10_00)
          Scenario.consultation (Scenario.after 30))) _ _) as (Ha & _).
  - vm_compute. apply NoDup_cons. split; [|apply NoDup_singleton].
    intros Hin. apply list_elem_of_singleton in Hin. discriminate Hin.
  - vm_compute. reflexivity.
  - split_and!; [vm_compute; reflexivity|vm_compute; reflexivity|exact Ha].
Defined.

(** The owner's list of [Scenario.booked_twice]: the 10:30 booking comes
    before the 10:00 booking. *)
Lemma listBookings_answer_witness :
  b_id <$>
    listBookings
      (Scenario.as_owner ()
         {| q_status := None; q_eventTypeId := None; q_startDate := None;
            q_endDate := None; q_limit := 50; q_offset := 0 |})
      Scenario.booked_twice
  = ["b2"%string; "b1"%string] ∧
  ∀ b1 b2,
    listBookings
      (Scenario.as_owner ()
         {| q_status := None; q_eventTypeId := None; q_startDate := None;
            q_endDate := None; q_limit := 50; q_offset := 0 |})
      Scenario.booked_twice = [b1; b2] →
    b_scheduled_at b2 ≤ b_scheduled_at b1.
Proof.
  split; [vm_compute; reflexivity|]. intros b1 b2 Hlist.
  apply (proj1 (listBookings_answer
                  (Scenario.as_owner ()
                     {| q_status := None; q_eventTypeId := None;
                        q_startDate := None; q_endDate := None;
                        q_limit := 50; q_offset := 0 |})
                  Scenario.booked_twice) 0%nat 1%nat b1 b2).
  - lia.
  - by rewrite Hlist.
  - by rewrite Hlist.
Defined.

(** Monday 10:00 one week later is a Monday 10:00. *)
Lemma weekly_projection_witness :
  day_of_week (Scenario.monday_10_00 + 1 * 7 * ms_per_day) = Monday ∧
  time_of_day (Scenario.monday_10_00 + 1 * 7 * ms_per_day) = 36000.
Proof.
  destruct (weekly_projection Scenario.monday_10_00 1) as (_ & _ & Hday & Htime & _).
  split.
  - etransitivity; [exact Hday|reflexivity].
  - etransitivity; [exact Htime|reflexivity].
Defined.

(** The slots on offer for the consultation, as the intruder sees them:
    09:45 before 10:00 before 11:00. *)
Lemma getAvailabilitySlots_answer_witness :
  sl_id <$> getAvailabilitySlots (Scenario.as_intruder "e1"%string ()) Scenario.empty
  = ["s2"%string; "s1"%string; "s3"%string] ∧
  getAvailabilitySlots (Scenario.as_intruder "e1"%string ()) Scenario.empty
  = getAvailabilitySlots (Scenario.as_owner "e1"%string ()) Scenario.empty.
Proof.
  split; [vm_compute; reflexivity|].
  exact (proj2 (proj2 (getAvailabilitySlots_answer
                         (Scenario.as_owner "e1"%string ()) Scenario.empty))
               (Scenario.as_intruder "e1"%string ()) eq_refl).
Defined.
